(** * Telemetry anomaly analysis tools of UAVLogViewer (backend/tools.py)

    A shallow embedding of the analysis tools that [backend/tools.py]
    registers in [all_tools], together with the properties of the
    specification that concern them.

    Modelling conventions.
    - A Python [float] is an exact rational or NaN ([pyfloat := option Q],
      [None] being NaN).  Arithmetic is exact; rounding of binary64 and the
      infinities are outside the model.
    - A JSON value inside a log record is a number, a string or null
      ([cell]); a record is a finite map from field names to cells; a log is
      a list of records, a dictionary of columns, null or a scalar.
    - A tool returns [outcome string]: [Return s] when the Python function
      returns [s], [Raise e] when an exception leaves it.  [try]/[except]
      blocks are written with [catch].
    - The text of an exception ([str(e)]), the text of a raw cell inside an
      f-string and the network are parameters of the development.
    - [DataFrame.sort_values] is modelled by a stable insertion sort with NaN
      last; pandas leaves the order of equal keys unspecified. *)

From Stdlib Require Import QArith Qround Qabs ZArith String Ascii List Bool Lia Lqa.
From Stdlib Require Import DecimalString.
From stdpp Require Import gmap strings list sorting.
From Equations Require Import Equations.

Local Open Scope string_scope.
Local Open Scope list_scope.

(* ===================================================================== *)
(** ** Python strings *)
(* ===================================================================== *)

Definition LF : string := String (ascii_of_nat 10) EmptyString.

(** [hay.startswith(needle)] *)
Fixpoint starts_with (needle hay : string) : bool :=
  match needle, hay with
  | EmptyString, _ => true
  | String a needle', String b hay' => Ascii.eqb a b && starts_with needle' hay'
  | String _ _, EmptyString => false
  end.

(** [needle in hay] *)
Fixpoint contains (needle hay : string) : bool :=
  starts_with needle hay
  || match hay with
     | EmptyString => false
     | String _ rest => contains needle rest
     end.

Definition lower_ascii (c : ascii) : ascii :=
  let n := nat_of_ascii c in
  if (65 <=? n)%nat && (n <=? 90)%nat then ascii_of_nat (n + 32) else c.

(** [s.lower()], on the ASCII letters *)
Fixpoint lower (s : string) : string :=
  match s with
  | EmptyString => EmptyString
  | String c rest => String (lower_ascii c) (lower rest)
  end.

(** [sep.join(parts)] *)
Definition join (sep : string) (parts : list string) : string :=
  String.concat sep parts.

(* ===================================================================== *)
(** ** Python numbers and their formatting *)
(* ===================================================================== *)

(** A float: an exact rational, or NaN. *)
Definition pyfloat : Type := option Q.

Definition NaN : pyfloat := None.

Definition fdiv (x : pyfloat) (d : Z) : pyfloat :=
  match x with
  | Some q => Some (q / inject_Z d)%Q
  | None => None
  end.

Definition fsub (x y : pyfloat) : pyfloat :=
  match x, y with
  | Some a, Some b => Some (a - b)%Q
  | _, _ => None
  end.

Definition fadd (x y : pyfloat) : pyfloat :=
  match x, y with
  | Some a, Some b => Some (a + b)%Q
  | _, _ => None
  end.

(** Comparisons with NaN are false. *)
Definition flt (x y : pyfloat) : bool :=
  match x, y with
  | Some a, Some b => negb (Qle_bool b a)
  | _, _ => false
  end.

Definition fle (x y : pyfloat) : bool :=
  match x, y with
  | Some a, Some b => Qle_bool a b
  | _, _ => false
  end.

Definition feq (x y : pyfloat) : bool :=
  match x, y with
  | Some a, Some b => Qeq_bool a b
  | _, _ => false
  end.

Definition str_N (n : N) : string := NilZero.string_of_uint (N.to_uint n).

(** [str(z)] for an integer *)
Definition str_int (z : Z) : string :=
  if (z <? 0)%Z then "-" +:+ str_N (Z.abs_N z) else str_N (Z.to_N z).

(** [f"{z:02d}"] *)
Definition fmt_02d (z : Z) : string :=
  if (0 <=? z)%Z && (z <? 10)%Z then "0" +:+ str_int z else str_int z.

(** Rounding to the nearest integer, ties to even. *)
Definition round_half_even (x : Q) : Z :=
  let f := Qfloor x in
  let d := (x - inject_Z f)%Q in
  if Qle_bool d (1 # 2)
  then if Qle_bool (1 # 2) d
       then (if Z.even f then f else f + 1)%Z
       else f
  else (f + 1)%Z.

(** [f"{q:.2f}"] *)
Definition fmt_2f (q : Q) : string :=
  let neg := negb (Qle_bool 0 q) in
  let cents := round_half_even (Qabs q * 100)%Q in
  let body := str_int (cents / 100)%Z +:+ "." +:+
              (let r := (cents mod 100)%Z in
               if (r <? 10)%Z then "0" +:+ str_int r else str_int r) in
  if neg then "-" +:+ body else body.

(** [divmod(q, 60)]: the floor quotient and the remainder in [0, 60). *)
Definition divmod60 (q : Q) : Z * Q :=
  let m := Qfloor (q / 60)%Q in (m, (q - inject_Z (60 * m))%Q).

(* ===================================================================== *)
(** ** Exceptions and results *)
(* ===================================================================== *)

(** The exception classes the tools can meet; all derive from
    [Exception]. *)
Inductive exn :=
| KeyError (key : string)
| TypeError
| ValueError
| Timeout
| RequestException
| RuntimeError.

Inductive outcome (A : Type) :=
| Return (a : A)
| Raise (e : exn).
Arguments Return {A} a.
Arguments Raise {A} e.

#[global] Instance outcome_ret : MRet outcome := fun A a => Return a.
#[global] Instance outcome_bind : MBind outcome := fun A B f m =>
  match m with
  | Return a => f a
  | Raise e => Raise e
  end.

(** [try: body except ...: handler] *)
Definition catch {A} (body : outcome A) (handler : exn -> outcome A) : outcome A :=
  match body with
  | Return a => Return a
  | Raise e => handler e
  end.

(** Running a fallible step on every element of a list, left to right. *)
Fixpoint for_each {A B} (f : A -> outcome B) (l : list A) : outcome (list B) :=
  match l with
  | [] => Return []
  | x :: rest => y ← f x; ys ← for_each f rest; Return (y :: ys)
  end.

(* ===================================================================== *)
(** ** Flight data: logs, records and data frames *)
(* ===================================================================== *)

(** A JSON value held by a field of a log record. *)
Inductive cell :=
| CNum (q : Q)
| CStr (s : string)
| CNull.

(** One log of the flight data: a list of records, a dictionary of
    columns, null, or a scalar (of which only the truth value matters). *)
Inductive log :=
| LRows (rows : list (gmap string cell))
| LWide (cols : gmap string (list cell))
| LNull
| LScalar (truthy : bool).

(** What [get_flight_data()] returns: [None] or the dictionary of logs. *)
Abbreviation dataset := (option (gmap string log)).

(** [not flight_data] *)
Definition no_data (fd : dataset) : bool :=
  match fd with
  | None => true
  | Some d => bool_decide (d = ∅)
  end.

(** [name in flight_data], for a dataset that is not [None] *)
Definition has_log (fd : dataset) (name : string) : bool :=
  match fd with
  | None => false
  | Some d => bool_decide (is_Some (d !! name))
  end.

(** Truth value of a log *)
Definition truthy (l : log) : bool :=
  match l with
  | LRows rows => negb (bool_decide (rows = []))
  | LWide cols => negb (bool_decide (cols = ∅))
  | LNull => false
  | LScalar b => b
  end.

(** [name in flight_data and flight_data[name]] *)
Definition has_truthy_log (fd : dataset) (name : string) : bool :=
  match fd with
  | None => false
  | Some d => match d !! name with
              | Some l => truthy l
              | None => false
              end
  end.

(** [flight_data[name]] *)
Definition get_log (fd : dataset) (name : string) : outcome log :=
  match fd with
  | None => Raise TypeError
  | Some d => match d !! name with
              | Some l => Return l
              | None => Raise (KeyError name)
              end
  end.

(** A pandas data frame: its column labels and its rows. *)
Record frame := Frame {
  columns : gset string;
  records : list (gmap string cell)
}.

Definition has_col (df : frame) (c : string) : bool :=
  bool_decide (c ∈ columns df).

(** The value of a row at a column; a field the record lacks is NaN. *)
Definition cell_at (c : string) (r : gmap string cell) : cell :=
  default CNull (r !! c).

(** [df.empty] *)
Definition frame_empty (df : frame) : bool :=
  bool_decide (columns df = ∅) || bool_decide (records df = []).

(** A column holding a string has dtype object; any other is float64. *)
Definition is_str (c : cell) : bool :=
  match c with CStr _ => true | _ => false end.

Definition object_column (df : frame) (c : string) : bool :=
  existsb (fun r => is_str (cell_at c r)) (records df).

(** [value is None]: only an explicit null of an object column stays
    [None]; everywhere else a null or missing field is NaN. *)
Definition is_None (df : frame) (c : string) (r : gmap string cell) : bool :=
  match r !! c with
  | Some CNull => object_column df c
  | _ => false
  end.

Definition transpose (n : nat) (cols : gmap string (list cell)) : list (gmap string cell) :=
  (fun i => (fun col : list cell => default CNull (col !! i)) <$> cols) <$> seq 0 n.

(** [pd.DataFrame(log)] *)
Definition DataFrame (l : log) : outcome frame :=
  match l with
  | LRows rows => Return (Frame (⋃ (dom <$> rows)) rows)
  | LWide cols =>
      let lens := (fun kv : string * list cell => length kv.2) <$> map_to_list cols in
      let n := default 0%nat (head lens) in
      if forallb (Nat.eqb n) lens
      then Return (Frame (dom cols) (transpose n cols))
      else Raise ValueError
  | LNull => Return (Frame ∅ [])
  | LScalar _ => Raise ValueError
  end.

(** Keeping the rows selected by a boolean mask: [df[mask]] *)
Fixpoint select {A} (mask : list bool) (rows : list A) : list A :=
  match mask, rows with
  | b :: mask', r :: rows' => if b then r :: select mask' rows' else select mask' rows'
  | _, _ => []
  end.

(** A cell read as a float for arithmetic: a string raises. *)
Definition num_cell (c : cell) : outcome pyfloat :=
  match c with
  | CNum q => Return (Some q)
  | CNull => Return NaN
  | CStr _ => Raise TypeError
  end.

(** [df[c]] *)
Definition column (df : frame) (c : string) : outcome (list cell) :=
  if has_col df c then Return (cell_at c <$> records df) else Raise (KeyError c).

(** [df[c] / divisor] *)
Definition column_div (df : frame) (c : string) (d : Z) : outcome (list pyfloat) :=
  cells ← column df c;
  for_each (fun x => v ← num_cell x; Return (fdiv v d)) cells.

(** [df[c] < k] and [df[c] > k] for a number [k] *)
Definition column_lt (df : frame) (c : string) (k : Q) : outcome (list bool) :=
  cells ← column df c;
  for_each (fun x => v ← num_cell x; Return (flt v (Some k))) cells.

Definition column_gt (df : frame) (c : string) (k : Q) : outcome (list bool) :=
  cells ← column df c;
  for_each (fun x => v ← num_cell x; Return (flt (Some k) v)) cells.

(** [cell == k] for a number [k]; never raises *)
Definition cell_eq_num (k : Q) (x : cell) : bool :=
  match x with
  | CNum q => Qeq_bool q k
  | _ => false
  end.

(** [cell in ks] for numbers [ks] *)
Definition cell_isin (ks : list Z) (x : cell) : bool :=
  existsb (fun k => cell_eq_num (inject_Z k) x) ks.

(** [df.sort_values(by=key)]: ascending, NaN last. *)
Definition key_le (a b : pyfloat) : bool :=
  match a, b with
  | Some x, Some y => Qle_bool x y
  | Some _, None => true
  | None, Some _ => false
  | None, None => true
  end.

Fixpoint insert_by {A} (key : A -> pyfloat) (x : A) (l : list A) : list A :=
  match l with
  | [] => [x]
  | y :: rest => if key_le (key x) (key y) then x :: y :: rest
                 else y :: insert_by key x rest
  end.

Definition sort_values {A} (key : A -> pyfloat) (l : list A) : list A :=
  foldr (insert_by key) [] l.

(** The first element with the best value, NaN skipped: [idxmax] with
    [better a b := b < a], [idxmin] with [better a b := a < b]. *)
Fixpoint arg_best {A} (better : Q -> Q -> bool) (best : option (Q * A))
    (l : list (pyfloat * A)) : option (Q * A) :=
  match l with
  | [] => best
  | (None, _) :: rest => arg_best better best rest
  | (Some v, x) :: rest =>
      match best with
      | None => arg_best better (Some (v, x)) rest
      | Some (b, _) => if better v b then arg_best better (Some (v, x)) rest
                       else arg_best better best rest
      end
  end.

Definition Qlt_bool (a b : Q) : bool := negb (Qle_bool b a).

(** [int(x)] for a float: truncation towards zero; NaN raises. *)
Definition trunc (q : Q) : Z :=
  if Qle_bool 0 q then Qfloor q else (- Qfloor (- q))%Z.

Definition int_of_float (x : pyfloat) : outcome Z :=
  match x with
  | Some q => Return (trunc q)
  | None => Raise ValueError
  end.

(** Lengths of the maximal runs of [true] *)
Fixpoint run_lengths (cur : nat) (l : list bool) : list nat :=
  match l with
  | [] => if (0 <? cur)%nat then [cur] else []
  | true :: rest => run_lengths (S cur) rest
  | false :: rest => if (0 <? cur)%nat then cur :: run_lengths 0 rest
                     else run_lengths 0 rest
  end.

Definition inspect {A : Type} (x : A) : { y : A | x = y } := exist _ x eq_refl.

(* ===================================================================== *)
(** ** Time normalisation *)
(* ===================================================================== *)

Definition TIME_COLUMNS_DIVISORS : list (string * Z) :=
  [("TimeUS", 1000000%Z); ("time_boot_ms", 1000%Z); ("TimeMS", 1000%Z)].

Definition _get_time_column_and_divisor (df : frame) : option string * Z :=
  match List.find (fun cd : string * Z => has_col df cd.1) TIME_COLUMNS_DIVISORS with
  | Some (col, divisor) => (Some col, divisor)
  | None => (None, 1%Z)
  end.

(** [next((col for col in names if col in df.columns), None)] *)
Definition first_column (names : list string) (df : frame) : option string :=
  List.find (has_col df) names.

Definition _format_time_string (total_seconds : pyfloat) : outcome string :=
  match total_seconds with
  | None => Raise ValueError
  | Some q =>
      let '(minutes, seconds_remainder) := divmod60 q in
      Return (fmt_02d minutes +:+ ":" +:+ fmt_02d (trunc seconds_remainder)
              +:+ " (" +:+ fmt_2f q +:+ " seconds raw)")
  end.

Definition NO_FLIGHT_DATA : string :=
  "Flight data is not available. Please upload a log file first.".

(** A cell of a float64 column: a null or missing value is NaN. *)
Definition float_cell (c : cell) : pyfloat :=
  match c with
  | CNum q => Some q
  | _ => NaN
  end.

(** [df.loc[df[c].idxmax()]] and [idxmin]: the reduction is refused on an
    object column, fails on an empty one, and on a column of NaN yields the
    label NaN, which [loc] does not find. *)
Definition idx_extreme (better : Q -> Q -> bool) (df : frame) (c : string)
    : outcome (gmap string cell) :=
  if object_column df c then Raise TypeError
  else match records df with
       | [] => Raise ValueError
       | _ :: _ =>
           match arg_best better None
                   ((fun r => (float_cell (cell_at c r), r)) <$> records df) with
           | Some (_, r) => Return r
           | None => Raise (KeyError "nan")
           end
       end.

(** [row[c] / divisor] for one row of the frame *)
Definition scalar_div (df : frame) (c : string) (r : gmap string cell) (d : Z)
    : outcome pyfloat :=
  if is_None df c r then Raise TypeError
  else v ← num_cell (cell_at c r); Return (fdiv v d).

(** Positions of the [true] entries of a mask *)
Fixpoint indices_from (i : nat) (mask : list bool) : list nat :=
  match mask with
  | [] => []
  | b :: rest => if b then i :: indices_from (S i) rest else indices_from (S i) rest
  end.

(* ===================================================================== *)
(** ** Degraded segments of the GPS log *)
(* ===================================================================== *)

(** The guard of the inner loop:
    [j + 1 < len(degraded_indices) and
     degraded_indices[j+1] == degraded_indices[j] + 1] *)
Definition consecutive (degraded_indices : list nat) (j : nat) : bool :=
  (j + 1 <? length degraded_indices)%nat
  && (degraded_indices !!! (j + 1)%nat =? degraded_indices !!! j + 1)%nat.

Equations? segment_end (degraded_indices : list nat) (j : nat) : nat
    by wf (length degraded_indices - j)%nat lt :=
  segment_end degraded_indices j with inspect (consecutive degraded_indices j) := {
    | exist _ true H => segment_end degraded_indices (j + 1)%nat
    | exist _ false _ => j }.
Proof.
  unfold consecutive in H. apply andb_prop in H as [H _].
  apply Nat.ltb_lt in H. lia.
Qed.

Lemma segment_end_ge degraded_indices j : (j <= segment_end degraded_indices j)%nat.
Proof. funelim (segment_end degraded_indices j); lia. Qed.

(** The duration credited to the segment of rows
    [start_index .. end_index] *)
Definition segment_duration (times : list pyfloat) (start_index end_index : nat)
    : pyfloat :=
  if (start_index =? end_index)%nat then
    if (end_index + 1 <? length times)%nat && (0 <? start_index)%nat then
      fdiv (fsub (times !!! (end_index + 1)%nat) (times !!! (start_index - 1)%nat)) 2
    else if (end_index + 1 <? length times)%nat then
      fsub (times !!! (end_index + 1)%nat) (times !!! end_index)
    else if (0 <? start_index)%nat then
      fsub (times !!! start_index) (times !!! (start_index - 1)%nat)
    else Some 0%Q
  else fsub (times !!! end_index) (times !!! start_index).

(** The outer loop, from position [i] of [degraded_indices] with the
    duration accumulated so far *)
Equations? degraded_loop (times : list pyfloat) (degraded_indices : list nat)
    (i : nat) (degraded_segments_duration : pyfloat) : pyfloat
    by wf (length degraded_indices - i)%nat lt :=
  degraded_loop times degraded_indices i acc
    with inspect (i <? length degraded_indices)%nat := {
    | exist _ true H =>
        let start_index := degraded_indices !!! i in
        let j := segment_end degraded_indices i in
        let end_index := degraded_indices !!! j in
        degraded_loop times degraded_indices (j + 1)%nat
          (fadd acc (segment_duration times start_index end_index))
    | exist _ false _ => acc }.
Proof.
  apply Nat.ltb_lt in H.
  pose proof (segment_end_ge degraded_indices i). lia.
Qed.

(** The segments the outer loop visits, as pairs of row indices *)
Equations? degraded_segments (degraded_indices : list nat) (i : nat)
    : list (nat * nat) by wf (length degraded_indices - i)%nat lt :=
  degraded_segments degraded_indices i
    with inspect (i <? length degraded_indices)%nat := {
    | exist _ true H =>
        let j := segment_end degraded_indices i in
        (degraded_indices !!! i, degraded_indices !!! j)
          :: degraded_segments degraded_indices (j + 1)%nat
    | exist _ false _ => [] }.
Proof.
  apply Nat.ltb_lt in H.
  pose proof (segment_end_ge degraded_indices i). lia.
Qed.

(** [rows[c] / divisor] for rows of the frame [df], cell by cell *)
Definition rows_div (df : frame) (c : string) (d : Z)
    (rows : list (gmap string cell)) : outcome (list pyfloat) :=
  if has_col df c then for_each (fun r => scalar_div df c r d) rows
  else Raise (KeyError c).

(** [df[c].min()] and [df[c].max()], whose difference is then taken: a
    string in the column raises in the reduction or in the subtraction. *)
Definition column_extreme (better : Q -> Q -> bool) (df : frame) (c : string)
    : outcome pyfloat :=
  if object_column df c then Raise TypeError
  else Return (fst <$> arg_best better None
                 ((fun r => (float_cell (cell_at c r), ())) <$> records df)).

(* ===================================================================== *)
(** ** The tools *)
(* ===================================================================== *)

Section Tools.

(** [str(e)], the text of an exception *)
Variable str_exn : exn -> string.
(** The text of a raw log value inside an f-string *)
Variable str_cell : cell -> string.
(** [int(s)] for a string: the integer it spells, if any *)
Variable int_of_str : string -> option Z.
(** The request to the documentation server and the scan of the page,
    that is the try body of [lookup_ardupilot_documentation] *)
Variable documentation_lookup : string -> outcome string.

Definition lookup_ardupilot_documentation (search_term : string) : outcome string :=
  catch (documentation_lookup search_term)
    (fun e =>
       match e with
       | Timeout =>
           Return "❌ Documentation lookup failed: Request timed out. The documentation server might be slow or unreachable."
       | RequestException =>
           Return ("❌ Documentation lookup failed due to network or HTTP error: " +:+ str_exn e)
       | _ =>
           Return ("❌ An unexpected error occurred during documentation lookup: " +:+ str_exn e)
       end).

Definition get_highest_altitude (fd : dataset) : outcome string :=
  if no_data fd then Return NO_FLIGHT_DATA
  else if negb (has_log fd "BARO") then
    Return "BARO log data not found in the flight data. Cannot determine highest altitude."
  else
    catch
      (l ← get_log fd "BARO";
       baro_df ← DataFrame l;
       if negb (has_col baro_df "Alt") then
         Return "BARO log does not contain an 'Alt' (altitude) field. Unable to find highest altitude."
       else
         let time_col := first_column ["TimeUS"; "time_boot_ms"; "TimeMS"] baro_df in
         let divisor :=
           match time_col with
           | Some "TimeUS" => 1000000%Z
           | Some _ => 1000%Z
           | None => 1%Z
           end in
         max_row ← idx_extreme (fun a b => Qlt_bool b a) baro_df "Alt";
         let max_altitude := float_cell (cell_at "Alt" max_row) in
         time_string ←
           match time_col with
           | Some tc =>
               if negb (is_None baro_df tc max_row) then
                 raw ← num_cell (cell_at tc max_row);
                 match fdiv raw divisor with
                 | None => Raise ValueError
                 | Some timestamp_seconds =>
                     let '(minutes, seconds_remainder) := divmod60 timestamp_seconds in
                     Return (" at " +:+ str_int minutes +:+ " min "
                             +:+ fmt_2f (inject_Z (trunc seconds_remainder))
                             +:+ " sec (" +:+ fmt_2f timestamp_seconds
                             +:+ " seconds raw)")
                 end
               else Return " (timestamp not available)"
           | None => Return " (timestamp not available)"
           end;
         match max_altitude with
         | Some alt =>
             Return ("The highest altitude reached was " +:+ fmt_2f alt +:+ " meters"
                     +:+ time_string +:+ " (from BARO logs).")
         | None => Raise ValueError
         end)
      (fun e =>
         match e with
         | KeyError _ =>
             Return ("Error: Missing expected column in BARO data: " +:+ str_exn e
                     +:+ ". Please check log integrity.")
         | _ =>
             Return ("An unexpected error occurred while processing BARO data: " +:+ str_exn e)
         end).

Definition NO_GPS_TIMESTAMP : string :=
  "No valid timestamp column (TimeUS, time_boot_ms, or TimeMS) found in GPS data.".

Definition gps_handlers (context : string) (e : exn) : outcome string :=
  match e with
  | KeyError _ =>
      Return ("Error: Missing expected column in GPS data: '" +:+ str_exn e
              +:+ "'. Please ensure log integrity.")
  | _ => Return (context +:+ str_exn e)
  end.

Definition find_first_gps_loss (fd : dataset) : outcome string :=
  if no_data fd then Return NO_FLIGHT_DATA
  else if negb (has_log fd "GPS") then
    Return "No 'GPS' log data found in the flight log. Cannot assess GPS signal quality."
  else
    catch
      (l ← get_log fd "GPS";
       gps_df ← DataFrame l;
       let has_nsats := has_col gps_df "NSats" in
       let has_fixtype := has_col gps_df "FixType" in
       let '(time_col, divisor) := _get_time_column_and_divisor gps_df in
       match time_col with
       | None => Return NO_GPS_TIMESTAMP
       | Some tc =>
           if negb has_nsats && negb has_fixtype then
             Return "Neither 'NSats' nor 'FixType' fields found in GPS data. Cannot assess GPS signal quality."
           else
             let all_false := (fun _ => false) <$> records gps_df in
             low_sats ← (if has_nsats then column_lt gps_df "NSats" 6 else Return all_false);
             low_fix ← (if has_fixtype then column_lt gps_df "FixType" 2 else Return all_false);
             let combined_condition := zip_with orb low_sats low_fix in
             match select combined_condition (records gps_df) with
             | [] =>
                 Return "GPS signal remained strong throughout the flight (no degradation events found based on NSats < 6 or FixType < 2)."
             | first_event :: _ =>
                 time_seconds ← scalar_div gps_df tc first_event divisor;
                 let reasons :=
                   ((if has_nsats && flt (float_cell (cell_at "NSats" first_event)) (Some 6%Q)
                    then ["satellite count ('NSats') dropped to "
                            +:+ str_cell (cell_at "NSats" first_event)]
                    else [])
                   ++ (if has_fixtype && flt (float_cell (cell_at "FixType" first_event)) (Some 2%Q)
                       then ["fix type ('FixType') was "
                               +:+ str_cell (cell_at "FixType" first_event)]
                       else []))%list in
                 let reason_str := join " and " reasons in
                 let warning_message :=
                   if has_nsats then
                     let zero_sats := cell_eq_num 0 <$> (cell_at "NSats" <$> records gps_df) in
                     if existsb (fun n => 5 <=? n)%nat (run_lengths 0 zero_sats) then
                       let total_zero_sat_time_points := length (List.filter id zero_sats) in
                       if (0 <? total_zero_sat_time_points)%nat then
                         " (Warning: GPS signal indicated zero satellites for a significant period. Total "
                         +:+ str_int (Z.of_nat total_zero_sat_time_points)
                         +:+ " data points showed NSats = 0.)"
                       else EmptyString
                     else EmptyString
                   else EmptyString in
                 formatted_time ← _format_time_string time_seconds;
                 Return ("GPS signal degradation was first observed at " +:+ formatted_time
                         +:+ " due to " +:+ reason_str +:+ "." +:+ warning_message)
             end
       end)
      (gps_handlers "An unexpected error occurred while processing GPS data for first loss: ").

(** The rows of the GPS log sorted by normalised time, with that time *)
Definition gps_sorted (gps_df : frame) (tc : string) (divisor : Z)
    : outcome (list (pyfloat * gmap string cell)) :=
  times ← rows_div gps_df tc divisor (records gps_df);
  Return (sort_values fst (zip times (records gps_df))).

(** [gps_df[gps_df['NSats'] < 6].index.tolist()] on the sorted rows *)
Definition gps_degraded_indices (sorted : list (pyfloat * gmap string cell))
    : outcome (list nat) :=
  mask ← for_each (fun row : pyfloat * gmap string cell =>
                     v ← num_cell (cell_at "NSats" row.2);
                     Return (flt v (Some 6%Q))) sorted;
  Return (indices_from 0 mask).

Definition get_gps_degradation_duration (fd : dataset) : outcome string :=
  if no_data fd then Return NO_FLIGHT_DATA
  else if negb (has_log fd "GPS") then
    Return "No 'GPS' log data found in the flight log. Cannot calculate GPS degradation duration."
  else
    catch
      (l ← get_log fd "GPS";
       gps_df ← DataFrame l;
       if negb (has_col gps_df "NSats") then
         Return "GPS satellite count ('NSats') not available in the log. Cannot calculate degradation duration."
       else
         let '(time_col, divisor) := _get_time_column_and_divisor gps_df in
         match time_col with
         | None => Return NO_GPS_TIMESTAMP
         | Some tc =>
             sorted ← gps_sorted gps_df tc divisor;
             degraded_indices ← gps_degraded_indices sorted;
             match degraded_indices with
             | [] => Return "GPS signal remained strong throughout the flight (NSats was always ≥ 6)."
             | _ :: _ =>
                 let degraded_segments_duration :=
                   degraded_loop (fst <$> sorted) degraded_indices 0 (Some 0%Q) in
                 formatted_duration ← _format_time_string degraded_segments_duration;
                 Return ("GPS signal was degraded (NSats < 6) for approximately "
                         +:+ formatted_duration +:+ " during the flight.")
             end
         end)
      (gps_handlers "An unexpected error occurred while calculating GPS degradation duration: ").

Definition NO_BAT_LOG : string :=
  "No 'BAT' (battery) log data found in the flight logs.".
Definition NO_TEMP_FIELD : string :=
  "Battery temperature data ('Temp' field) is not available in the BAT logs.".

(** [bat_df[bat_df['Temp'] > 0]['Temp']] *)
Definition valid_temperatures (bat_df : frame) : outcome (list Q) :=
  mask ← column_gt bat_df "Temp" 0;
  Return (omap (fun r => float_cell (cell_at "Temp" r)) (select mask (records bat_df))).

Definition list_max (q : Q) (l : list Q) : Q :=
  foldl (fun m x => if Qlt_bool m x then x else m) q l.
Definition list_min (q : Q) (l : list Q) : Q :=
  foldl (fun m x => if Qlt_bool x m then x else m) q l.

Definition get_max_battery_temperature (fd : dataset) : outcome string :=
  if no_data fd then Return NO_FLIGHT_DATA
  else if negb (has_truthy_log fd "BAT") then Return NO_BAT_LOG
  else
    catch
      (l ← get_log fd "BAT";
       bat_df ← DataFrame l;
       if negb (has_col bat_df "Temp") then Return NO_TEMP_FIELD
       else
         valid ← valid_temperatures bat_df;
         match valid with
         | [] =>
             Return "Battery temperature values are all zero or invalid (non-positive) throughout the log. The temperature sensor may have been disabled or is malfunctioning for this flight."
         | t :: rest =>
             Return ("The maximum valid battery temperature recorded was "
                     +:+ fmt_2f (list_max t rest) +:+ "°C.")
         end)
      (fun e =>
         match e with
         | KeyError _ =>
             Return ("Error: Missing expected column in BAT data: '" +:+ str_exn e
                     +:+ "'. Please check log integrity.")
         | _ =>
             Return ("An unexpected error occurred while processing battery temperature data: "
                     +:+ str_exn e)
         end).

Definition get_total_flight_time (fd : dataset) : outcome string :=
  if no_data fd then Return NO_FLIGHT_DATA
  else if negb (has_truthy_log fd "GPS") then
    Return "No 'GPS' data found in the flight log. Unable to calculate flight time."
  else
    catch
      (l ← get_log fd "GPS";
       gps_df ← DataFrame l;
       let '(time_col, divisor) := _get_time_column_and_divisor gps_df in
       match time_col with
       | None =>
           Return "No suitable timestamp column (TimeUS, time_boot_ms, or TimeMS) found in GPS data."
       | Some tc =>
           start_raw ← column_extreme Qlt_bool gps_df tc;
           end_raw ← column_extreme (fun a b => Qlt_bool b a) gps_df tc;
           let duration_raw := fsub end_raw start_raw in
           let start_seconds := fdiv start_raw divisor in
           let end_seconds := fdiv end_raw divisor in
           match fdiv duration_raw divisor with
           | None => Raise ValueError
           | Some duration_seconds =>
               let '(total_minutes, total_seconds_remainder) := divmod60 duration_seconds in
               started ← _format_time_string start_seconds;
               ended ← _format_time_string end_seconds;
               Return ("The total flight time was " +:+ str_int total_minutes
                       +:+ " minutes and " +:+ str_int (trunc total_seconds_remainder)
                       +:+ " seconds." +:+ LF
                       +:+ "Flight started at: " +:+ started +:+ LF
                       +:+ "Flight ended at: " +:+ ended +:+ LF
                       +:+ "(Based on GPS." +:+ tc +:+ ")")
           end
       end)
      (gps_handlers "An unexpected error occurred while processing flight time data: ").

(* ------------------------------------------------------------------- *)
(** *** RC signal loss *)

Definition RC_FAILSAFE_EV_ID : Z := 10.
Definition RC_FAILSAFE_INFERRED_MODES : list Z := [5; 6; 9; 11]%Z.

Definition RC_DETECTED (formatted_time : string) : string :=
  "✅ RC signal loss detected! The first RC Failsafe (EV.Id = " +:+ str_int RC_FAILSAFE_EV_ID
  +:+ ") occurred at " +:+ formatted_time +:+ ".".
Definition RC_DETECTED_NO_TIME : string :=
  "✅ RC signal loss detected (EV.Id = " +:+ str_int RC_FAILSAFE_EV_ID
  +:+ "), but no timestamp could be accurately determined from EV logs.".
Definition RC_NOT_DETECTED : string :=
  "✅ 'EV' log is present, and no RC signal loss (EV.Id = 10) was detected.".
Definition RC_INFERRED (formatted_time : string) : string :=
  "⚠️ No 'EV' log found. However, based on 'MODE' changes to known failsafe modes (e.g., RTL, Loiter, Auto, Land), an RC failsafe is suspected around "
  +:+ formatted_time +:+ ". This is an inference, not a direct failsafe event record.".
Definition RC_INFERRED_NO_TIME : string :=
  "⚠️ No 'EV' log found, and possible RC failsafe inferred from mode change, but no timestamp could be accurately determined from MODE logs.".
Definition RC_UNLIKELY : string :=
  "No 'EV' log found, and no common RC failsafe modes were detected in the 'MODE' log. RC signal loss is unlikely.".
Definition RC_NO_LOGS : string :=
  "❌ Neither 'EV' nor 'MODE' logs are available in the flight data. Unable to determine RC signal loss or provide an inference.".

Definition check_rc_signal_loss (fd : dataset) : outcome string :=
  if no_data fd then Return NO_FLIGHT_DATA
  else if has_truthy_log fd "EV" then
    catch
      (l ← get_log fd "EV";
       ev_df ← DataFrame l;
       if negb (has_col ev_df "Id") then
         Return "The 'EV' log is present, but lacks the 'Id' field necessary to detect RC signal loss events."
       else
         let rc_failsafe_events :=
           List.filter (fun r => cell_eq_num (inject_Z RC_FAILSAFE_EV_ID) (cell_at "Id" r))
                       (records ev_df) in
         match rc_failsafe_events with
         | first :: _ =>
             let '(time_col, divisor) := _get_time_column_and_divisor ev_df in
             match time_col with
             | Some tc =>
                 first_failsafe_time_seconds ← scalar_div ev_df tc first divisor;
                 formatted_time ← _format_time_string first_failsafe_time_seconds;
                 Return (RC_DETECTED formatted_time)
             | None => Return RC_DETECTED_NO_TIME
             end
         | [] => Return RC_NOT_DETECTED
         end)
      (fun e =>
         match e with
         | KeyError _ =>
             Return ("Error: Missing expected column in EV data: '" +:+ str_exn e
                     +:+ "'. Cannot process RC signal loss via EV logs.")
         | _ =>
             Return ("An unexpected error occurred while processing 'EV' logs for RC signal loss: "
                     +:+ str_exn e)
         end)
  else if has_truthy_log fd "MODE" then
    catch
      (l ← get_log fd "MODE";
       mode_df ← DataFrame l;
       if negb (has_col mode_df "Mode") then
         Return "Fallback to MODE log failed: no 'Mode' column present to infer RC signal loss."
       else
         let suspected_failsafe_modes :=
           List.filter (fun r => cell_isin RC_FAILSAFE_INFERRED_MODES (cell_at "Mode" r))
                       (records mode_df) in
         match suspected_failsafe_modes with
         | first :: _ =>
             let '(time_col, divisor) := _get_time_column_and_divisor mode_df in
             match time_col with
             | Some tc =>
                 first_suspected_time_seconds ← scalar_div mode_df tc first divisor;
                 formatted_time ← _format_time_string first_suspected_time_seconds;
                 Return (RC_INFERRED formatted_time)
             | None => Return RC_INFERRED_NO_TIME
             end
         | [] => Return RC_UNLIKELY
         end)
      (fun e =>
         match e with
         | KeyError _ =>
             Return ("Error: Missing expected column in MODE data: '" +:+ str_exn e
                     +:+ "'. Cannot infer RC signal loss.")
         | _ =>
             Return ("An unexpected error occurred while processing 'MODE' logs for RC signal loss inference: "
                     +:+ str_exn e)
         end)
  else Return RC_NO_LOGS.

Definition analyze_flight_anomalies : outcome string :=
  Return "To analyze flight anomalies, please ask about specific areas of concern, such as 'list critical errors', 'when did the GPS signal get lost?', or 'were there any unusual altitude drops?'".

(* ------------------------------------------------------------------- *)
(** *** Altitude drops *)

(** A detected drop: the anchor time, the loss of altitude and the time
    to the deepest point of the window. *)
Record drop := Drop { drop_start : Q; drop_delta_alt : Q; drop_delta_t : Q }.

(** [x < y] between two log values, as the comparison of a column with
    a scalar does it: a null on either side is false, a string against a
    number raises. *)
Definition cell_lt (x y : cell) : outcome bool :=
  match x, y with
  | CNull, _ => Return false
  | _, CNull => Return false
  | CNum a, CNum b => Return (Qlt_bool a b)
  | CStr a, CStr b => Return (String.ltb a b)
  | _, _ => Raise TypeError
  end.

(** The rows within the look-ahead window of the anchor and below it *)
Definition potential_drops (rows : list (pyfloat * cell)) (window_s : Q)
    (current_time : pyfloat) (current_alt : cell) : outcome (list (pyfloat * cell)) :=
  mask ← for_each (fun row : pyfloat * cell =>
                     lower ← cell_lt row.2 current_alt;
                     Return (flt current_time row.1
                             && fle row.1 (fadd current_time (Some window_s))
                             && lower)) rows;
  Return (select mask rows).

(** One iteration of the loop over the anchor rows *)
Definition drop_at (rows : list (pyfloat * cell)) (threshold_m window_s : Q)
    (anchor : pyfloat * cell) : outcome (option drop) :=
  let '(current_time, current_alt) := anchor in
  candidates ← potential_drops rows window_s current_time current_alt;
  match candidates with
  | [] => Return None
  | _ :: _ =>
      if existsb (fun row : pyfloat * cell => is_str row.2) rows then Raise TypeError
      else
        match arg_best Qlt_bool None
                ((fun row : pyfloat * cell => (float_cell row.2, row.1)) <$> candidates),
              current_time, float_cell current_alt with
        | Some (max_alt_in_window, Some time_of_max_drop), Some t, Some alt =>
            let delta_alt := (alt - max_alt_in_window)%Q in
            let delta_t := (time_of_max_drop - t)%Q in
            if Qle_bool threshold_m delta_alt
            then Return (Some (Drop t delta_alt delta_t))
            else Return None
        | _, _, _ => Raise ValueError
        end
  end.

(** The drops of a time-sorted series, one anchor after the other *)
Definition find_drops (rows : list (pyfloat * cell)) (threshold_m window_s : Q)
    : outcome (list drop) :=
  found ← for_each (drop_at rows threshold_m window_s) rows;
  Return (omap id (found : list (option drop))).

Definition drop_line (d : drop) : outcome string :=
  formatted_start_time ← _format_time_string (Some (drop_start d));
  Return ("⚠️ Drop of " +:+ fmt_2f (drop_delta_alt d) +:+ "m detected over "
          +:+ fmt_2f (drop_delta_t d) +:+ "s starting at approximately "
          +:+ formatted_start_time +:+ ".").

Definition NO_DROPS : string :=
  "✅ No unusual altitude drops were detected during the flight based on the given criteria.".

(** The BARO rows sorted by normalised time: time and altitude *)
Definition baro_sorted (df : frame) (tc : string) (divisor : Z)
    : outcome (list (pyfloat * cell)) :=
  times ← rows_div df tc divisor (records df);
  Return (sort_values fst (zip times (cell_at "Alt" <$> records df))).

Definition detect_unusual_altitude_drops (fd : dataset) (threshold_m window_s : Q)
    : outcome string :=
  if no_data fd then Return NO_FLIGHT_DATA
  else if negb (has_truthy_log fd "BARO") then
    Return "BARO log data not found in the flight data. Cannot detect altitude drops."
  else
    catch
      (l ← get_log fd "BARO";
       df ← DataFrame l;
       if negb (has_col df "Alt") then
         Return "Altitude data ('Alt' field) not found in BARO log. Cannot detect altitude drops."
       else
         let '(time_col, divisor) := _get_time_column_and_divisor df in
         match time_col with
         | None =>
             Return "No valid timestamp column (TimeUS, time_boot_ms, or TimeMS) found in BARO log."
         | Some tc =>
             rows ← baro_sorted df tc divisor;
             drops ← find_drops rows threshold_m window_s;
             drops_found ← for_each drop_line drops;
             match drops_found with
             | _ :: _ =>
                 Return ("Unusual altitude drops detected:" +:+ LF +:+ join LF drops_found)
             | [] => Return NO_DROPS
             end
         end)
      (fun e =>
         match e with
         | KeyError _ =>
             Return ("Error: Missing expected column in BARO data: '" +:+ str_exn e
                     +:+ "'. Please ensure log integrity.")
         | _ =>
             Return ("An unexpected error occurred while analyzing altitude data: " +:+ str_exn e)
         end).

(* ------------------------------------------------------------------- *)
(** *** Raw telemetry *)

Record telemetry := Telemetry {
  altitude_m : option (list cell);
  gps_quality : option (list cell * list cell);
  battery : option (option (list cell) * option (list cell));
  rc_throttle_input : option (list cell)
}.

(** The text of the summary dictionary inside an f-string *)
Variable str_telemetry : telemetry -> string.

Definition present {A} (o : option A) : bool :=
  match o with Some _ => true | None => false end.

Definition is_na (c : cell) : bool :=
  match c with CNull => true | _ => false end.

(** [df[c].dropna().tolist()[:200]] *)
Definition snapshot (c : string) (rows : list (gmap string cell)) : list cell :=
  take 200 (List.filter (fun x => negb (is_na x)) (cell_at c <$> rows)).

(** [DataFrame(flight_data[name])] for a log that is present and truthy *)
Definition truthy_frame (fd : dataset) (name : string) : outcome (option frame) :=
  if has_truthy_log fd name then
    l ← get_log fd name; df ← DataFrame l; Return (Some df)
  else Return None.

Definition analyze_raw_telemetry (fd : dataset) : outcome string :=
  if no_data fd then Return "No flight data loaded. Cannot summarize telemetry."
  else
    catch
      (baro ← truthy_frame fd "BARO";
       let altitude :=
         match baro with
         | Some baro_df =>
             if has_col baro_df "Alt" then Some (snapshot "Alt" (records baro_df)) else None
         | None => None
         end in
       gps ← truthy_frame fd "GPS";
       let quality :=
         match gps with
         | Some gps_df =>
             if has_col gps_df "NSats" && has_col gps_df "HDop"
             then Some (snapshot "NSats" (records gps_df), snapshot "HDop" (records gps_df))
             else None
         | None => None
         end in
       bat ← truthy_frame fd "BAT";
       battery_data ←
         match bat with
         | Some bat_df =>
             let voltage :=
               if has_col bat_df "Volt" then Some (snapshot "Volt" (records bat_df)) else None in
             temperature ←
               (if has_col bat_df "Temp" then
                  mask ← column_gt bat_df "Temp" 0;
                  Return (Some (snapshot "Temp" (select mask (records bat_df))))
                else Return None);
             match voltage, temperature with
             | None, None => Return None
             | _, _ => Return (Some (voltage, temperature))
             end
         | None => Return None
         end;
       rcin ← truthy_frame fd "RCIN";
       let throttle :=
         match rcin with
         | Some rcin_df =>
             if has_col rcin_df "C3" then Some (snapshot "C3" (records rcin_df)) else None
         | None => None
         end in
       let data_found :=
         present altitude || present quality || present battery_data || present throttle in
       if negb data_found then
         Return "No relevant telemetry data (BARO, GPS, BAT, RCIN) found in the flight log for summarization."
       else
         Return ("Here is a summary of key telemetry data points:" +:+ LF
                 +:+ str_telemetry (Telemetry altitude quality battery_data throttle)))
      (fun e =>
         match e with
         | KeyError _ =>
             Return ("Error: Missing expected column in telemetry data: '" +:+ str_exn e
                     +:+ "'. Please ensure log integrity.")
         | _ =>
             Return ("An unexpected error occurred while summarizing telemetry data: " +:+ str_exn e)
         end).

(* ------------------------------------------------------------------- *)
(** *** Battery temperature stability *)

Definition Qsum (l : list Q) : Q := foldr Qplus 0%Q l.

(** The square of [Series.std()]: the sample variance, NaN for fewer
    than two readings *)
Definition sample_variance (l : list Q) : pyfloat :=
  let n := Z.of_nat (length l) in
  if (n <? 2)%Z then NaN
  else
    let mean := (Qsum l / inject_Z n)%Q in
    Some (Qsum ((fun x => (x - mean) * (x - mean))%Q <$> l) / inject_Z (n - 1))%Q.

(** The integer nearest to the square root of [x >= 0], ties to even *)
Definition round_sqrt (x : Q) : Z :=
  let c := Z.sqrt (Qfloor x) in
  let mid := (inject_Z (c * c + c) + (1 # 4))%Q in
  if Qlt_bool x mid then c
  else if Qlt_bool mid x then (c + 1)%Z
  else if Z.even c then c else (c + 1)%Z.

(** [f"{std:.2f}"] from the variance *)
Definition fmt_2f_std (variance : pyfloat) : string :=
  match variance with
  | None => "nan"
  | Some v =>
      let cents := round_sqrt (v * 10000)%Q in
      str_int (cents / 100)%Z +:+ "." +:+
      (let r := (cents mod 100)%Z in
       if (r <? 10)%Z then "0" +:+ str_int r else str_int r)
  end.

(** [temp_std < 0.75] *)
Definition std_below_075 (variance : pyfloat) : bool :=
  flt variance (Some (9 # 16)).

Definition check_battery_temp_stability (fd : dataset) : outcome string :=
  if no_data fd then Return NO_FLIGHT_DATA
  else if negb (has_truthy_log fd "BAT") then Return NO_BAT_LOG
  else
    catch
      (l ← get_log fd "BAT";
       bat_df ← DataFrame l;
       if negb (has_col bat_df "Temp") then Return NO_TEMP_FIELD
       else
         valid_temps ← valid_temperatures bat_df;
         match valid_temps with
         | [] =>
             Return "All battery temperature values are zero or invalid (non-positive) throughout the log. The temperature sensor may have been disabled or is malfunctioning."
         | t :: rest =>
             let temp_max := list_max t rest in
             let temp_min := list_min t rest in
             let temp_range := (temp_max - temp_min)%Q in
             let temp_var := sample_variance valid_temps in
             if Qlt_bool temp_range (3 # 2) && std_below_075 temp_var then
               Return ("✅ The battery temperature remained relatively constant throughout the flight. The temperature varied by only ±"
                       +:+ fmt_2f (temp_range / 2) +:+ "°C (Std Dev: "
                       +:+ fmt_2f_std temp_var +:+ "°C).")
             else
               Return ("⚠️ The battery temperature fluctuated during the flight. Range: "
                       +:+ fmt_2f temp_min +:+ "°C to " +:+ fmt_2f temp_max
                       +:+ "°C (Total variation: " +:+ fmt_2f temp_range
                       +:+ "°C; Std Dev: " +:+ fmt_2f_std temp_var +:+ "°C).")
         end)
      (fun e =>
         match e with
         | KeyError _ =>
             Return ("Error: Missing expected column in BAT data: '" +:+ str_exn e
                     +:+ "'. Please ensure log integrity.")
         | _ =>
             Return ("An unexpected error occurred while processing battery temperature stability: "
                     +:+ str_exn e)
         end).

(* ------------------------------------------------------------------- *)
(** *** Flight mode changes *)

(** The MODE log as a frame: a dictionary of columns is first turned
    into records, as long as its shortest column; a value that is neither
    a dictionary nor a list is not recognised ([None]). *)
Definition mode_frame (mode_log : log) : outcome (option frame) :=
  match mode_log with
  | LWide cols =>
      let lens := (fun kv : string * list cell => length kv.2) <$> map_to_list cols in
      let n := match lens with
               | [] => 0%nat
               | k :: ks => foldr Nat.min k ks
               end in
      df ← DataFrame (LRows (transpose n cols)); Return (Some df)
  | LRows rows => df ← DataFrame (LRows rows); Return (Some df)
  | _ => Return None
  end.

(** [int(x)] for a log value *)
Definition py_int (c : cell) : outcome Z :=
  match c with
  | CNum q => Return (trunc q)
  | CStr s => match int_of_str s with
              | Some z => Return z
              | None => Raise ValueError
              end
  | CNull => Raise ValueError
  end.

(** [x != y] between two log values that are not null *)
Definition cell_neq (x y : cell) : bool :=
  match x, y with
  | CNum a, CNum b => negb (Qeq_bool a b)
  | CStr a, CStr b => negb (String.eqb a b)
  | _, _ => true
  end.

Fixpoint mode_change_loop (has_text : bool) (rows : list (pyfloat * gmap string cell))
    (previous_mode : option cell) : outcome (list string) :=
  match rows with
  | [] => Return []
  | (time_sec, row) :: rest =>
      let current_mode := cell_at "ModeNum" row in
      if is_na current_mode then mode_change_loop has_text rest previous_mode
      else if match previous_mode with
              | None => true
              | Some p => cell_neq current_mode p
              end
      then
        timestamp ← _format_time_string time_sec;
        n ← py_int current_mode;
        let mode_name :=
          if has_text then str_cell (cell_at "ModeText" row)
          else "Mode " +:+ str_int n in
        lines ← mode_change_loop has_text rest (Some current_mode);
        Return (("• `" +:+ mode_name +:+ "` at " +:+ timestamp) :: lines)
      else mode_change_loop has_text rest previous_mode
  end.

Definition list_mode_changes (fd : dataset) : outcome string :=
  if no_data fd || negb (has_truthy_log fd "MODE") then
    Return "MODE log is missing or empty. Cannot determine flight mode changes."
  else
    catch
      (mode_log ← get_log fd "MODE";
       frame_opt ← mode_frame mode_log;
       match frame_opt with
       | None => Return "MODE log format is not recognized."
       | Some mode_df =>
           if negb (has_col mode_df "ModeNum") then
             Return "MODE log does not contain a 'ModeNum' field, which is required to detect changes."
           else
             let '(time_col, divisor) := _get_time_column_and_divisor mode_df in
             match time_col with
             | None =>
                 Return "No usable timestamp column (TimeUS, time_boot_ms, or TimeMS) found in MODE log."
             | Some tc =>
                 times ← rows_div mode_df tc divisor (records mode_df);
                 let sorted := sort_values fst (zip times (records mode_df)) in
                 mode_changes ← mode_change_loop (has_col mode_df "ModeText") sorted None;
                 match mode_changes with
                 | [] => Return "✅ No flight mode changes were detected during the flight."
                 | _ :: _ =>
                     Return ("### 📋 Flight Mode Changes Detected" +:+ LF +:+ LF
                             +:+ join LF mode_changes)
                 end
             end
       end)
      (fun e =>
         Return ("❌ An unexpected error occurred while listing mode changes: " +:+ str_exn e)).

(* ------------------------------------------------------------------- *)
(** *** Critical errors *)

Definition ARDUPILOT_SUBSYSTEM_MAP : gmap Z string :=
  list_to_map
    [(1, "Main system"); (2, "Radio"); (3, "Compass"); (4, "Optical Flow");
     (5, "Failsafe: Radio"); (6, "Failsafe: Battery"); (7, "Failsafe: GPS");
     (8, "Failsafe: GCS"); (9, "Failsafe: Fence"); (10, "Flight mode");
     (11, "GPS"); (12, "Crash check"); (13, "Flip"); (14, "Autotune");
     (15, "Parachute"); (16, "EKF check"); (17, "Failsafe: EKF Inav");
     (18, "Barometer"); (19, "CPU"); (20, "Failsafe: ADSB"); (21, "Terrain");
     (22, "Navigation"); (23, "Failsafe: Terrain"); (24, "EKF primary");
     (25, "Thrust loss check"); (26, "Failsafe: Sensors"); (27, "Failsafe: Leak");
     (28, "Pilot input"); (29, "Failsafe: Vibration"); (30, "Internal error");
     (31, "Failsafe: Dead reckoning")]%Z.

Definition ERROR_CODE_DESCRIPTIONS : gmap Z string :=
  list_to_map
    [(0, "Cleared"); (1, "Set (error occurred)"); (2, "Recovered from error")]%Z.

(** [row.get(c)]: [None] when the frame has no such column *)
Definition row_get (df : frame) (c : string) (r : gmap string cell) : option cell :=
  if has_col df c then Some (cell_at c r) else None.

(** The two codes of a row as integers; [None] when the row is skipped:
    a code is [None] or its conversion raises [ValueError] or
    [TypeError]. *)
Definition error_key (df : frame) (r : gmap string cell) : outcome (option (Z * Z)) :=
  match row_get df "Subsys" r, row_get df "ECode" r with
  | Some subsys_id, Some ecode =>
      if is_None df "Subsys" r || is_None df "ECode" r then Return None
      else
        catch (s ← py_int subsys_id; c ← py_int ecode; Return (Some (s, c)))
              (fun e =>
                 match e with
                 | ValueError | TypeError => Return None
                 | _ => Raise e
                 end)
  | _, _ => Return None
  end.

Definition error_line (formatted_timestamp : string) (subsys_id ecode : Z) : string :=
  let subsys_desc :=
    default ("Unknown Subsystem (" +:+ str_int subsys_id +:+ ")")
            (ARDUPILOT_SUBSYSTEM_MAP !! subsys_id) in
  let ecode_desc :=
    default ("Code " +:+ str_int ecode) (ERROR_CODE_DESCRIPTIONS !! ecode) in
  "- 🕒 `" +:+ formatted_timestamp +:+ "` — **Subsystem**: " +:+ subsys_desc
  +:+ ", **Error Code**: " +:+ ecode_desc.

(** The loop over the ERR rows; [seen_error_types] is the set of pairs
    already listed, the result is the lines appended to the header. *)
Fixpoint critical_error_loop (df : frame) (tc : string) (divisor : Z)
    (rows : list (gmap string cell)) (seen_error_types : gset (Z * Z))
    : outcome (list string) :=
  match rows with
  | [] => Return []
  | row :: rest =>
      key ← error_key df row;
      match key with
      | None => critical_error_loop df tc divisor rest seen_error_types
      | Some (subsys_id, ecode) =>
          if bool_decide ((subsys_id, ecode) ∈ seen_error_types) then
            critical_error_loop df tc divisor rest seen_error_types
          else
            timestamp_sec ← scalar_div df tc row divisor;
            formatted_timestamp ← _format_time_string timestamp_sec;
            lines ← critical_error_loop df tc divisor rest
                      ({[ (subsys_id, ecode) ]} ∪ seen_error_types);
            Return (error_line formatted_timestamp subsys_id ecode :: lines)
      end
  end.

Definition CRITICAL_HEADER : string := "🛑 **Critical Errors Detected in Flight Log:**".

Definition list_critical_errors (fd : dataset) : outcome string :=
  if no_data fd then Return NO_FLIGHT_DATA
  else if negb (has_truthy_log fd "ERR") then
    Return "✅ No 'ERR' (error) messages found in the flight log."
  else
    catch
      (l ← get_log fd "ERR";
       err_df ← DataFrame l;
       if frame_empty err_df then
         Return "✅ The 'ERR' log is present, but no critical errors were recorded."
       else
         let '(time_col, divisor) := _get_time_column_and_divisor err_df in
         match time_col with
         | None =>
             Return "No valid timestamp column (TimeUS, time_boot_ms, or TimeMS) found in ERR log."
         | Some tc =>
             lines ← critical_error_loop err_df tc divisor (records err_df) ∅;
             match lines with
             | [] =>
                 Return "✅ The 'ERR' log is present, but no distinct critical errors were recorded."
             | _ :: _ => Return (join LF (CRITICAL_HEADER :: lines))
             end
         end)
      (fun e =>
         match e with
         | KeyError _ =>
             Return ("Error: Missing expected column in ERR data: '" +:+ str_exn e
                     +:+ "'. Please ensure log integrity.")
         | _ =>
             Return ("An unexpected error occurred while processing 'ERR' log: " +:+ str_exn e)
         end).

(* ------------------------------------------------------------------- *)
(** *** EKF health *)

(** [int(row.get(c, -1))] *)
Definition int_field (df : frame) (c : string) (r : gmap string cell) : outcome Z :=
  match row_get df c r with
  | None => Return (-1)%Z
  | Some x => if is_None df c r then Raise TypeError else py_int x
  end.

(** The first error period: the time of the first event with code 1 and
    the time of the first later event with code 0. *)
Definition ekf_period : Type := option Q * option Q.

Definition ekf_step (period : ekf_period) (ecode : Z) (event_time : Q) : ekf_period :=
  let '(ekf_error_start_time, ekf_error_end_time) := period in
  if (ecode =? 1)%Z && negb (present ekf_error_start_time) then
    (Some event_time, ekf_error_end_time)
  else if (ecode =? 0)%Z && present ekf_error_start_time
          && negb (present ekf_error_end_time) then
    (ekf_error_start_time, Some event_time)
  else period.

Definition ekf_event_line (subsys ecode : Z) (formatted_event_time : string) : string :=
  let subsys_desc :=
    default ("Unknown EKF Subsystem (" +:+ str_int subsys +:+ ")")
            (ARDUPILOT_SUBSYSTEM_MAP !! subsys) in
  let ecode_desc :=
    default ("Code " +:+ str_int ecode) (ERROR_CODE_DESCRIPTIONS !! ecode) in
  "- EKF Event: " +:+ subsys_desc +:+ ", " +:+ ecode_desc +:+ " at `"
  +:+ formatted_event_time +:+ "`".

(** The loop over the EKF rows, sorted by time: the event lines and the
    period found *)
Fixpoint ekf_loop (df : frame) (rows : list (pyfloat * gmap string cell))
    (period : ekf_period) : outcome (list string * ekf_period) :=
  match rows with
  | [] => Return ([], period)
  | (event_time, row) :: rest =>
      subsys ← int_field df "Subsys" row;
      ecode ← int_field df "ECode" row;
      formatted_event_time ← _format_time_string event_time;
      match event_time with
      | None => Raise ValueError
      | Some t =>
          '(lines, final) ← ekf_loop df rest (ekf_step period ecode t);
          Return (ekf_event_line subsys ecode formatted_event_time :: lines, final)
      end
  end.

Definition ekf_summary (period : ekf_period) : outcome string :=
  match period with
  | (Some ekf_error_start_time, Some ekf_error_end_time) =>
      let duration := (ekf_error_end_time - ekf_error_start_time)%Q in
      entered ← _format_time_string (Some ekf_error_start_time);
      recovered ← _format_time_string (Some ekf_error_end_time);
      Return (LF +:+ "**Summary**: EKF entered an error state at `" +:+ entered
              +:+ "` and recovered at `" +:+ recovered
              +:+ "`, lasting approximately **" +:+ fmt_2f duration +:+ " seconds**.")
  | (Some ekf_error_start_time, None) =>
      entered ← _format_time_string (Some ekf_error_start_time);
      Return (LF +:+ "**Summary**: EKF entered an error state at `" +:+ entered
              +:+ "`, but no recovery event (ECode 0) was explicitly logged within the available data.")
  | (None, _) =>
      Return (LF +:+ "No clear EKF error start or recovery events were found matching the criteria.")
  end.

(** [err_df[err_df["Subsys"].isin([16, 24])]] *)
Definition ekf_rows (err_df : frame) : outcome (list (gmap string cell)) :=
  _ ← column err_df "Subsys";
  Return (List.filter (fun r => cell_isin [16; 24]%Z (cell_at "Subsys" r)) (records err_df)).

(** The EKF rows with their normalised time, sorted by it *)
Definition ekf_sorted (err_df : frame) (tc : string) (divisor : Z)
    (ekf_error_rows : list (gmap string cell))
    : outcome (list (pyfloat * gmap string cell)) :=
  times ← rows_div err_df tc divisor ekf_error_rows;
  Return (sort_values fst (zip times ekf_error_rows)).

Definition NO_EKF_ERRORS : string :=
  "✅ No EKF-related errors (Subsystem 16 or 24) found during the flight.".

Definition analyze_ekf_health_status (fd : dataset) : outcome string :=
  if no_data fd then Return NO_FLIGHT_DATA
  else if negb (has_truthy_log fd "ERR") then
    Return "No 'ERR' log data found to analyze EKF health status."
  else
    catch
      (l ← get_log fd "ERR";
       err_df ← DataFrame l;
       let '(time_col, divisor) := _get_time_column_and_divisor err_df in
       match time_col with
       | None =>
           Return "No valid timestamp column (TimeUS, time_boot_ms, or TimeMS) found in ERR log."
       | Some tc =>
           ekf_error_rows ← ekf_rows err_df;
           match ekf_error_rows with
           | [] => Return NO_EKF_ERRORS
           | _ :: _ =>
               sorted ← ekf_sorted err_df tc divisor ekf_error_rows;
               '(all_ekf_events, period) ← ekf_loop err_df sorted (None, None);
               summary ← ekf_summary period;
               Return (join LF (["---"; "## EKF Health Status Analysis"]
                                  ++ all_ekf_events ++ [summary])%list)
           end
       end)
      (fun e =>
         match e with
         | KeyError _ =>
             Return ("Error: Missing expected column in ERR data for EKF analysis: '"
                     +:+ str_exn e +:+ "'. Please ensure log integrity.")
         | _ =>
             Return ("❌ An unexpected error occurred while analyzing EKF health: " +:+ str_exn e)
         end).

(* ------------------------------------------------------------------- *)
(** *** Errors followed by mode changes *)

(** An error event paired with a mode change: the two rows, their
    normalised times and the signed delay. *)
Record correlation := Correlation {
  c_err : gmap string cell;
  c_mode : gmap string cell;
  c_t_err : Q;
  c_t_mode : Q;
  c_delta : Q
}.

(** [mode_df[(mode_df["time_sec"] >= t_err) & (mode_df["time_sec"] <= t_err + 1)]] *)
Definition recent_mode_changes (modes : list (pyfloat * gmap string cell))
    (t_err : pyfloat) : list (pyfloat * gmap string cell) :=
  List.filter (fun m : pyfloat * gmap string cell =>
                 fle t_err m.1 && fle m.1 (fadd t_err (Some 1%Q))) modes.

(** The nested loop: error rows in log order, for each the mode rows of
    its window in log order.  A row selected by the window has a time
    that is not NaN, as has the error it is compared with. *)
Definition correlations (errs modes : list (pyfloat * gmap string cell))
    : list correlation :=
  flat_map
    (fun err : pyfloat * gmap string cell =>
       omap (fun mode_row : pyfloat * gmap string cell =>
               match err.1, mode_row.1 with
               | Some t_err, Some t_mode =>
                   Some (Correlation err.2 mode_row.2 t_err t_mode (t_mode - t_err))
               | _, _ => None
               end)
            (recent_mode_changes modes err.1))
    errs.

Definition correlation_line (has_mode : bool) (c : correlation) : string :=
  let subsystem := str_cell (cell_at "Subsys" (c_err c)) in
  let code := str_cell (cell_at "ECode" (c_err c)) in
  let mode :=
    if has_mode then str_cell (cell_at "Mode" (c_mode c))
    else "Mode " +:+ str_cell (cell_at "ModeNum" (c_mode c)) in
  "• Subsystem " +:+ subsystem +:+ ", Code " +:+ code +:+ " at "
  +:+ fmt_2f (c_t_err c) +:+ "s → Mode change to " +:+ mode +:+ " at "
  +:+ fmt_2f (c_t_mode c) +:+ "s (Δt = " +:+ fmt_2f (c_delta c) +:+ "s)".

Definition INLINE_TIME_COLUMNS : list string := ["TimeUS"; "TimeMS"; "time_boot_ms"].

(** [1_000_000 if time_col == "TimeUS" else 1_000] *)
Definition inline_divisor (time_col : string) : Z :=
  if String.eqb time_col "TimeUS" then 1000000%Z else 1000%Z.

Definition NO_CORRELATION : string :=
  "No mode changes were detected within 1 second of error events.".

Definition correlate_errors_with_mode_changes (fd : dataset) : outcome string :=
  catch
    (if no_data fd then Return "No flight data available."
     else if negb (has_log fd "ERR") then Return "ERR log not found in the data."
     else
       l ← get_log fd "ERR";
       err_df ← DataFrame l;
       if negb (has_col err_df "Subsys" && has_col err_df "ECode") then
         Return "ERR log is missing required fields (Subsys and ECode)."
       else
         match first_column INLINE_TIME_COLUMNS err_df with
         | None => Return "Could not find timestamp column in ERR log."
         | Some time_col_err =>
             if negb (has_log fd "MODE") then Return "MODE log not found in the data."
             else
               mode_log ← get_log fd "MODE";
               normalized ←
                 match mode_log with
                 | LWide _ =>
                     catch (f ← mode_frame mode_log; Return (inr f))
                           (fun e => Return (inl ("⚠️ Failed to normalize MODE log: "
                                                  +:+ str_exn e)))
                 | _ => f ← mode_frame mode_log; Return (inr f)
                 end;
               match normalized with
               | inl message => Return message
               | inr None => Return "MODE log format is unrecognized."
               | inr (Some mode_df) =>
                   if negb (has_col mode_df "Mode" || has_col mode_df "ModeNum") then
                     Return "MODE log is missing required fields (Mode or ModeNum)."
                   else
                     match first_column INLINE_TIME_COLUMNS mode_df with
                     | None => Return "Could not find timestamp column in MODE log."
                     | Some time_col_mode =>
                         err_times ← rows_div err_df time_col_err
                                       (inline_divisor time_col_err) (records err_df);
                         mode_times ← rows_div mode_df time_col_mode
                                        (inline_divisor time_col_mode) (records mode_df);
                         let results :=
                           correlation_line (has_col mode_df "Mode")
                             <$> correlations (zip err_times (records err_df))
                                              (zip mode_times (records mode_df)) in
                         match results with
                         | [] => Return NO_CORRELATION
                         | _ :: _ =>
                             Return ("Yes, the following mode changes closely followed error events:"
                                     +:+ LF +:+ LF +:+ join LF results)
                         end
                     end
               end
         end)
    (fun e => Return ("❌ Error during correlation analysis: " +:+ str_exn e)).

(* ------------------------------------------------------------------- *)
(** *** Sensor-triggered failsafes *)

Definition SUBSYSTEM_MAP : gmap Z string :=
  list_to_map
    [(0, "Main system"); (3, "Compass"); (5, "Accelerometer"); (6, "Barometer");
     (8, "EKF (Extended Kalman Filter)"); (22, "Gyroscope"); (24, "Board voltage");
     (28, "GCS failsafe")]%Z.

Definition ERROR_CODE_MAP : gmap Z string :=
  list_to_map
    [(0, "No error (cleared)"); (1, "Error status"); (2, "Warning status");
     (3, "Critical"); (4, "Failsafe activated")]%Z.

(** [table.get(value, fallback)] with a log value as key: a number finds
    the entry of the integer it equals. *)
Definition map_get (table : gmap Z string) (key : cell) (fallback : string) : string :=
  match key with
  | CNum q => if Qeq_bool q (inject_Z (Qfloor q))
              then default fallback (table !! Qfloor q)
              else fallback
  | _ => fallback
  end.

Definition failsafe_message (df : frame) (row : gmap string cell) : outcome string :=
  let subsystem :=
    map_get SUBSYSTEM_MAP (cell_at "Subsys" row)
            ("Subsystem " +:+ str_cell (cell_at "Subsys" row)) in
  let code :=
    map_get ERROR_CODE_MAP (cell_at "ECode" row)
            ("Code " +:+ str_cell (cell_at "ECode" row)) in
  time_str ←
    match first_column INLINE_TIME_COLUMNS df with
    | Some time_field =>
        timestamp ← scalar_div df time_field row (inline_divisor time_field);
        match timestamp with
        | None => Raise ValueError
        | Some t =>
            let '(minutes, seconds) := divmod60 t in
            Return (str_int minutes +:+ ":" +:+ fmt_2f seconds)
        end
    | None => Return "unknown time"
    end;
  Return ("• At " +:+ time_str +:+ ", " +:+ subsystem +:+ " triggered a failsafe: " +:+ code).

Definition detect_sensor_triggered_failsafe (fd : dataset) : outcome string :=
  catch
    (if no_data fd then Return "No flight data available."
     else if negb (has_log fd "ERR") then
       Return "No ERR logs found. Cannot detect sensor-triggered failsafes."
     else
       err_log ← get_log fd "ERR";
       match err_log with
       | LRows (_ :: _) =>
           df ← DataFrame err_log;
           if negb (has_col df "Subsys" && has_col df "ECode") then
             Return "ERR log is missing required fields (Subsys and ECode)."
           else
             let sensor_subsystems := [3; 5; 6; 8; 22]%Z in
             let relevant :=
               List.filter (fun r => cell_isin sensor_subsystems (cell_at "Subsys" r))
                           (records df) in
             let triggered :=
               List.filter (fun r => cell_isin [1; 3; 4]%Z (cell_at "ECode" r)) relevant in
             match triggered with
             | [] => Return "No sensor-triggered failsafes occurred during the flight."
             | _ :: _ =>
                 messages ← for_each (failsafe_message df) triggered;
                 Return (join LF messages)
             end
       | _ => Return "ERR log is empty or malformed."
       end)
    (fun e => Return ("❌ Internal error while detecting sensor failsafes: " +:+ str_exn e)).

(* ------------------------------------------------------------------- *)
(** *** GPS health and the summary of all anomalies *)

Definition analyze_gps_health (fd : dataset) : outcome string :=
  catch
    (first_loss_summary ← find_first_gps_loss fd;
     degradation_duration_summary ← get_gps_degradation_duration fd;
     raw_gps_telemetry_summary ← analyze_raw_telemetry fd;
     Return ("---## GPS Signal Health Summary" +:+ LF +:+ LF
             +:+ "📍 **First GPS Degradation Event**: " +:+ first_loss_summary +:+ LF +:+ LF
             +:+ "⏱️ **Total Degradation Duration**: " +:+ degradation_duration_summary
             +:+ LF +:+ LF
             +:+ "📊 **Raw GPS Telemetry Snapshot for Further Analysis**:" +:+ LF
             +:+ raw_gps_telemetry_summary))
    (fun e =>
       Return ("❌ An error occurred during the comprehensive GPS health analysis: "
               +:+ str_exn e)).

Definition NO_ANOMALIES : string :=
  "✅ No significant anomalies were detected in the flight logs.".

Definition RC_LOSS_TAG : string := "🟥 **RC Signal Loss:**".
Definition RC_CHECK_TAG : string := "🟨 **RC Signal Check:**".

(** The section of the summary for the answer of the RC classifier *)
Definition rc_section (rc_status : string) : string :=
  if contains "loss" (lower rc_status)
  then RC_LOSS_TAG +:+ LF +:+ rc_status
  else RC_CHECK_TAG +:+ LF +:+ rc_status.

(** The list [summaries] at the end of the try body. [invoke] of the
    drop detector with no argument uses its defaults, 10 m and 5 s. *)
Definition anomaly_sections (fd : dataset) : outcome (list string) :=
  err_summary ← list_critical_errors fd;
  gps_health ← analyze_gps_health fd;
  rc_status ← check_rc_signal_loss fd;
  ekf_status ← analyze_ekf_health_status fd;
  drop_check ← detect_unusual_altitude_drops fd 10 5;
  battery_check ← check_battery_temp_stability fd;
  Return ((if contains "Subsystem" err_summary
           then ["🟥 **Critical Errors (Subsystem Faults):**" +:+ LF +:+ err_summary]
           else [])
          ++ ["🟧 **GPS Signal Anomalies:**" +:+ LF +:+ gps_health]
          ++ [rc_section rc_status]
          ++ (if contains "error" (lower ekf_status)
              then ["🟧 **EKF Health Warnings:**" +:+ LF +:+ ekf_status]
              else [])
          ++ (if contains "Drop of" drop_check
              then ["🟨 **Altitude Drop Detected:**" +:+ LF +:+ drop_check]
              else [])
          ++ (if contains "fluctuated" battery_check || contains "invalid" battery_check
              then ["🟨 **Battery Temperature:**" +:+ LF +:+ battery_check]
              else []))%list.

(** [text or fallback] *)
Definition str_or (text fallback : string) : string :=
  match text with
  | EmptyString => fallback
  | _ => text
  end.

Definition summarize_all_anomalies (fd : dataset) : outcome string :=
  if no_data fd then
    Return "⚠️ Flight data not found. Please upload a valid log file first."
  else
    catch
      (summaries ← anomaly_sections fd;
       Return (str_or (join (LF +:+ LF) summaries) NO_ANOMALIES))
      (fun e => Return ("❌ Error while summarizing anomalies: " +:+ str_exn e)).

(** The toolbox, in the order of [all_tools]; the documentation lookup
    takes its search term, the drop detector its two parameters. *)
Definition all_tools (search_term : string) (threshold_m window_s : Q)
    : list (string * (dataset -> outcome string)) :=
  [("get_highest_altitude", get_highest_altitude);
   ("find_first_gps_loss", find_first_gps_loss);
   ("get_max_battery_temperature", get_max_battery_temperature);
   ("get_total_flight_time", get_total_flight_time);
   ("list_critical_errors", list_critical_errors);
   ("check_rc_signal_loss", check_rc_signal_loss);
   ("analyze_flight_anomalies", fun _ => analyze_flight_anomalies);
   ("lookup_ardupilot_documentation", fun _ => lookup_ardupilot_documentation search_term);
   ("get_gps_degradation_duration", get_gps_degradation_duration);
   ("detect_unusual_altitude_drops",
    fun fd => detect_unusual_altitude_drops fd threshold_m window_s);
   ("analyze_raw_telemetry", analyze_raw_telemetry);
   ("check_battery_temp_stability", check_battery_temp_stability);
   ("list_mode_changes", list_mode_changes);
   ("analyze_gps_health", analyze_gps_health);
   ("correlate_errors_with_mode_changes", correlate_errors_with_mode_changes);
   ("detect_sensor_triggered_failsafe", detect_sensor_triggered_failsafe);
   ("analyze_ekf_health_status", analyze_ekf_health_status);
   ("summarize_all_anomalies", summarize_all_anomalies)].

End Tools.

(* ===================================================================== *)
(** * Properties *)
(* ===================================================================== *)

(** ** Results and exceptions *)

(** The call returns, no exception leaves it. *)
Definition returns {A} (o : outcome A) : Prop := exists a, o = Return a.

Lemma returns_Return {A} (a : A) : returns (Return a).
Proof. now exists a. Qed.

Lemma catch_returns {A} (body : outcome A) (handler : exn -> outcome A) :
  (forall e, returns (handler e)) -> returns (catch body handler).
Proof.
  intros Hh. destruct body as [a|e]; simpl; [apply returns_Return | apply Hh].
Qed.

Lemma bind_Return {A B} (m : outcome A) (f : A -> outcome B) b :
  m ≫= f = Return b -> exists a, m = Return a /\ f a = Return b.
Proof. destruct m as [a|e]; simpl; [eauto | discriminate]. Qed.

(** Every [except] clause of the tools ends in a [return]. *)
Ltac handler_returns :=
  let e := fresh "e" in
  intros e; destruct e; apply returns_Return.

(** One step of a tool: the binds, the handlers and the boolean tests. *)
Ltac run :=
  cbn beta iota zeta delta
    [mbind outcome_bind mret outcome_ret catch negb andb orb fst snd].

Ltac split_conj := repeat match goal with |- _ /\ _ => split end.

Ltac tool_returns :=
  repeat match goal with
         | |- returns (Return _) => apply returns_Return
         | |- returns (catch _ _) => apply catch_returns; handler_returns
         | |- returns (if ?b then _ else _) => destruct b
         end.

(** An answer that tells the user that the flight data, or the log the
    tool needs, is not there: the wordings the tools use for it. *)
Definition unavailable_message (s : string) : bool :=
  contains "not available" s
  || contains "No flight data" s
  || contains "not found" s
  || contains "missing or empty" s.

Section Totality.

Variable str_exn : exn -> string.
Variable str_cell : cell -> string.
Variable int_of_str : string -> option Z.
Variable documentation_lookup : string -> outcome string.
Variable str_telemetry : telemetry -> string.

Lemma lookup_ardupilot_documentation_returns search_term :
  returns (lookup_ardupilot_documentation str_exn documentation_lookup search_term).
Proof. unfold lookup_ardupilot_documentation. tool_returns. Qed.

Lemma get_highest_altitude_returns fd : returns (get_highest_altitude str_exn fd).
Proof. unfold get_highest_altitude. tool_returns. Qed.

Lemma find_first_gps_loss_returns fd : returns (find_first_gps_loss str_exn str_cell fd).
Proof. unfold find_first_gps_loss, gps_handlers. tool_returns. Qed.

Lemma get_max_battery_temperature_returns fd :
  returns (get_max_battery_temperature str_exn fd).
Proof. unfold get_max_battery_temperature. tool_returns. Qed.

Lemma get_total_flight_time_returns fd : returns (get_total_flight_time str_exn fd).
Proof. unfold get_total_flight_time, gps_handlers. tool_returns. Qed.

Lemma list_critical_errors_returns fd :
  returns (list_critical_errors str_exn int_of_str fd).
Proof. unfold list_critical_errors. tool_returns. Qed.

Lemma check_rc_signal_loss_returns fd : returns (check_rc_signal_loss str_exn fd).
Proof. unfold check_rc_signal_loss. tool_returns. Qed.

Lemma get_gps_degradation_duration_returns fd :
  returns (get_gps_degradation_duration str_exn fd).
Proof. unfold get_gps_degradation_duration, gps_handlers. tool_returns. Qed.

Lemma detect_unusual_altitude_drops_returns fd threshold_m window_s :
  returns (detect_unusual_altitude_drops str_exn fd threshold_m window_s).
Proof. unfold detect_unusual_altitude_drops. tool_returns. Qed.

Lemma analyze_raw_telemetry_returns fd :
  returns (analyze_raw_telemetry str_exn str_telemetry fd).
Proof. unfold analyze_raw_telemetry. tool_returns. Qed.

Lemma check_battery_temp_stability_returns fd :
  returns (check_battery_temp_stability str_exn fd).
Proof. unfold check_battery_temp_stability. tool_returns. Qed.

Lemma list_mode_changes_returns fd :
  returns (list_mode_changes str_exn str_cell int_of_str fd).
Proof. unfold list_mode_changes. tool_returns. Qed.

Lemma analyze_gps_health_returns fd :
  returns (analyze_gps_health str_exn str_cell str_telemetry fd).
Proof. unfold analyze_gps_health. tool_returns. Qed.

Lemma correlate_errors_with_mode_changes_returns fd :
  returns (correlate_errors_with_mode_changes str_exn str_cell fd).
Proof. unfold correlate_errors_with_mode_changes. tool_returns. Qed.

Lemma detect_sensor_triggered_failsafe_returns fd :
  returns (detect_sensor_triggered_failsafe str_exn str_cell fd).
Proof. unfold detect_sensor_triggered_failsafe. tool_returns. Qed.

Lemma analyze_ekf_health_status_returns fd :
  returns (analyze_ekf_health_status str_exn int_of_str fd).
Proof. unfold analyze_ekf_health_status. tool_returns. Qed.

Lemma summarize_all_anomalies_returns fd :
  returns (summarize_all_anomalies str_exn str_cell int_of_str str_telemetry fd).
Proof. unfold summarize_all_anomalies. tool_returns. Qed.

End Totality.

(** ** Sample renderings and a sample flight *)

(** One choice for the parameters of the tools, used to run them on
    examples. *)
Definition sample_str_exn (e : exn) : string :=
  match e with
  | KeyError key => "'" +:+ key +:+ "'"
  | TypeError => "unsupported operand type(s)"
  | ValueError => "cannot convert float NaN to integer"
  | Timeout => "timed out"
  | RequestException => "connection refused"
  | RuntimeError => "runtime error"
  end.

Definition sample_str_cell (c : cell) : string :=
  match c with
  | CNum q => if Qeq_bool q (inject_Z (Qfloor q)) then str_int (Qfloor q) else fmt_2f q
  | CStr s => s
  | CNull => "nan"
  end.

Definition sample_int_of_str (s : string) : option Z :=
  if String.eqb s "16" then Some 16%Z else None.

Definition sample_documentation_lookup (search_term : string) : outcome string :=
  Raise Timeout.

Definition sample_str_telemetry (t : telemetry) : string := "{...}".

Definition record_of (fields : list (string * cell)) : gmap string cell :=
  list_to_map fields.

(* ===================================================================== *)
(** ** C1: every tool returns a string *)
(* ===================================================================== *)

(** The two tools that never read the flight data. *)
Definition dataset_free (name : string) : bool :=
  String.eqb name "analyze_flight_anomalies"
  || String.eqb name "lookup_ardupilot_documentation".

Section Boundary.

Variable str_exn : exn -> string.
Variable str_cell : cell -> string.
Variable int_of_str : string -> option Z.
Variable documentation_lookup : string -> outcome string.
Variable str_telemetry : telemetry -> string.

Let toolbox := all_tools str_exn str_cell int_of_str documentation_lookup str_telemetry.

(** C1 (amended): whatever the flight data (absent, empty or loaded, with
    any logs, columns and rows), every tool of [all_tools] returns a string
    and lets no exception out; and when no flight data is loaded, every
    tool that reads the flight data answers with a message saying that the
    data is not available.  [analyze_flight_anomalies] and
    [lookup_ardupilot_documentation] do not read the flight data. *)
Theorem all_tools_total search_term threshold_m window_s name tool fd :
  In (name, tool) (toolbox search_term threshold_m window_s) ->
  returns (tool fd)
  /\ (no_data fd = true -> dataset_free name = false ->
      exists s, tool fd = Return s /\ unavailable_message s = true).
Proof.
  unfold toolbox, all_tools. simpl.
  intros H.
  repeat (destruct H as [H|H]; [inversion H; subst; clear H|]); try contradiction.
  all: split;
    [ first [ apply get_highest_altitude_returns
            | apply find_first_gps_loss_returns
            | apply get_max_battery_temperature_returns
            | apply get_total_flight_time_returns
            | apply list_critical_errors_returns
            | apply check_rc_signal_loss_returns
            | apply lookup_ardupilot_documentation_returns
            | apply get_gps_degradation_duration_returns
            | apply detect_unusual_altitude_drops_returns
            | apply analyze_raw_telemetry_returns
            | apply check_battery_temp_stability_returns
            | apply list_mode_changes_returns
            | apply analyze_gps_health_returns
            | apply correlate_errors_with_mode_changes_returns
            | apply detect_sensor_triggered_failsafe_returns
            | apply analyze_ekf_health_status_returns
            | apply summarize_all_anomalies_returns
            | apply returns_Return ]
    | intros Hnone Hreads; try discriminate Hreads ].
  all: unfold get_highest_altitude, find_first_gps_loss, get_max_battery_temperature,
         get_total_flight_time, list_critical_errors, check_rc_signal_loss,
         get_gps_degradation_duration, detect_unusual_altitude_drops,
         analyze_raw_telemetry, check_battery_temp_stability, list_mode_changes,
         analyze_gps_health, find_first_gps_loss, get_gps_degradation_duration,
         analyze_raw_telemetry, correlate_errors_with_mode_changes,
         detect_sensor_triggered_failsafe, analyze_ekf_health_status,
         summarize_all_anomalies;
       rewrite ?Hnone; simpl;
       eexists; (split; [reflexivity | vm_compute; reflexivity]).
Qed.

End Boundary.

(** With no flight data, [analyze_flight_anomalies] gives its usual
    guidance and says nothing of the missing data: the claim that each
    entry point then answers that the data is not available fails for it. *)
Lemma no_data_answer_counterexample :
  ~ (forall name tool,
       In (name, tool)
          (all_tools sample_str_exn sample_str_cell sample_int_of_str
                     sample_documentation_lookup sample_str_telemetry "ERR" 10 5) ->
       exists s, tool None = Return s /\ unavailable_message s = true).
Proof.
  intros H.
  destruct (H "analyze_flight_anomalies" (fun _ => analyze_flight_anomalies))
    as [s [Hs Hm]].
  - simpl. do 6 right. left. reflexivity.
  - inversion Hs; subst. vm_compute in Hm. discriminate.
Qed.

Lemma all_tools_total_witness :
  In ("summarize_all_anomalies",
      summarize_all_anomalies sample_str_exn sample_str_cell sample_int_of_str
                              sample_str_telemetry)
     (all_tools sample_str_exn sample_str_cell sample_int_of_str
                sample_documentation_lookup sample_str_telemetry "ERR" 10 5)
  /\ no_data (Some ∅) = true
  /\ dataset_free "summarize_all_anomalies" = false
  /\ returns (summarize_all_anomalies sample_str_exn sample_str_cell sample_int_of_str
                                      sample_str_telemetry (Some ∅))
  /\ exists s,
       summarize_all_anomalies sample_str_exn sample_str_cell sample_int_of_str
                               sample_str_telemetry (Some ∅) = Return s
       /\ unavailable_message s = true.
Proof.
  assert (Hin : In ("summarize_all_anomalies",
                    summarize_all_anomalies sample_str_exn sample_str_cell sample_int_of_str
                                            sample_str_telemetry)
                   (all_tools sample_str_exn sample_str_cell sample_int_of_str
                              sample_documentation_lookup sample_str_telemetry "ERR" 10 5)).
  { simpl. do 17 right. left. reflexivity. }
  split; [exact Hin|].
  split; [reflexivity|].
  split; [reflexivity|].
  destruct (all_tools_total sample_str_exn sample_str_cell sample_int_of_str
              sample_documentation_lookup sample_str_telemetry "ERR" 10 5
              _ _ (Some ∅) Hin) as [Hret Hmsg].
  split; [exact Hret|].
  apply Hmsg; reflexivity.
Defined.

(* ===================================================================== *)
(** ** C3: the time field of a table *)
(* ===================================================================== *)

(** The table carries none of the three time fields. *)
Definition no_time_column (df : frame) : Prop :=
  has_col df "TimeUS" = false
  /\ has_col df "time_boot_ms" = false
  /\ has_col df "TimeMS" = false.

(** The flight data is loaded and its log [name] is a usable table
    without a time field. *)
Definition untimed (fd : dataset) (name : string) (df : frame) : Prop :=
  no_data fd = false
  /\ exists l, get_log fd name = Return l /\ truthy l = true
               /\ DataFrame l = Return df /\ no_time_column df.

Lemma get_log_has_log fd name l : get_log fd name = Return l -> has_log fd name = true.
Proof.
  destruct fd as [d|]; simpl; [|discriminate].
  destruct (d !! name) eqn:E; [|discriminate].
  intros _. apply bool_decide_eq_true. eauto.
Qed.

Lemma get_log_truthy fd name l :
  get_log fd name = Return l -> has_truthy_log fd name = truthy l.
Proof.
  destruct fd as [d|]; simpl; [|discriminate].
  destruct (d !! name) eqn:E; [|discriminate].
  now intros [= ->].
Qed.

Lemma no_time_column_helper df :
  no_time_column df -> _get_time_column_and_divisor df = (None, 1%Z).
Proof.
  intros (H1 & H2 & H3). unfold _get_time_column_and_divisor. simpl.
  now rewrite H1, H2, H3.
Qed.

Lemma no_time_column_inline df :
  no_time_column df -> first_column INLINE_TIME_COLUMNS df = None.
Proof.
  intros (H1 & H2 & H3). unfold first_column. simpl.
  now rewrite H1, H3, H2.
Qed.

#[local] Arguments first_column : simpl never.
#[local] Arguments _get_time_column_and_divisor : simpl never.
#[local] Arguments _format_time_string : simpl never.
#[local] Arguments scalar_div : simpl never.
#[local] Arguments Qdiv : simpl never.

Section TimeField.

Variable str_exn : exn -> string.
Variable str_cell : cell -> string.
Variable int_of_str : string -> option Z.


End TimeField.

(** A table with both millisecond fields: the helper names time_boot_ms,
    the inline selection of the correlator names TimeMS.  And a GPS table
    without time field and without NSats: the duration tool answers about
    NSats, not about the timestamp. *)
Definition two_millisecond_fields : frame :=
  Frame {[ "time_boot_ms"; "TimeMS" ]} [].

Definition gps_without_nsats : dataset :=
  Some {[ "GPS" := LRows [record_of [("FixType", CNum 3)]] ]}.


Definition gps_without_time : dataset :=
  Some {[ "GPS" := LRows [record_of [("NSats", CNum 4)]] ]}.


(* ===================================================================== *)
(** ** C4: errors followed by a mode change within one second *)
(* ===================================================================== *)

Lemma fle_Some_iff a b : fle (Some a) (Some b) = true <-> (a <= b)%Q.
Proof. simpl. apply Qle_bool_iff. Qed.

Lemma fle_true x y : fle x y = true -> exists a b, x = Some a /\ y = Some b /\ (a <= b)%Q.
Proof.
  destruct x as [a|], y as [b|]; simpl; try discriminate.
  intros H. exists a, b. split_conj; auto. now apply Qle_bool_iff.
Qed.

Lemma in_recent_mode_changes modes t_err t_mode mode_row :
  In (t_mode, mode_row) (recent_mode_changes modes t_err) <->
  In (t_mode, mode_row) modes
  /\ exists a b, t_err = Some a /\ t_mode = Some b /\ (a <= b)%Q /\ (b <= a + 1)%Q.
Proof.
  unfold recent_mode_changes. rewrite filter_In. simpl.
  split.
  - intros [Hin H]. split; [exact Hin|].
    apply andb_prop in H as [H1 H2].
    apply fle_true in H1 as (a & b & -> & -> & Hab).
    simpl in H2. apply Qle_bool_iff in H2. eauto 8.
  - intros [Hin (a & b & -> & -> & H1 & H2)]. split; [exact Hin|].
    apply andb_true_intro. split; simpl; now apply Qle_bool_iff.
Qed.


(** An error at 10.0 s, mode changes at 9.9 s and 10.4 s: only the second
    is reported, with delay 0.4 s. *)
Definition error_at_10 : list (pyfloat * gmap string cell) :=
  [(Some 10%Q, record_of [("Subsys", CNum 16); ("ECode", CNum 1)])].

Definition modes_around_10 : list (pyfloat * gmap string cell) :=
  [(Some (99 # 10), record_of [("Mode", CStr "LOITER")]);
   (Some (104 # 10), record_of [("Mode", CStr "RTL")])].


(* ===================================================================== *)
(** ** Strings: substrings of a concatenation, case, digits *)
(* ===================================================================== *)

Fixpoint string_forall (P : ascii -> bool) (s : string) : bool :=
  match s with
  | EmptyString => true
  | String c rest => P c && string_forall P rest
  end.

Lemma string_forall_app P a b :
  string_forall P (a +:+ b) = string_forall P a && string_forall P b.
Proof.
  induction a as [|c a IH]; simpl; [reflexivity|].
  now rewrite IH, andb_assoc.
Qed.

Lemma lower_app a b : lower (a +:+ b) = lower a +:+ lower b.
Proof. induction a as [|c a IH]; simpl; [reflexivity | now rewrite IH]. Qed.

Lemma string_forall_lower P s :
  string_forall P (lower s) = string_forall (fun c => P (lower_ascii c)) s.
Proof. induction s as [|c s IH]; simpl; [reflexivity | now rewrite IH]. Qed.

(** A stretch of text without the first letter of the needle cannot
    hold the start of an occurrence. *)
Lemma contains_skip c needle s rest :
  string_forall (fun x => negb (Ascii.eqb c x)) s = true ->
  contains (String c needle) (s +:+ rest) = contains (String c needle) rest.
Proof.
  induction s as [|x s IH]; [reflexivity|].
  intros H. simpl in H. apply andb_prop in H as [Hx Hs].
  change (contains (String c needle) (String x s +:+ rest))
    with (starts_with (String c needle) (String x (s +:+ rest))
          || contains (String c needle) (s +:+ rest)).
  rewrite IH by exact Hs. simpl starts_with.
  destruct (Ascii.eqb c x); [discriminate | reflexivity].
Qed.

Lemma contains_app_r needle a b :
  contains needle b = true -> contains needle (a +:+ b) = true.
Proof.
  intros H. induction a as [|c a IH]; simpl; [exact H|].
  rewrite IH. apply orb_true_r.
Qed.

Lemma starts_with_app needle a b :
  starts_with needle a = true -> starts_with needle (a +:+ b) = true.
Proof.
  revert a. induction needle as [|c n IH]; intros a; simpl; [reflexivity|].
  destruct a as [|x a]; simpl; [discriminate|].
  intros H. apply andb_prop in H as [H1 H2]. now rewrite H1, IH.
Qed.

Lemma contains_app_l needle a b :
  contains needle a = true -> contains needle (a +:+ b) = true.
Proof.
  induction a as [|c a IH].
  - simpl. rewrite orb_false_r. intros H.
    destruct needle; [destruct b; reflexivity | discriminate].
  - intros H.
    change (contains needle (String c a))
      with (starts_with needle (String c a) || contains needle a) in H.
    change (contains needle (String c a +:+ b))
      with (starts_with needle (String c a +:+ b) || contains needle (a +:+ b)).
    apply orb_prop in H as [H|H].
    + now rewrite (starts_with_app _ _ b H).
    + rewrite (IH H). apply orb_true_r.
Qed.

(** The characters of a formatted number *)
Definition number_char (c : ascii) : bool :=
  let n := nat_of_ascii c in
  ((48 <=? n)%nat && (n <=? 57)%nat) || Ascii.eqb c "-" || Ascii.eqb c ".".

Lemma number_chars_uint d : string_forall number_char (NilEmpty.string_of_uint d) = true.
Proof. induction d; simpl; auto. Qed.

Lemma number_chars_N n : string_forall number_char (str_N n) = true.
Proof.
  unfold str_N, NilZero.string_of_uint.
  destruct (N.to_uint n) eqn:E; try reflexivity;
    rewrite <- E; apply number_chars_uint.
Qed.

Lemma number_chars_int z : string_forall number_char (str_int z) = true.
Proof.
  unfold str_int. destruct (z <? 0)%Z; simpl; apply number_chars_N.
Qed.

Lemma number_chars_02d z : string_forall number_char (fmt_02d z) = true.
Proof.
  unfold fmt_02d. destruct (_ && _); simpl; apply number_chars_int.
Qed.

Lemma number_chars_2f q : string_forall number_char (fmt_2f q) = true.
Proof.
  unfold fmt_2f. cbv zeta.
  assert (H : forall a b, string_forall number_char
                (str_int a +:+ "." +:+
                 (if (b <? 10)%Z then "0" +:+ str_int b else str_int b)) = true).
  { intros a b. rewrite !string_forall_app, number_chars_int. simpl.
    destruct (b <? 10)%Z; simpl; apply number_chars_int. }
  destruct (negb _); [simpl|]; apply H.
Qed.

Lemma string_forall_impl (P R : ascii -> bool) s :
  (forall c, P c = true -> R c = true) ->
  string_forall P s = true -> string_forall R s = true.
Proof.
  intros HPR. induction s as [|c s IH]; simpl; [reflexivity|].
  intros H. apply andb_prop in H as [Hc Hs].
  now rewrite (HPR _ Hc), IH.
Qed.

Lemma number_char_not_letter (letter : ascii) c :
  number_char letter = false -> number_char c = true -> negb (Ascii.eqb letter c) = true.
Proof.
  intros Hl Hc. destruct (Ascii.eqb letter c) eqn:E; [|reflexivity].
  apply Ascii.eqb_eq in E. congruence.
Qed.

Lemma lower_number_char c : number_char c = true -> lower_ascii c = c.
Proof.
  unfold number_char, lower_ascii. cbv zeta. intros H.
  destruct ((65 <=? nat_of_ascii c)%nat && (nat_of_ascii c <=? 90)%nat) eqn:E;
    [|reflexivity].
  apply andb_prop in E as [E1 E2].
  apply Nat.leb_le in E1. apply Nat.leb_le in E2.
  apply orb_prop in H as [H|H]; [apply orb_prop in H as [H|H]|].
  - apply andb_prop in H as [H1 H2].
    apply Nat.leb_le in H1. apply Nat.leb_le in H2. lia.
  - apply Ascii.eqb_eq in H. subst c. apply Nat.leb_le in E1. discriminate E1.
  - apply Ascii.eqb_eq in H. subst c. apply Nat.leb_le in E1. discriminate E1.
Qed.

Lemma lower_numbers s : string_forall number_char s = true -> lower s = s.
Proof.
  induction s as [|c s IH]; simpl; [reflexivity|].
  intros H. apply andb_prop in H as [Hc Hs].
  now rewrite (lower_number_char _ Hc), IH.
Qed.

(** A formatted time is [mm:ss (x.xx seconds raw)]. *)
Lemma format_time_shape t ft :
  _format_time_string (Some t) = Return ft ->
  exists mm ss raw,
    ft = mm +:+ ":" +:+ ss +:+ " (" +:+ raw +:+ " seconds raw)"
    /\ string_forall number_char mm = true
    /\ string_forall number_char ss = true
    /\ string_forall number_char raw = true.
Proof.
  unfold _format_time_string. destruct (divmod60 t) as [m r]. intros [= <-].
  eexists _, _, _. split; [reflexivity|].
  split_conj; auto using number_chars_02d, number_chars_2f.
Qed.

Lemma format_time_returns t : exists ft, _format_time_string (Some t) = Return ft.
Proof. unfold _format_time_string. destruct (divmod60 t). eauto. Qed.

Lemma format_time_no_l t ft :
  _format_time_string (Some t) = Return ft ->
  string_forall (fun x => negb (Ascii.eqb "l" x)) (lower ft) = true.
Proof.
  intros H. apply format_time_shape in H as (mm & ss & raw & -> & Hm & Hs & Hr).
  assert (Hn : forall s, string_forall number_char s = true ->
               string_forall (fun x => negb (Ascii.eqb "l" x)) (lower s) = true).
  { intros s Hs'. rewrite (lower_numbers _ Hs').
    apply (string_forall_impl number_char); [|exact Hs'].
    intros c. now apply number_char_not_letter. }
  rewrite !lower_app, !string_forall_app.
  rewrite (Hn mm Hm), (Hn ss Hs), (Hn raw Hr). reflexivity.
Qed.

(* ===================================================================== *)
(** ** C10: the tag of the RC section of the summary *)
(* ===================================================================== *)

Section Summary.

Variable str_exn : exn -> string.
Variable str_cell : cell -> string.
Variable int_of_str : string -> option Z.
Variable str_telemetry : telemetry -> string.

(** The six classifiers of the summary return, so the list of
    sections is built. *)
Lemma anomaly_sections_returns fd :
  exists err_summary gps_health rc_status ekf_status drop_check battery_check sections,
    list_critical_errors str_exn int_of_str fd = Return err_summary
    /\ analyze_gps_health str_exn str_cell str_telemetry fd = Return gps_health
    /\ check_rc_signal_loss str_exn fd = Return rc_status
    /\ analyze_ekf_health_status str_exn int_of_str fd = Return ekf_status
    /\ detect_unusual_altitude_drops str_exn fd 10 5 = Return drop_check
    /\ check_battery_temp_stability str_exn fd = Return battery_check
    /\ anomaly_sections str_exn str_cell int_of_str str_telemetry fd = Return sections
    /\ exists before after,
         sections = (before
                     ++ ["🟧 **GPS Signal Anomalies:**" +:+ LF +:+ gps_health]
                     ++ [rc_section rc_status] ++ after)%list
         /\ (before = [] \/
             before = ["🟥 **Critical Errors (Subsystem Faults):**" +:+ LF +:+ err_summary]).
Proof.
  destruct (list_critical_errors_returns str_exn int_of_str fd) as [e He].
  destruct (analyze_gps_health_returns str_exn str_cell str_telemetry fd) as [g Hg].
  destruct (check_rc_signal_loss_returns str_exn fd) as [r Hr].
  destruct (analyze_ekf_health_status_returns str_exn int_of_str fd) as [k Hk].
  destruct (detect_unusual_altitude_drops_returns str_exn fd 10 5) as [d Hd].
  destruct (check_battery_temp_stability_returns str_exn fd) as [b Hb].
  exists e, g, r, k, d, b. eexists. split_conj; try eassumption.
  - unfold anomaly_sections. rewrite He, Hg, Hr, Hk, Hd, Hb. simpl. reflexivity.
  - eexists _, _. split; [reflexivity|].
    destruct (contains "Subsystem" e); auto.
Qed.

(** C10: in the summary the RC section carries the critical tag
    "RC Signal Loss" exactly when the lower-cased answer of the RC
    classifier contains "loss", and the tag "RC Signal Check" otherwise.
    So the clean answer "no RC signal loss (EV.Id = 10) was detected" is
    tagged critical, and a failsafe inferred from the MODE log, whose
    message has no "loss" whatever the time, gets the non-critical tag. *)
Theorem rc_section_tag :
  (forall rc_status,
     rc_section rc_status
     = (if contains "loss" (lower rc_status) then RC_LOSS_TAG else RC_CHECK_TAG)
       +:+ LF +:+ rc_status)
  /\ (forall fd, exists sections rc_status,
        anomaly_sections str_exn str_cell int_of_str str_telemetry fd = Return sections
        /\ check_rc_signal_loss str_exn fd = Return rc_status
        /\ In (rc_section rc_status) sections)
  /\ rc_section RC_NOT_DETECTED = RC_LOSS_TAG +:+ LF +:+ RC_NOT_DETECTED
  /\ (forall t, exists ft,
        _format_time_string (Some t) = Return ft
        /\ contains "loss" (lower (RC_INFERRED ft)) = false
        /\ rc_section (RC_INFERRED ft) = RC_CHECK_TAG +:+ LF +:+ RC_INFERRED ft)
  /\ rc_section RC_INFERRED_NO_TIME = RC_CHECK_TAG +:+ LF +:+ RC_INFERRED_NO_TIME.
Proof.
  split_conj.
  - intros rc_status. unfold rc_section.
    destruct (contains "loss" (lower rc_status)); reflexivity.
  - intros fd.
    destruct (anomaly_sections_returns fd)
      as (e & g & r & k & d & b & sections & _ & _ & Hr & _ & _ & _ & Hs
          & before & after & -> & _).
    exists (before ++ ["🟧 **GPS Signal Anomalies:**" +:+ LF +:+ g]
                   ++ [rc_section r] ++ after)%list, r.
    split_conj; auto.
    apply in_or_app. right. right. left. reflexivity.
  - vm_compute. reflexivity.
  - intros t. destruct (format_time_returns t) as [ft Hft]. exists ft.
    assert (Hno : contains "loss" (lower (RC_INFERRED ft)) = false).
    { unfold RC_INFERRED. rewrite !lower_app.
      match goal with
      | |- contains _ (?a +:+ _) = _ =>
          let a' := eval vm_compute in a in change a with a'
      end.
      match goal with
      | |- contains ?n (?a +:+ ?x) = _ =>
          change (contains n (a +:+ x)) with (contains n x)
      end.
      rewrite (contains_skip "l" "oss") by exact (format_time_no_l _ _ Hft).
      vm_compute. reflexivity. }
    split_conj; auto.
    unfold rc_section. now rewrite Hno.
  - vm_compute. reflexivity.
Qed.

(* =================================================================== *)
(** ** C9: the summary of a clean flight *)
(* =================================================================== *)

(** C9 (the code departs from it): whatever the flight data,
    [summarize_all_anomalies] never returns the message "No significant
    anomalies were detected": with flight data loaded it returns the
    joined sections, of which the GPS section and the RC section are
    always there, however clean the answers of the classifiers. *)
Theorem summary_never_clean fd :
  summarize_all_anomalies str_exn str_cell int_of_str str_telemetry fd
    <> Return NO_ANOMALIES
  /\ (no_data fd = false ->
      exists sections,
        anomaly_sections str_exn str_cell int_of_str str_telemetry fd = Return sections
        /\ (2 <= length sections)%nat
        /\ summarize_all_anomalies str_exn str_cell int_of_str str_telemetry fd
           = Return (join (LF +:+ LF) sections)).
Proof.
  destruct (anomaly_sections_returns fd)
    as (e & g & r & k & d & b & sections & _ & _ & _ & _ & _ & _ & Hs
        & before & after & -> & Hbefore).
  assert (Hloaded : no_data fd = false ->
      exists sections,
        anomaly_sections str_exn str_cell int_of_str str_telemetry fd = Return sections
        /\ (2 <= length sections)%nat
        /\ summarize_all_anomalies str_exn str_cell int_of_str str_telemetry fd
           = Return (join (LF +:+ LF) sections)).
  { intros Hd. eexists. split; [exact Hs|]. split.
    - rewrite !length_app. simpl. lia.
    - unfold summarize_all_anomalies. rewrite Hd, Hs. simpl.
      destruct Hbefore as [-> | ->]; reflexivity. }
  split; [|exact Hloaded].
  destruct (no_data fd) eqn:Hd.
  - unfold summarize_all_anomalies. rewrite Hd. discriminate.
  - destruct (Hloaded eq_refl) as (sections & Hs' & _ & ->).
    rewrite Hs in Hs'. injection Hs' as <-.
    destruct Hbefore as [-> | ->]; discriminate.
Qed.

End Summary.

(** A flight with nothing to report: good GPS, an event log without RC
    failsafe, level flight, a steady battery, no ERR log. *)
Definition clean_flight : dataset :=
  Some (list_to_map
    [("GPS", LRows [record_of [("TimeUS", CNum 0); ("NSats", CNum 10); ("FixType", CNum 3)];
                    record_of [("TimeUS", CNum 1000000); ("NSats", CNum 11); ("FixType", CNum 3)]]);
     ("EV", LRows [record_of [("TimeUS", CNum 500000); ("Id", CNum 7)]]);
     ("BARO", LRows [record_of [("TimeUS", CNum 0); ("Alt", CNum 50)];
                     record_of [("TimeUS", CNum 1000000); ("Alt", CNum 50)]]);
     ("BAT", LRows [record_of [("Temp", CNum 20)]; record_of [("Temp", CNum (201 # 10))]])]).

Lemma summary_never_clean_witness :
  no_data clean_flight = false
  /\ check_rc_signal_loss sample_str_exn clean_flight = Return RC_NOT_DETECTED
  /\ detect_unusual_altitude_drops sample_str_exn clean_flight 10 5 = Return NO_DROPS
  /\ summarize_all_anomalies sample_str_exn sample_str_cell sample_int_of_str
        sample_str_telemetry clean_flight <> Return NO_ANOMALIES
  /\ exists gps_health,
       analyze_gps_health sample_str_exn sample_str_cell sample_str_telemetry clean_flight
         = Return gps_health
       /\ summarize_all_anomalies sample_str_exn sample_str_cell sample_int_of_str
            sample_str_telemetry clean_flight
          = Return (join (LF +:+ LF)
                      ["🟧 **GPS Signal Anomalies:**" +:+ LF +:+ gps_health;
                       RC_LOSS_TAG +:+ LF +:+ RC_NOT_DETECTED]).
Proof.
  split; [reflexivity|].
  split; [vm_compute; reflexivity|].
  split; [vm_compute; reflexivity|].
  split.
  - exact (proj1 (summary_never_clean sample_str_exn sample_str_cell sample_int_of_str
                    sample_str_telemetry clean_flight)).
  - eexists. split; vm_compute; reflexivity.
Defined.

Lemma rc_section_tag_witness :
  exists sections,
    anomaly_sections sample_str_exn sample_str_cell sample_int_of_str
      sample_str_telemetry clean_flight = Return sections
    /\ In (RC_LOSS_TAG +:+ LF +:+ RC_NOT_DETECTED) sections.
Proof.
  destruct (rc_section_tag sample_str_exn sample_str_cell sample_int_of_str
              sample_str_telemetry) as (_ & Hsec & Hclean & _).
  destruct (Hsec clean_flight) as (sections & rc_status & Hs & Hrc & Hin).
  exists sections. split; [exact Hs|].
  assert (Hr : rc_status = RC_NOT_DETECTED).
  { assert (H : check_rc_signal_loss sample_str_exn clean_flight = Return RC_NOT_DETECTED)
      by (vm_compute; reflexivity).
    rewrite H in Hrc. now injection Hrc. }
  subst rc_status. rewrite Hclean in Hin. exact Hin.
Defined.


(* ===================================================================== *)
(** ** C6: RC signal loss, by event or inferred from the mode *)
(* ===================================================================== *)

Lemma scalar_div_num df tc r d t :
  cell_at tc r = CNum t -> scalar_div df tc r d = Return (Some (t / inject_Z d)%Q).
Proof.
  unfold scalar_div, is_None, cell_at. intros H.
  destruct (r !! tc) as [[q| |]|]; simpl in *; try discriminate.
  now injection H as ->.
Qed.

Section RcLoss.

Variable str_exn : exn -> string.

(** The answer names a deduction, not a recorded event. *)
Definition labelled_inference (s : string) : bool := contains "infer" (lower s).


End RcLoss.

(** An event log with an Id = 10 row at 3.0 s; and a flight without
    event log whose mode log enters mode 6 at 7.5 s. *)
Definition flight_with_rc_event : dataset :=
  Some {[ "EV" := LRows [record_of [("TimeUS", CNum 1000000); ("Id", CNum 7)];
                         record_of [("TimeUS", CNum 3000000); ("Id", CNum 10)]] ]}.

Definition flight_with_mode_6 : dataset :=
  Some {[ "MODE" := LRows [record_of [("TimeUS", CNum 2000000); ("Mode", CNum 0)];
                           record_of [("TimeUS", CNum 7500000); ("Mode", CNum 6)]] ]}.



(* ===================================================================== *)
(** ** Sorting by time *)
(* ===================================================================== *)

Lemma key_le_total a b : key_le a b = false -> key_le b a = true.
Proof.
  destruct a as [x|], b as [y|]; simpl; try discriminate; try reflexivity.
  intros H. apply Qle_bool_iff.
  destruct (Qlt_le_dec y x) as [Hlt|Hle]; [now apply Qlt_le_weak|].
  apply Qle_bool_iff in Hle. congruence.
Qed.

Lemma key_le_trans a b c :
  key_le a b = true -> key_le b c = true -> key_le a c = true.
Proof.
  destruct a as [x|], b as [y|], c as [z|]; simpl; try discriminate; try reflexivity.
  rewrite !Qle_bool_iff. apply Qle_trans.
Qed.

Section SortValues.

Context {A : Type} (key : A -> pyfloat).

(** [a] may stand before [b] in a frame sorted by [key]. *)
Definition by_key (a b : A) : Prop := key_le (key a) (key b) = true.

Lemma insert_by_perm x l : insert_by key x l ≡ₚ x :: l.
Proof.
  induction l as [|y l IH]; simpl; [reflexivity|].
  destruct (key_le (key x) (key y)); [reflexivity|].
  rewrite IH. apply Permutation_swap.
Qed.

Lemma sort_values_perm l : sort_values key l ≡ₚ l.
Proof.
  induction l as [|x l IH]; simpl; [reflexivity|].
  unfold sort_values in *. simpl. now rewrite insert_by_perm, IH.
Qed.

Lemma insert_by_sorted x l :
  StronglySorted by_key l -> StronglySorted by_key (insert_by key x l).
Proof.
  induction l as [|y l IH]; simpl; intros Hl.
  - apply SSorted_cons; [apply SSorted_nil | apply Forall_nil_2].
  - apply StronglySorted_cons in Hl as [Hy Hl].
    destruct (key_le (key x) (key y)) eqn:E.
    + apply StronglySorted_cons. split.
      * apply Forall_cons. split; [exact E|].
        eapply Forall_impl; [exact Hy|]. intros z Hz.
        unfold by_key in *. eapply key_le_trans; eassumption.
      * apply StronglySorted_cons. auto.
    + apply StronglySorted_cons. split; [|auto].
      rewrite insert_by_perm. apply Forall_cons. split; [|exact Hy].
      unfold by_key. now apply key_le_total.
Qed.

Lemma sort_values_sorted l : StronglySorted by_key (sort_values key l).
Proof.
  induction l as [|x l IH]; [apply SSorted_nil|].
  unfold sort_values in *. simpl. now apply insert_by_sorted.
Qed.

End SortValues.

(** The text of a time: what [_format_time_string] returns for it. *)
Definition time_text (t : Q) : string :=
  let '(minutes, seconds_remainder) := divmod60 t in
  fmt_02d minutes +:+ ":" +:+ fmt_02d (trunc seconds_remainder)
  +:+ " (" +:+ fmt_2f t +:+ " seconds raw)".

Lemma format_time_text t : _format_time_string (Some t) = Return (time_text t).
Proof. unfold _format_time_string, time_text. now destruct (divmod60 t). Qed.


(* ===================================================================== *)
(** ** C7: the first EKF error period *)
(* ===================================================================== *)

Lemma cell_isin_16_24 c :
  cell_isin [16; 24]%Z c = true <-> exists q, c = CNum q /\ (q == 16 \/ q == 24)%Q.
Proof.
  unfold cell_isin. cbn [existsb]. rewrite orb_false_r.
  change (inject_Z 16) with 16%Q. change (inject_Z 24) with 24%Q. split.
  - intros H. destruct c as [q| |]; cbn [cell_eq_num] in H; try discriminate.
    exists q. split; [reflexivity|].
    apply orb_prop in H as [H|H]; apply Qeq_bool_iff in H; auto.
  - intros (q & -> & [H|H]); cbn [cell_eq_num]; apply Qeq_bool_iff in H; rewrite H;
      [reflexivity | apply orb_true_r].
Qed.

Section Ekf.

Variable str_exn : exn -> string.
Variable int_of_str : string -> option Z.

(** What the loop reads from one EKF row: subsystem, status code, time. *)
Definition ekf_event (df : frame) (row : pyfloat * gmap string cell)
    : outcome (Z * Z * Q) :=
  subsys ← int_field int_of_str df "Subsys" row.2;
  ecode ← int_field int_of_str df "ECode" row.2;
  match row.1 with
  | Some t => Return (subsys, ecode, t)
  | None => Raise ValueError
  end.

Definition ekf_code (event : Z * Z * Q) : Z := event.1.2.

(** The period after the events, in order *)
Definition ekf_fold (events : list (Z * Z * Q)) (period : ekf_period) : ekf_period :=
  foldl (fun p event => ekf_step p (ekf_code event) event.2) period events.

Definition ekf_line (event : Z * Z * Q) : string :=
  ekf_event_line event.1.1 event.1.2 (time_text event.2).

Lemma ekf_loop_events df rows : forall events period,
  for_each (ekf_event df) rows = Return events ->
  ekf_loop int_of_str df rows period
  = Return (ekf_line <$> events, ekf_fold events period).
Proof.
  induction rows as [|[time row] rows IH]; intros events period H.
  - simpl in H. injection H as <-. reflexivity.
  - simpl in H. apply bind_Return in H as ([[s c] t] & Hev & H).
    apply bind_Return in H as (evs & Hevs & H). injection H as <-.
    unfold ekf_event in Hev. simpl in Hev.
    apply bind_Return in Hev as (s' & Hs & Hev).
    apply bind_Return in Hev as (c' & Hc & Hev).
    destruct time as [t'|]; [|discriminate]. injection Hev as -> -> ->.
    cbn [ekf_loop]. rewrite Hs. run. rewrite Hc. run. rewrite format_time_text. run.
    rewrite (IH _ _ Hevs). reflexivity.
Qed.

Lemma ekf_fold_cons event events period :
  ekf_fold (event :: events) period
  = ekf_fold events (ekf_step period (ekf_code event) event.2).
Proof. reflexivity. Qed.

Lemma ekf_fold_before_open events :
  Forall (fun event => ekf_code event <> 1%Z) events ->
  ekf_fold events (None, None) = (None, None).
Proof.
  induction 1 as [|event events Hc _ IH]; [reflexivity|].
  rewrite ekf_fold_cons.
  replace (ekf_step (None, None) (ekf_code event) event.2) with (@None Q, @None Q);
    [exact IH|].
  unfold ekf_step. cbn [present negb].
  destruct (Z.eqb_spec (ekf_code event) 1); [contradiction|].
  now rewrite andb_false_r.
Qed.

Lemma ekf_fold_open events t1 :
  Forall (fun event => ekf_code event <> 0%Z) events ->
  ekf_fold events (Some t1, None) = (Some t1, None).
Proof.
  induction 1 as [|event events Hc _ IH]; [reflexivity|].
  rewrite ekf_fold_cons.
  replace (ekf_step (Some t1, None) (ekf_code event) event.2) with (Some t1, @None Q);
    [exact IH|].
  unfold ekf_step. cbn [present negb].
  destruct (Z.eqb_spec (ekf_code event) 0); [contradiction|].
  now rewrite andb_false_r.
Qed.

Lemma ekf_fold_closed events t1 t0 :
  ekf_fold events (Some t1, Some t0) = (Some t1, Some t0).
Proof.
  induction events as [|event events IH]; [reflexivity|].
  rewrite ekf_fold_cons.
  replace (ekf_step (Some t1, Some t0) (ekf_code event) event.2)
    with (Some t1, Some t0); [exact IH|].
  unfold ekf_step. cbn [present negb]. now rewrite !andb_false_r.
Qed.

Lemma ekf_fold_app a b period : ekf_fold (a ++ b) period = ekf_fold b (ekf_fold a period).
Proof. unfold ekf_fold. apply foldl_app. Qed.

(** C7: the EKF analysis keeps exactly the ERR rows whose Subsys is 16
    or 24, orders them by normalised time, writes one line for every such
    row, and derives one period: it opens at the first event with status
    code 1 and closes at the first later event with status code 0.  With
    both, the summary gives the two times and their difference; with an
    open and no later close it says that no recovery was logged and gives
    no duration. *)
Theorem ekf_first_period :
  (forall err_df rows,
     ekf_rows err_df = Return rows ->
     forall r, In r rows <->
               In r (records err_df)
               /\ exists q, cell_at "Subsys" r = CNum q /\ (q == 16 \/ q == 24)%Q)
  /\ (forall err_df tc divisor rows sorted,
        ekf_sorted err_df tc divisor rows = Return sorted ->
        sorted.*2 ≡ₚ rows /\ StronglySorted (by_key fst) sorted)
  /\ (forall df rows events period,
        for_each (ekf_event df) rows = Return events ->
        ekf_loop int_of_str df rows period
        = Return (ekf_line <$> events, ekf_fold events period))
  /\ (forall events,
        Forall (fun event => ekf_code event <> 1%Z) events ->
        ekf_fold events (None, None) = (None, None))
  /\ (forall before s1 t1 after,
        Forall (fun event => ekf_code event <> 1%Z) before ->
        (Forall (fun event => ekf_code event <> 0%Z) after ->
         ekf_fold (before ++ (s1, 1%Z, t1) :: after) (None, None) = (Some t1, None))
        /\ (forall between s0 t0 rest,
              after = (between ++ (s0, 0%Z, t0) :: rest)%list ->
              Forall (fun event => ekf_code event <> 0%Z) between ->
              ekf_fold (before ++ (s1, 1%Z, t1) :: after) (None, None)
              = (Some t1, Some t0)))
  /\ (forall t1 t0,
        ekf_summary (Some t1, Some t0)
        = Return (LF +:+ "**Summary**: EKF entered an error state at `" +:+ time_text t1
                  +:+ "` and recovered at `" +:+ time_text t0
                  +:+ "`, lasting approximately **" +:+ fmt_2f (t0 - t1) +:+ " seconds**."))
  /\ (forall t1,
        ekf_summary (Some t1, None)
        = Return (LF +:+ "**Summary**: EKF entered an error state at `" +:+ time_text t1
                  +:+ "`, but no recovery event (ECode 0) was explicitly logged within the available data."))
  /\ (forall fd l err_df tc divisor rows sorted events,
        no_data fd = false -> get_log fd "ERR" = Return l -> truthy l = true ->
        DataFrame l = Return err_df ->
        _get_time_column_and_divisor err_df = (Some tc, divisor) ->
        ekf_rows err_df = Return rows -> rows <> [] ->
        ekf_sorted err_df tc divisor rows = Return sorted ->
        for_each (ekf_event err_df) sorted = Return events ->
        exists summary,
          ekf_summary (ekf_fold events (None, None)) = Return summary
          /\ analyze_ekf_health_status str_exn int_of_str fd
             = Return (join LF (["---"; "## EKF Health Status Analysis"]
                                  ++ (ekf_line <$> events) ++ [summary])%list)).
Proof.
  split_conj.
  - intros err_df rows H r. unfold ekf_rows in H.
    apply bind_Return in H as (_ & _ & H). injection H as <-.
    rewrite filter_In. cbv beta.
    change (cell_eq_num (inject_Z 16) (cell_at "Subsys" r)
            || (cell_eq_num (inject_Z 24) (cell_at "Subsys" r) || false))
      with (cell_isin [16; 24]%Z (cell_at "Subsys" r)).
    rewrite cell_isin_16_24. reflexivity.
  - intros err_df tc divisor rows sorted H. unfold ekf_sorted in H.
    apply bind_Return in H as (times & Ht & H). injection H as <-.
    split; [|apply sort_values_sorted].
    rewrite sort_values_perm. rewrite snd_zip; [reflexivity|].
    unfold rows_div in Ht. destruct (has_col err_df tc); [|discriminate].
    clear -Ht. revert times Ht.
    induction rows as [|r rows IH]; intros times Ht; simpl in Ht.
    + injection Ht as <-. reflexivity.
    + apply bind_Return in Ht as (x & _ & Ht).
      apply bind_Return in Ht as (xs & Hxs & Ht). injection Ht as <-.
      simpl. apply le_n_S. now apply IH.
  - intros. now apply ekf_loop_events.
  - apply ekf_fold_before_open.
  - intros before s1 t1 after H. split.
    + intros Hafter. rewrite ekf_fold_app, (ekf_fold_before_open _ H).
      change (ekf_fold ((s1, 1%Z, t1) :: after) (None, None))
        with (ekf_fold after (Some t1, None)).
      now apply ekf_fold_open.
    + intros between s0 t0 rest -> Hbetween.
      rewrite ekf_fold_app, (ekf_fold_before_open _ H).
      change (ekf_fold ((s1, 1%Z, t1) :: between ++ (s0, 0%Z, t0) :: rest) (None, None))
        with (ekf_fold (between ++ (s0, 0%Z, t0) :: rest) (Some t1, None)).
      rewrite ekf_fold_app, (ekf_fold_open _ _ Hbetween).
      change (ekf_fold ((s0, 0%Z, t0) :: rest) (Some t1, None))
        with (ekf_fold rest (Some t1, Some t0)).
      apply ekf_fold_closed.
  - intros t1 t0. unfold ekf_summary. rewrite !format_time_text. reflexivity.
  - intros t1. unfold ekf_summary. rewrite !format_time_text. reflexivity.
  - intros fd l err_df tc divisor rows sorted events Hd Hl Ht Hf Htc Hrows Hne Hsorted Hev.
    assert (Hsum : exists summary,
              ekf_summary (ekf_fold events (None, None)) = Return summary).
    { unfold ekf_summary.
      destruct (ekf_fold events (None, None)) as [[a|] [b|]];
        rewrite ?format_time_text; eexists; reflexivity. }
    destruct Hsum as [summary Hsum]. exists summary. split; [exact Hsum|].
    unfold analyze_ekf_health_status.
    rewrite Hd, (get_log_truthy _ _ _ Hl), Ht, Hl. run. rewrite Hf. run.
    rewrite Htc, Hrows. run.
    destruct rows as [|r rows]; [congruence|].
    rewrite Hsorted. run. rewrite (ekf_loop_events _ _ _ _ Hev). run.
    rewrite Hsum. reflexivity.
Qed.

End Ekf.

(** The events [(t=1, 16, 1), (t=2, 16, 0)], and [(t=1, 16, 1)] alone. *)
Definition flight_ekf_recovered : dataset :=
  Some {[ "ERR" := LRows
            [record_of [("TimeUS", CNum 1000000); ("Subsys", CNum 16); ("ECode", CNum 1)];
             record_of [("TimeUS", CNum 2000000); ("Subsys", CNum 16); ("ECode", CNum 0)]] ]}.

Definition flight_ekf_open : dataset :=
  Some {[ "ERR" := LRows
            [record_of [("TimeUS", CNum 1000000); ("Subsys", CNum 16); ("ECode", CNum 1)]] ]}.

Lemma ekf_first_period_witness :
  ekf_fold [(16, 1, 1%Q); (16, 0, 2%Q)]%Z (None, None) = (Some 1%Q, Some 2%Q)
  /\ ekf_fold [(16, 1, 1%Q)]%Z (None, None) = (Some 1%Q, None)
  /\ analyze_ekf_health_status sample_str_exn sample_int_of_str flight_ekf_recovered
     = Return (join LF
         ["---"; "## EKF Health Status Analysis";
          "- EKF Event: EKF check, Set (error occurred) at `00:01 (1.00 seconds raw)`";
          "- EKF Event: EKF check, Cleared at `00:02 (2.00 seconds raw)`";
          LF +:+ "**Summary**: EKF entered an error state at `00:01 (1.00 seconds raw)` and recovered at `00:02 (2.00 seconds raw)`, lasting approximately **1.00 seconds**."])
  /\ analyze_ekf_health_status sample_str_exn sample_int_of_str flight_ekf_open
     = Return (join LF
         ["---"; "## EKF Health Status Analysis";
          "- EKF Event: EKF check, Set (error occurred) at `00:01 (1.00 seconds raw)`";
          LF +:+ "**Summary**: EKF entered an error state at `00:01 (1.00 seconds raw)`, but no recovery event (ECode 0) was explicitly logged within the available data."]).
Proof.
  destruct (ekf_first_period sample_str_exn sample_int_of_str)
    as (_ & _ & _ & _ & Hperiod & _).
  split_conj.
  - destruct (Hperiod [] 16%Z 1%Q [(16, 0, 2%Q)]%Z (Forall_nil_2 _)) as [_ Hclose].
    exact (Hclose [] 16%Z 2%Q [] eq_refl (Forall_nil_2 _)).
  - destruct (Hperiod [] 16%Z 1%Q [] (Forall_nil_2 _)) as [Hopen _].
    exact (Hopen (Forall_nil_2 _)).
  - vm_compute. reflexivity.
  - vm_compute. reflexivity.
Defined.


(* ===================================================================== *)
(** ** C8: the list of critical errors *)
(* ===================================================================== *)

#[local] Arguments error_key : simpl never.

Section CriticalErrors.

Variable str_exn : exn -> string.
Variable int_of_str : string -> option Z.

Lemma py_int_raises x e : py_int int_of_str x = Raise e -> e = ValueError.
Proof.
  destruct x as [q|str|]; simpl; try discriminate.
  - destruct (int_of_str str); [discriminate|]. now intros [= <-].
  - now intros [= <-].
Qed.

(** Reading the two codes of a row never raises. *)
Lemma error_key_returns df r : returns (error_key int_of_str df r).
Proof.
  unfold error_key.
  destruct (row_get df "Subsys" r) as [x|]; [|apply returns_Return].
  destruct (row_get df "ECode" r) as [y|]; [|apply returns_Return].
  destruct (_ || _); [apply returns_Return|].
  destruct (py_int int_of_str x) as [s|e] eqn:Hx; run.
  - destruct (py_int int_of_str y) as [c|e] eqn:Hy; run; [apply returns_Return|].
    apply py_int_raises in Hy as ->. apply returns_Return.
  - apply py_int_raises in Hx as ->. apply returns_Return.
Qed.

(** A row that is skipped, or whose pair is already known when the loop
    reaches it, can be taken out of the table. *)
Lemma critical_error_loop_drop df tc divisor row after : forall before seen,
  (error_key int_of_str df row = Return None
   \/ exists key, error_key int_of_str df row = Return (Some key)
        /\ (key ∈ seen
            \/ exists earlier, In earlier before
                 /\ error_key int_of_str df earlier = Return (Some key))) ->
  critical_error_loop int_of_str df tc divisor (before ++ row :: after) seen
  = critical_error_loop int_of_str df tc divisor (before ++ after) seen.
Proof.
  induction before as [|b before IH]; intros seen H.
  - cbn [app critical_error_loop].
    destruct H as [H | ([s c] & H & [Hin | (e & [] & _)])]; rewrite H; run.
    + reflexivity.
    + now rewrite bool_decide_eq_true_2 by exact Hin.
  - cbn [app critical_error_loop].
    destruct (error_key int_of_str df b) as [[[s c]|]|e] eqn:Hb; run; [| |reflexivity].
    + case_bool_decide as Hseen.
      * apply IH. destruct H as [H | (key & H & [Hin | (e & [<- | He] & Hk)])]; eauto 8.
        right. exists key. split; [exact H|]. left. congruence.
      * destruct (scalar_div df tc b divisor) as [x|e]; run; [|reflexivity].
        destruct (_format_time_string x) as [ft|e]; run; [|reflexivity].
        rewrite IH; [reflexivity|].
        destruct H as [H | (key & H & [Hin | (e & [<- | He] & Hk)])]; eauto 8.
        -- right. exists key. split; [exact H|]. left. set_solver.
        -- right. exists key. split; [exact H|]. left.
           rewrite Hb in Hk. injection Hk as <-. set_solver.
    + apply IH. destruct H as [H | (key & H & [Hin | (e & [<- | He] & Hk)])]; eauto 8.
      congruence.
Qed.

(** Two frames with the same columns and the same column types. *)
Definition same_shape (df1 df2 : frame) : Prop :=
  columns df1 = columns df2 /\ forall c, object_column df1 c = object_column df2 c.

Lemma has_col_shape df1 df2 c : same_shape df1 df2 -> has_col df1 c = has_col df2 c.
Proof. intros [Hc _]. unfold has_col. now rewrite Hc. Qed.

Lemma is_None_shape df1 df2 c r : same_shape df1 df2 -> is_None df1 c r = is_None df2 c r.
Proof. intros [_ Ho]. unfold is_None. now rewrite Ho. Qed.

Lemma error_key_shape df1 df2 r :
  same_shape df1 df2 -> error_key int_of_str df1 r = error_key int_of_str df2 r.
Proof.
  intros H. unfold error_key, row_get.
  now rewrite !(has_col_shape _ _ _ H), !(is_None_shape _ _ _ _ H).
Qed.

Lemma scalar_div_shape df1 df2 c r d :
  same_shape df1 df2 -> scalar_div df1 c r d = scalar_div df2 c r d.
Proof. intros H. unfold scalar_div. now rewrite (is_None_shape _ _ _ _ H). Qed.

Lemma critical_error_loop_shape df1 df2 tc divisor rows :
  same_shape df1 df2 -> forall seen,
  critical_error_loop int_of_str df1 tc divisor rows seen
  = critical_error_loop int_of_str df2 tc divisor rows seen.
Proof.
  intros H. induction rows as [|row rows IH]; intros seen; [reflexivity|].
  cbn [critical_error_loop].
  rewrite (error_key_shape _ _ _ H), (scalar_div_shape _ _ _ _ _ H).
  destruct (error_key int_of_str df2 row) as [[[s c]|]|e]; run; [| |reflexivity].
  - now rewrite !IH.
  - apply IH.
Qed.

Lemma time_column_shape df1 df2 :
  same_shape df1 df2 ->
  _get_time_column_and_divisor df1 = _get_time_column_and_divisor df2.
Proof.
  intros H. unfold _get_time_column_and_divisor. simpl.
  now rewrite !(has_col_shape _ _ _ H).
Qed.

(** A second copy of a row changes neither the columns of the table nor
    their types. *)
Lemma duplicate_row_shape before row after :
  In row before ->
  same_shape (Frame (⋃ (dom <$> (before ++ row :: after))) (before ++ row :: after))
             (Frame (⋃ (dom <$> (before ++ after))) (before ++ after)).
Proof.
  intros Hin. split; simpl.
  - apply set_eq. intros x. rewrite !elem_of_union_list. split.
    + intros (X & HX & Hx). exists X. split; [|exact Hx].
      rewrite !fmap_app, fmap_cons in *.
      apply elem_of_app in HX as [HX|HX]; [apply elem_of_app; now left|].
      apply elem_of_cons in HX as [-> | HX]; [|apply elem_of_app; now right].
      apply elem_of_app. left. apply list_elem_of_fmap. exists row.
      split; [reflexivity | now apply list_elem_of_In].
    + intros (X & HX & Hx). exists X. split; [|exact Hx].
      rewrite !fmap_app, fmap_cons in *.
      apply elem_of_app in HX as [HX|HX]; apply elem_of_app; [now left|].
      right. now apply elem_of_cons; right.
  - intros c. unfold object_column. simpl. rewrite !existsb_app. simpl.
    destruct (is_str (cell_at c row)) eqn:E; [|reflexivity].
    assert (Hb : existsb (fun r => is_str (cell_at c r)) before = true).
    { apply existsb_exists. eauto. }
    now rewrite Hb.
Qed.


End CriticalErrors.

(** An ERR table where the pair (3, 1) comes twice, at 1 s and at 2 s,
    with a row whose Subsys is not a number and a row of unknown codes. *)
Definition err_compass_1 : gmap string cell :=
  record_of [("TimeUS", CNum 1000000); ("Subsys", CNum 3); ("ECode", CNum 1)].
Definition err_compass_2 : gmap string cell :=
  record_of [("TimeUS", CNum 2000000); ("Subsys", CNum 3); ("ECode", CNum 1)].
Definition err_malformed : gmap string cell :=
  record_of [("TimeUS", CNum 3000000); ("Subsys", CStr "compass"); ("ECode", CNum 1)].
Definition err_unknown : gmap string cell :=
  record_of [("TimeUS", CNum 4000000); ("Subsys", CNum 99); ("ECode", CNum 7)].

Definition err_rows : list (gmap string cell) :=
  [err_compass_1; err_compass_2; err_malformed; err_unknown].

Definition flight_with_errors : dataset := Some {[ "ERR" := LRows err_rows ]}.



(* ===================================================================== *)
(** ** C2: altitude drops *)
(* ===================================================================== *)

Lemma Qlt_bool_iff a b : Qlt_bool a b = true <-> (a < b)%Q.
Proof.
  unfold Qlt_bool. rewrite negb_true_iff. split.
  - intros H. apply Qnot_le_lt. intros Hle. apply Qle_bool_iff in Hle. congruence.
  - intros H. destruct (Qle_bool b a) eqn:E; [|reflexivity].
    apply Qle_bool_iff in E. exfalso. now apply (Qlt_not_le _ _ H).
Qed.

Lemma Qlt_bool_false a b : Qlt_bool a b = false -> (b <= a)%Q.
Proof.
  unfold Qlt_bool. rewrite negb_false_iff. apply Qle_bool_iff.
Qed.

(** A series of numeric samples (time, altitude) as rows of the frame *)
Definition series_rows (series : list (Q * Q)) : list (pyfloat * cell) :=
  (fun sample : Q * Q => (Some sample.1, CNum sample.2)) <$> series.

(** The sample [candidate] lies in the look-ahead window of [anchor],
    strictly later and strictly lower. *)
Definition in_window (window_s : Q) (anchor candidate : Q * Q) : Prop :=
  (anchor.1 < candidate.1)%Q
  /\ (candidate.1 <= anchor.1 + window_s)%Q
  /\ (candidate.2 < anchor.2)%Q.

Definition in_window_b (window_s : Q) (anchor candidate : Q * Q) : bool :=
  Qlt_bool anchor.1 candidate.1
  && Qle_bool candidate.1 (anchor.1 + window_s)
  && Qlt_bool candidate.2 anchor.2.

Lemma in_window_b_iff w anchor candidate :
  in_window_b w anchor candidate = true <-> in_window w anchor candidate.
Proof.
  unfold in_window_b, in_window.
  rewrite !andb_true_iff, !Qlt_bool_iff, Qle_bool_iff. tauto.
Qed.

Lemma for_each_pure {A B} (f : A -> outcome B) (g : A -> B) l :
  (forall x, In x l -> f x = Return (g x)) -> for_each f l = Return (g <$> l).
Proof.
  induction l as [|x l IH]; intros H; [reflexivity|].
  cbn [for_each]. rewrite (H x) by now left. run.
  rewrite IH by (intros y Hy; apply H; now right). reflexivity.
Qed.

Lemma select_fmap {A} (g : A -> bool) l : select (g <$> l) l = List.filter g l.
Proof.
  induction l as [|x l IH]; [reflexivity|].
  rewrite fmap_cons. cbn [select List.filter]. destruct (g x); now rewrite IH.
Qed.

Lemma filter_series_rows (g : pyfloat * cell -> bool) (h : Q * Q -> bool) l :
  (forall c, g (Some c.1, CNum c.2) = h c) ->
  List.filter g (series_rows l) = series_rows (List.filter h l).
Proof.
  intros Hgh. unfold series_rows. induction l as [|c l IH]; [reflexivity|].
  rewrite fmap_cons. cbn [List.filter]. rewrite Hgh.
  destruct (h c); [rewrite fmap_cons|]; now rewrite IH.
Qed.

Lemma potential_drops_numeric series w anchor :
  potential_drops (series_rows series) w (Some anchor.1) (CNum anchor.2)
  = Return (series_rows (List.filter (in_window_b w anchor) series)).
Proof.
  unfold potential_drops.
  rewrite (for_each_pure _
             (fun row : pyfloat * cell =>
                flt (Some anchor.1) row.1
                && fle row.1 (fadd (Some anchor.1) (Some w))
                && match row.2 with
                   | CNum a => Qlt_bool a anchor.2
                   | _ => false
                   end)).
  - run. rewrite select_fmap. f_equal. now apply filter_series_rows.
  - intros [t a] Hin. unfold series_rows in Hin.
    apply list_elem_of_In, list_elem_of_fmap in Hin as (c & [= -> ->] & _).
    reflexivity.
Qed.

Lemma no_string_in_series series :
  existsb (fun row : pyfloat * cell => is_str row.2) (series_rows series) = false.
Proof. induction series as [|c l IH]; [reflexivity | exact IH]. Qed.

(** The candidates of a numeric series, as the reduction sees them *)
Definition altitudes (l : list (Q * Q)) : list (pyfloat * pyfloat) :=
  (fun row : pyfloat * cell => (float_cell row.2, row.1)) <$> series_rows l.

Lemma altitudes_cons t a l : altitudes ((t, a) :: l) = (Some a, Some t) :: altitudes l.
Proof. reflexivity. Qed.

(** The reduction never ends above the value it starts from. *)
Lemma arg_best_below l : forall b y m x,
  arg_best Qlt_bool (Some (b, y)) (altitudes l) = Some (m, x) -> (m <= b)%Q.
Proof.
  induction l as [|[t a] l IH]; intros b y m x H.
  - injection H as -> _. apply Qle_refl.
  - rewrite altitudes_cons in H. cbn [arg_best] in H.
    destruct (Qlt_bool a b) eqn:E.
    + apply IH in H. apply Qlt_bool_iff in E. lra.
    + now apply IH in H.
Qed.

(** The deepest of the candidates: the first row of least altitude. *)
Lemma arg_best_deepest (l : list (Q * Q)) : forall best,
  (best = None -> l <> []) ->
  exists m x,
    arg_best Qlt_bool best (altitudes l) = Some (m, x)
    /\ Forall (fun c : Q * Q => (m <= c.2)%Q) l
    /\ (best = Some (m, x) \/ exists tm, x = Some tm /\ In (tm, m) l).
Proof.
  induction l as [|[tc ac] l IH]; intros best Hne.
  - destruct best as [[b y]|]; [|now specialize (Hne eq_refl)].
    exists b, y. split_conj; [reflexivity | constructor | now left].
  - rewrite altitudes_cons. cbn [arg_best].
    assert (Hnew : exists m x,
      arg_best Qlt_bool (Some (ac, Some tc)) (altitudes l) = Some (m, x)
      /\ Forall (fun c : Q * Q => (m <= c.2)%Q) ((tc, ac) :: l)
      /\ exists tm, x = Some tm /\ In (tm, m) ((tc, ac) :: l)).
    { destruct (IH (Some (ac, Some tc))) as (m & x & Hm & Hall & Hsrc); [discriminate|].
      exists m, x. split_conj; [exact Hm | |].
      - constructor; [|exact Hall]. simpl. exact (arg_best_below _ _ _ _ _ Hm).
      - destruct Hsrc as [[= <- <-] | (tm & -> & Hin)].
        + exists tc. split; [reflexivity | now left].
        + exists tm. split; [reflexivity | now right]. }
    destruct best as [[b y]|].
    + destruct (Qlt_bool ac b) eqn:E.
      * destruct Hnew as (m & x & Hm & Hall & Hsrc). exists m, x. auto.
      * destruct (IH (Some (b, y))) as (m & x & Hm & Hall & Hsrc); [discriminate|].
        exists m, x. split_conj; [exact Hm | |].
        -- constructor; [|exact Hall]. simpl.
           apply Qlt_bool_false in E.
           pose proof (arg_best_below _ _ _ _ _ Hm). lra.
        -- destruct Hsrc as [Hb | (tm & -> & Hin)]; [now left|].
           right. exists tm. split; [reflexivity | now right].
    + destruct Hnew as (m & x & Hm & Hall & Hsrc). exists m, x. auto.
Qed.

(** What the detector decides at one anchor: either a drop to the
    deepest sample of the window, at least as large as the threshold, or
    nothing because no sample of the window is that far below. *)
Definition anchor_decision (series : list (Q * Q)) (threshold_m window_s : Q)
    (anchor : Q * Q) (result : option drop) : Prop :=
  match result with
  | Some d =>
      drop_start d = anchor.1
      /\ exists deepest,
           In deepest series /\ in_window window_s anchor deepest
           /\ (forall candidate, In candidate series ->
                  in_window window_s anchor candidate -> (deepest.2 <= candidate.2)%Q)
           /\ drop_delta_alt d = (anchor.2 - deepest.2)%Q
           /\ drop_delta_t d = (deepest.1 - anchor.1)%Q
           /\ (threshold_m <= drop_delta_alt d)%Q
           /\ (0 < drop_delta_t d)%Q /\ (drop_delta_t d <= window_s)%Q
  | None =>
      forall candidate, In candidate series -> in_window window_s anchor candidate ->
                        (anchor.2 - candidate.2 < threshold_m)%Q
  end.

Lemma drop_at_numeric series threshold_m window_s anchor :
  exists result,
    drop_at (series_rows series) threshold_m window_s (Some anchor.1, CNum anchor.2)
    = Return result
    /\ anchor_decision series threshold_m window_s anchor result.
Proof.
  unfold drop_at. rewrite potential_drops_numeric. run.
  destruct (List.filter (in_window_b window_s anchor) series) as [|c cs] eqn:Hf.
  - exists None. split; [reflexivity|].
    intros candidate Hin Hw. exfalso.
    assert (Hc : In candidate (List.filter (in_window_b window_s anchor) series)).
    { apply filter_In. split; [exact Hin | now apply in_window_b_iff]. }
    now rewrite Hf in Hc.
  - assert (Hcand : forall x, In x (c :: cs) <-> In x series /\ in_window window_s anchor x).
    { intros x. rewrite <- Hf, filter_In, in_window_b_iff. reflexivity. }
    unfold series_rows at 1. rewrite fmap_cons.
    rewrite no_string_in_series.
    change (series_rows (c :: cs)) with ((Some c.1, CNum c.2) :: series_rows cs).
    destruct (arg_best_deepest (c :: cs) None) as (m & x & Hm & Hall & Hsrc);
      [discriminate|].
    destruct Hsrc as [Hsrc | (tm & -> & Hin)]; [discriminate|].
    match goal with
    | |- context [@arg_best ?A ?f ?b ?l] =>
        change (@arg_best A f b l) with (arg_best Qlt_bool None (altitudes (c :: cs)))
    end.
    rewrite Hm. cbn [float_cell].
    rewrite List.Forall_forall in Hall.
    apply Hcand in Hin as [Hin Hw].
    destruct (Qle_bool threshold_m (anchor.2 - m)) eqn:Hth.
    + eexists. split; [reflexivity|]. cbn [anchor_decision drop_start drop_delta_alt drop_delta_t].
      split; [reflexivity|]. exists (tm, m). apply Qle_bool_iff in Hth.
      pose proof Hw as (H1 & H2 & H3). cbn [fst snd] in H1, H2, H3 |- *.
      split_conj; auto; try lra.
      intros candidate Hc Hcw. apply (Hall candidate), Hcand. auto.
    + exists None. split; [reflexivity|].
      intros candidate Hc Hcw.
      assert (Hle : (m <= candidate.2)%Q) by (apply (Hall candidate), Hcand; auto).
      assert (Hlt : (anchor.2 - m < threshold_m)%Q).
      { apply Qnot_le_lt. intros H. apply Qle_bool_iff in H. congruence. }
      lra.
Qed.

Lemma drop_loop_numeric series threshold_m window_s : forall anchors,
  exists found,
    for_each (drop_at (series_rows series) threshold_m window_s) (series_rows anchors)
    = Return found
    /\ Forall2 (anchor_decision series threshold_m window_s) anchors found.
Proof.
  induction anchors as [|anchor anchors (found & Hf & HF)].
  - exists []. split; [reflexivity | constructor].
  - destruct (drop_at_numeric series threshold_m window_s anchor) as (result & Hr & Hd).
    exists (result :: found). split; [|now constructor].
    unfold series_rows in *. rewrite fmap_cons. cbn [for_each].
    rewrite Hr. run. rewrite Hf. reflexivity.
Qed.


(** Samples at 0, 1, 2, 3 s losing 5 m each second, threshold 10 m,
    window 5 s: the anchors at 0 s and 1 s both report, the second a drop
    of exactly 10 m. *)
Definition steady_descent : list (Q * Q) := [(0, 100); (1, 95); (2, 90); (3, 85)]%Q.



(* ===================================================================== *)
(** ** C5: the duration of GPS degradation *)
(* ===================================================================== *)

(** The time of row [k] of a series *)
Definition time_at (ts : list Q) (k : nat) : Q := nth k ts 0%Q.

(** The span of a sorted series: last time minus first time, that is
    maximum minus minimum *)
Definition series_span (ts : list Q) : Q :=
  (time_at ts (length ts - 1) - time_at ts 0)%Q.

Lemma lookup_time ts k :
  (k < length ts)%nat -> (Some <$> ts : list pyfloat) !!! k = Some (time_at ts k).
Proof.
  intros H. destruct (lookup_lt_is_Some_2 ts k H) as [q Hq].
  apply list_lookup_total_correct.
  rewrite list_lookup_fmap, Hq. simpl. do 2 f_equal.
  unfold time_at. symmetry. now apply nth_lookup_Some.
Qed.

Lemma sorted_lookup {A} (R : A -> A -> Prop) (l : list A) :
  StronglySorted R l ->
  forall i j x y, (i < j)%nat -> l !! i = Some x -> l !! j = Some y -> R x y.
Proof.
  induction 1 as [|a l Hl IH Ha]; intros i j x y Hij Hi Hj; [discriminate|].
  destruct j as [|j]; [lia|]. simpl in Hj.
  destruct i as [|i].
  - simpl in Hi. injection Hi as <-.
    rewrite List.Forall_forall in Ha. apply Ha.
    apply list_elem_of_In. eapply list_elem_of_lookup_2. eassumption.
  - simpl in Hi. apply (IH i j); auto. lia.
Qed.

(** In a sorted series later rows have later (or equal) times. *)
Lemma sorted_time_le ts :
  StronglySorted Qle ts ->
  forall i j, (i <= j)%nat -> (j < length ts)%nat -> (time_at ts i <= time_at ts j)%Q.
Proof.
  intros Hs i j Hij Hj.
  destruct (decide (i = j)) as [->|Hne]; [apply Qle_refl|].
  destruct (lookup_lt_is_Some_2 ts i) as [x Hx]; [lia|].
  destruct (lookup_lt_is_Some_2 ts j) as [y Hy]; [lia|].
  unfold time_at. rewrite (nth_lookup_Some _ _ _ _ Hx), (nth_lookup_Some _ _ _ _ Hy).
  apply (sorted_lookup Qle ts Hs i j); auto. lia.
Qed.

(** The row numbers of the degraded rows increase and stay below the
    number of rows. *)
Lemma indices_from_spec mask : forall i,
  StronglySorted lt (indices_from i mask)
  /\ Forall (fun k => i <= k < i + length mask)%nat (indices_from i mask).
Proof.
  induction mask as [|b mask IH]; intros i; simpl.
  - split; constructor.
  - destruct (IH (S i)) as [Hs Hf].
    assert (Hf' : Forall (fun k => i <= k < i + S (length mask))%nat
                    (indices_from (S i) mask)).
    { eapply Forall_impl; [exact Hf|]. simpl. intros k Hk. lia. }
    destruct b; [|now split].
    split.
    + constructor; [exact Hs|].
      eapply Forall_impl; [exact Hf|]. simpl. intros k Hk. lia.
    + constructor; [lia | exact Hf'].
Qed.

(** Row numbers that increase strictly and stay below [n] *)
Definition row_numbers (n : nat) (idx : list nat) : Prop :=
  StronglySorted lt idx /\ Forall (fun k => k < n)%nat idx.

Lemma row_numbers_lt n idx i j :
  row_numbers n idx -> (i < j)%nat -> (j < length idx)%nat ->
  (idx !!! i < idx !!! j)%nat.
Proof.
  intros [Hs _] Hij Hj.
  destruct (lookup_lt_is_Some_2 idx i) as [x Hx]; [lia|].
  destruct (lookup_lt_is_Some_2 idx j) as [y Hy]; [lia|].
  rewrite (list_lookup_total_correct _ _ _ Hx), (list_lookup_total_correct _ _ _ Hy).
  exact (sorted_lookup lt idx Hs i j x y Hij Hx Hy).
Qed.

Lemma row_numbers_bound n idx i :
  row_numbers n idx -> (i < length idx)%nat -> (idx !!! i < n)%nat.
Proof.
  intros [_ Hf] Hi.
  destruct (lookup_lt_is_Some_2 idx i Hi) as [x Hx].
  rewrite (list_lookup_total_correct _ _ _ Hx).
  rewrite List.Forall_forall in Hf. apply Hf.
  apply list_elem_of_In. eapply list_elem_of_lookup_2. eassumption.
Qed.

(** The inner loop stops at the end of the run of consecutive row
    numbers that starts at position [i]. *)
Lemma segment_end_spec idx i :
  (i < length idx)%nat ->
  let j := segment_end idx i in
  (i <= j < length idx)%nat
  /\ (forall k, (i <= k <= j)%nat -> idx !!! k = (idx !!! i + (k - i))%nat)
  /\ ((j + 1 < length idx)%nat -> idx !!! (j + 1)%nat <> (idx !!! j + 1)%nat).
Proof.
  funelim (segment_end idx i); intros Hi.
  - pose proof H as Hc. clear H1 Heqcall.
    unfold consecutive in Hc. apply andb_prop in Hc as [Hlt Heq].
    apply Nat.ltb_lt in Hlt. apply Nat.eqb_eq in Heq.
    destruct (H0 Hlt) as (Hrange & Hrun & Hstop).
    split; [lia|]. split; [|exact Hstop].
    intros k Hk. destruct (decide (k = j)) as [->|Hne].
    + replace (j - j)%nat with 0%nat by lia. lia.
    + rewrite Hrun by lia. rewrite Heq. lia.
  - split; [lia|]. split.
    + intros k Hk. replace k with j by lia. replace (j - j)%nat with 0%nat by lia. lia.
    + intros Hlt Heq.
      match goal with
      | Hstop : consecutive _ _ = false |- _ => pose proof Hstop as Hc
      end.
      unfold consecutive in Hc.
      apply Nat.ltb_lt in Hlt. apply Nat.eqb_eq in Heq.
      rewrite Hlt, Heq in Hc. discriminate.
Qed.

Lemma half_bounds (x : Q) : (0 <= x -> 0 <= x / 2 /\ x / 2 <= x)%Q.
Proof.
  intros H.
  assert (Hh : (x / 2 * 2 == x)%Q) by (apply Qdiv_mult_l; discriminate).
  set (h := (x / 2)%Q) in *. split; lra.
Qed.

(** What one segment adds: no more than the stretch of time from the
    row before it to the row after it (from the segment itself at the ends
    of the series). *)
Lemma segment_duration_bound ts s e :
  StronglySorted Qle ts -> (s <= e)%nat -> (e < length ts)%nat ->
  exists d,
    segment_duration (Some <$> ts) s e = Some d
    /\ (0 <= d)%Q
    /\ (d <= time_at ts (Nat.min (e + 1) (length ts - 1)) - time_at ts (Nat.pred s))%Q.
Proof.
  intros Hs Hse He.
  pose proof (sorted_time_le ts Hs) as Hle.
  unfold segment_duration. rewrite length_fmap.
  destruct (Nat.eqb_spec s e) as [->|Hne].
  - destruct (Nat.ltb_spec (e + 1) (length ts)) as [Hnext|Hlast];
      destruct (Nat.ltb_spec 0 e) as [Hprev|Hfirst]; cbn [andb].
    + rewrite !lookup_time by lia. cbn [fsub fdiv].
      change (inject_Z 2) with 2%Q.
      replace (Nat.min (e + 1) (length ts - 1)) with (e + 1)%nat by lia.
      replace (Nat.pred e) with (e - 1)%nat by lia.
      pose proof (Hle (e - 1)%nat (e + 1)%nat ltac:(lia) ltac:(lia)) as Hgap.
      eexists. split; [reflexivity|].
      apply half_bounds. lra.
    + rewrite !lookup_time by lia. cbn [fsub].
      replace (Nat.min (e + 1) (length ts - 1)) with (e + 1)%nat by lia.
      replace (Nat.pred e) with e by lia.
      pose proof (Hle e (e + 1)%nat ltac:(lia) ltac:(lia)).
      eexists. split; [reflexivity|]. split; lra.
    + rewrite !lookup_time by lia. cbn [fsub].
      replace (Nat.min (e + 1) (length ts - 1)) with e by lia.
      replace (Nat.pred e) with (e - 1)%nat by lia.
      pose proof (Hle (e - 1)%nat e ltac:(lia) ltac:(lia)).
      eexists. split; [reflexivity|]. split; lra.
    + replace (Nat.min (e + 1) (length ts - 1)) with e by lia.
      replace (Nat.pred e) with e by lia.
      eexists. split; [reflexivity|]. split; lra.
  - rewrite !lookup_time by lia. cbn [fsub].
    pose proof (Hle s e ltac:(lia) ltac:(lia)).
    pose proof (Hle (Nat.pred s) s ltac:(lia) ltac:(lia)).
    pose proof (Hle e (Nat.min (e + 1) (length ts - 1)) ltac:(lia) ltac:(lia)).
    eexists. split; [reflexivity|]. split; lra.
Qed.

(** The invariant of the outer loop: before the segment that starts at
    position [i] the duration accumulated so far fits between the first row
    and the row before that segment; after the last segment it fits in the
    span of the series. *)
Lemma degraded_loop_bound times idx i acc :
  forall ts a,
    times = Some <$> ts -> acc = Some a ->
    StronglySorted Qle ts -> row_numbers (length ts) idx ->
    ((i < length idx)%nat ->
     (a <= time_at ts (Nat.pred (idx !!! i)) - time_at ts 0)%Q) ->
    ((length idx <= i)%nat -> (a <= series_span ts)%Q) ->
    exists total,
      degraded_loop times idx i acc = Some total /\ (total <= series_span ts)%Q.
Proof.
  funelim (degraded_loop times idx i acc).
  - intros ts a -> -> Hs Hidx Hin Hout. clear H1 Heqcall.
    apply Nat.ltb_lt in H.
    pose proof (sorted_time_le ts Hs) as Hle.
    destruct (segment_end_spec degraded_indices i H) as (Hrange & Hrun & Hstop).
    set (j := segment_end degraded_indices i) in *.
    assert (He : degraded_indices !!! j = (degraded_indices !!! i + (j - i))%nat)
      by (apply Hrun; lia).
    pose proof (row_numbers_bound _ _ j Hidx ltac:(lia)) as Hej.
    destruct (segment_duration_bound ts (degraded_indices !!! i) (degraded_indices !!! j)
                Hs ltac:(lia) Hej) as (d & Hd & Hd0 & Hdb).
    specialize (Hin H).
    apply (H0 ts (a + d)%Q); auto.
    + rewrite Hd. reflexivity.
    + intros Hnext.
      pose proof (row_numbers_lt _ _ j (j + 1)%nat Hidx ltac:(lia) Hnext) as Hlt.
      pose proof (row_numbers_bound _ _ (j + 1)%nat Hidx Hnext) as Hnb.
      specialize (Hstop Hnext).
      replace (Nat.min (degraded_indices !!! j + 1) (length ts - 1))
        with (degraded_indices !!! j + 1)%nat in Hdb by lia.
      pose proof (Hle (degraded_indices !!! j + 1)%nat
                      (Nat.pred (degraded_indices !!! (j + 1)%nat))
                      ltac:(lia) ltac:(lia)).
      lra.
    + intros Hlast. unfold series_span.
      pose proof (Hle (Nat.min (degraded_indices !!! j + 1) (length ts - 1))
                      (length ts - 1)%nat ltac:(lia) ltac:(lia)).
      pose proof (Hle 0%nat (Nat.pred (degraded_indices !!! i)) ltac:(lia) ltac:(lia)).
      lra.
  - intros ts a _ -> _ _ _ Hout. exists a. split; [reflexivity|].
    apply Hout. now apply Nat.ltb_ge.
Qed.

(** The two equations of [degraded_segments]. *)
Lemma degraded_segments_step idx i :
  (i < length idx)%nat ->
  degraded_segments idx i
  = (idx !!! i, idx !!! segment_end idx i)
      :: degraded_segments idx (segment_end idx i + 1)%nat.
Proof.
  intros Hi. funelim (degraded_segments idx i).
  - reflexivity.
  - match goal with
    | Hstop : (_ <? _)%nat = false |- _ =>
        pose proof (proj1 (Nat.ltb_ge _ _) Hstop); lia
    end.
Qed.

Lemma degraded_segments_done idx i :
  (length idx <= i)%nat -> degraded_segments idx i = [].
Proof.
  intros Hi. funelim (degraded_segments idx i).
  - match goal with
    | Hgo : (_ <? _)%nat = true |- _ =>
        pose proof (proj1 (Nat.ltb_lt _ _) Hgo); lia
    end.
  - reflexivity.
Qed.

(** The loop adds up the durations of the segments it visits. *)
Lemma degraded_loop_segments times idx i acc :
  degraded_loop times idx i acc
  = foldl fadd acc
      ((fun segment : nat * nat => segment_duration times segment.1 segment.2)
         <$> degraded_segments idx i).
Proof.
  funelim (degraded_loop times idx i acc).
  - pose proof H as Hi. apply Nat.ltb_lt in Hi.
    rewrite (degraded_segments_step _ _ Hi). cbn. apply H0.
  - match goal with
    | Hstop : (_ <? _)%nat = false |- _ =>
        rewrite (degraded_segments_done _ _ (proj1 (Nat.ltb_ge _ _) Hstop))
    end.
    reflexivity.
Qed.

(** The rows of a segment, from its first row to its last *)
Definition segment_rows (segment : nat * nat) : list nat :=
  seq segment.1 (segment.2 - segment.1 + 1).

(** A run of consecutive row numbers is a range. *)
Lemma run_is_seq (idx : list nat) i j :
  (i <= j < length idx)%nat ->
  (forall k, (i <= k <= j)%nat -> idx !!! k = (idx !!! i + (k - i))%nat) ->
  take (j - i + 1) (skipn i idx) = seq (idx !!! i) (j - i + 1).
Proof.
  intros Hij Hrun. apply list_eq. intros k.
  destruct (decide (k < j - i + 1)%nat) as [Hk|Hk].
  - rewrite lookup_take_lt, lookup_drop, lookup_seq_lt by lia.
    destruct (lookup_lt_is_Some_2 idx (i + k)%nat) as [x Hx]; [lia|].
    rewrite Hx. f_equal.
    rewrite <- (list_lookup_total_correct _ _ _ Hx), Hrun by lia.
    f_equal. lia.
  - rewrite lookup_take_ge, lookup_seq_ge by lia. reflexivity.
Qed.

(** Every segment is a run [a .. b] of positions of [degraded_indices]. *)
Lemma degraded_segments_runs idx i segment :
  segment ∈ degraded_segments idx i ->
  exists a b, (i <= a <= b)%nat /\ (b < length idx)%nat
    /\ segment = (idx !!! a, idx !!! b)
    /\ idx !!! b = (idx !!! a + (b - a))%nat.
Proof.
  funelim (degraded_segments idx i); intros Hin.
  - pose proof (proj1 (Nat.ltb_lt _ _) H) as Hi.
    destruct (segment_end_spec degraded_indices i Hi) as (Hrange & Hrun & _).
    apply elem_of_cons in Hin as [->|Hin].
    + exists i, (segment_end degraded_indices i).
      split_conj; [lia | lia | lia | reflexivity | apply Hrun; lia].
    + destruct (H0 segment Hin) as (a & b & Hab & Hb & Hseg & Hlast).
      exists a, b. split_conj; auto; lia.
  - apply elem_of_nil in Hin. contradiction.
Qed.

(** Concatenated in order, the rows of the segments are the degraded
    rows from position [i] on. *)
Lemma degraded_segments_rows idx i :
  degraded_segments idx i ≫= segment_rows = skipn i idx.
Proof.
  funelim (degraded_segments idx i).
  - pose proof (proj1 (Nat.ltb_lt _ _) H) as Hi.
    destruct (segment_end_spec degraded_indices i Hi) as (Hrange & Hrun & _).
    set (j := segment_end degraded_indices i) in *.
    change (segment_rows (degraded_indices !!! i, degraded_indices !!! j)
            ++ (degraded_segments degraded_indices (j + 1) ≫= segment_rows)
            = skipn i degraded_indices).
    rewrite H0. unfold segment_rows. cbn [fst snd].
    rewrite (Hrun j) by lia.
    replace (degraded_indices !!! i + (j - i) - degraded_indices !!! i)%nat
      with (j - i)%nat by lia.
    rewrite <- (run_is_seq degraded_indices i j) by (auto; lia).
    rewrite <- (take_drop (j - i + 1) (skipn i degraded_indices)) at 2.
    rewrite drop_drop. do 2 f_equal. lia.
  - pose proof (proj1 (Nat.ltb_ge _ _) e) as Hi.
    rewrite drop_ge by lia. reflexivity.
Qed.

(** When the concatenation of the blocks [f x] has no duplicate, an
    element of it lies in exactly one block. *)
Lemma bind_block_unique {A B} (f : A -> list B) (l : list A) (r : B) :
  NoDup (l ≫= f) -> r ∈ l ≫= f ->
  exists k, (exists x, l !! k = Some x /\ r ∈ f x)
    /\ forall k', (exists x, l !! k' = Some x /\ r ∈ f x) -> k' = k.
Proof.
  induction l as [|x l IH]; intros Hnd Hr.
  - apply elem_of_nil in Hr. contradiction.
  - change (NoDup (f x ++ (l ≫= f))) in Hnd.
    change (r ∈ f x ++ (l ≫= f)) in Hr.
    apply NoDup_app in Hnd as (_ & Hdisjoint & Hrest).
    assert (Hlater : forall k' x', l !! k' = Some x' -> r ∈ f x' -> r ∈ l ≫= f).
    { intros k' x' Hk' Hx'. apply list_elem_of_bind. exists x'. split; [exact Hx'|].
      eapply list_elem_of_lookup_2. exact Hk'. }
    apply elem_of_app in Hr as [Hhere|Hthere].
    + pose proof (Hdisjoint r Hhere) as Hnot.
      exists 0%nat. split; [exists x; now split|].
      intros [|k'] (x' & Hk' & Hx'); [reflexivity|].
      exfalso. apply Hnot. exact (Hlater k' x' Hk' Hx').
    + assert (Hnot : r ∉ f x) by (intros Hx; exact (Hdisjoint r Hx Hthere)).
      destruct (IH Hrest Hthere) as (k & (y & Hk & Hy) & Huniq).
      exists (S k). split; [exists y; now split|].
      intros [|k'] (x' & Hk' & Hx').
      * simpl in Hk'. injection Hk' as <-. contradiction.
      * f_equal. apply Huniq. exists x'. now split.
Qed.

(** The duration the specification credits to the segment of rows
    [s .. e]: last time minus first time for several rows; for a single
    row half the sum of the gaps to the previous and to the next sample,
    the one adjacent gap at either end of the series, zero when the series
    has no other row. *)
Definition spec_segment_share (ts : list Q) (s e : nat) : Q :=
  if (s <? e)%nat then (time_at ts e - time_at ts s)%Q
  else
    let previous_gap := (time_at ts s - time_at ts (s - 1))%Q in
    let next_gap := (time_at ts (s + 1) - time_at ts s)%Q in
    match (0 <? s)%nat, (s + 1 <? length ts)%nat with
    | true, true => ((previous_gap + next_gap) / 2)%Q
    | false, true => next_gap
    | true, false => previous_gap
    | false, false => 0%Q
    end.

Lemma segment_duration_share ts s e :
  (s <= e)%nat -> (e < length ts)%nat ->
  exists d,
    segment_duration (Some <$> ts) s e = Some d
    /\ (d == spec_segment_share ts s e)%Q.
Proof.
  intros Hse He.
  unfold segment_duration, spec_segment_share. rewrite length_fmap.
  destruct (Nat.eqb_spec s e) as [->|Hne].
  - rewrite Nat.ltb_irrefl.
    destruct (Nat.ltb_spec (e + 1) (length ts)) as [Hnext|Hlast];
      destruct (Nat.ltb_spec 0 e) as [Hprev|Hfirst]; cbn [andb];
      rewrite ?lookup_time by lia; cbn [fsub fdiv];
      (eexists; split; [reflexivity|]).
    + change (inject_Z 2) with 2%Q. field.
    + reflexivity.
    + reflexivity.
    + reflexivity.
  - destruct (Nat.ltb_spec s e) as [_|Hge]; [|lia].
    rewrite !lookup_time by lia. cbn [fsub].
    eexists. split; reflexivity.
Qed.

Lemma indices_from_elem mask : forall i r,
  r ∈ indices_from i mask <-> exists k, r = (i + k)%nat /\ mask !! k = Some true.
Proof.
  induction mask as [|b mask IH]; intros i r; simpl.
  - split; [intros Hr; apply elem_of_nil in Hr; contradiction|].
    intros (k & _ & Hk). discriminate.
  - assert (Hrest : r ∈ indices_from (S i) mask
                    <-> exists k, r = (i + S k)%nat /\ mask !! k = Some true).
    { rewrite IH. split; intros (k & -> & Hk); exists k; split; auto; lia. }
    destruct b.
    + rewrite elem_of_cons, Hrest. split.
      * intros [->|(k & -> & Hk)]; [exists 0%nat | exists (S k)]; split; auto; lia.
      * intros ([|k] & -> & Hk); [left; lia | right; exists k; split; auto].
    + rewrite Hrest. split.
      * intros (k & -> & Hk). exists (S k). split; auto.
      * intros ([|k] & -> & Hk); [discriminate | exists k; split; auto].
Qed.

Lemma increasing_NoDup (idx : list nat) : StronglySorted lt idx -> NoDup idx.
Proof.
  induction 1 as [|a l Hl IH Ha]; constructor; auto.
  intros Hin. rewrite List.Forall_forall in Ha.
  apply list_elem_of_In in Hin. specialize (Ha a Hin). lia.
Qed.

Lemma in_segment_rows (segment : nat * nat) r :
  (segment.1 <= segment.2)%nat ->
  r ∈ segment_rows segment <-> (segment.1 <= r <= segment.2)%nat.
Proof.
  intros Hse. unfold segment_rows. rewrite elem_of_seq. lia.
Qed.

Lemma indices_row_numbers (mask : list bool) n :
  length mask = n -> row_numbers n (indices_from 0 mask).
Proof.
  intros <-. destruct (indices_from_spec mask 0) as [Hinc Hbound].
  split; [exact Hinc|].
  eapply Forall_impl; [exact Hbound|]. simpl. intros k Hk. lia.
Qed.

(** On a sorted series the loop ends with a total within the span. *)
Lemma degraded_loop_total ts idx :
  StronglySorted Qle ts -> row_numbers (length ts) idx ->
  exists total,
    degraded_loop (Some <$> ts) idx 0 (Some 0%Q) = Some total
    /\ (total <= series_span ts)%Q.
Proof.
  intros Hs Hidx.
  apply (degraded_loop_bound (Some <$> ts) idx 0 (Some 0%Q) ts 0%Q); auto.
  - intros Hi.
    pose proof (row_numbers_bound _ _ 0%nat Hidx Hi).
    pose proof (sorted_time_le ts Hs 0%nat (Nat.pred (idx !!! 0%nat))
                  ltac:(lia) ltac:(lia)).
    lra.
  - intros Hnone. unfold series_span.
    destruct ts as [|t ts']; [unfold time_at; simpl; lra|].
    pose proof (sorted_time_le (t :: ts') Hs 0%nat (length (t :: ts') - 1)%nat
                  ltac:(lia) ltac:(simpl; lia)).
    lra.
Qed.

Lemma for_each_length {A B} (f : A -> outcome B) (l : list A) ys :
  for_each f l = Return ys -> length ys = length l.
Proof.
  revert ys. induction l as [|x l IH]; intros ys H.
  - injection H as <-. reflexivity.
  - cbn [for_each] in H.
    apply bind_Return in H as (y & _ & H).
    apply bind_Return in H as (rest & Hrest & H).
    injection H as <-. simpl. f_equal. now apply IH.
Qed.

(** Rows sorted by a numeric key have their keys in non-decreasing order. *)
Lemma sorted_times_Qle {A} (sorted : list (pyfloat * A)) : forall ts,
  StronglySorted (by_key fst) sorted -> sorted.*1 = Some <$> ts ->
  StronglySorted Qle ts.
Proof.
  induction sorted as [|[t row] sorted IH]; intros ts Hs Hts.
  - destruct ts; [apply SSorted_nil | discriminate].
  - destruct ts as [|q ts]; [discriminate|].
    rewrite !fmap_cons in Hts. injection Hts as Ht Hts. simpl in Ht. subst t.
    apply StronglySorted_cons in Hs as [Hfirst Hs].
    apply SSorted_cons; [now apply IH|].
    rewrite List.Forall_forall. intros q' Hq'.
    rewrite List.Forall_forall in Hfirst.
    assert (Hin : In (Some q') (sorted.*1)).
    { rewrite Hts. apply list_elem_of_In, list_elem_of_fmap.
      exists q'. split; [reflexivity | now apply list_elem_of_In]. }
    apply list_elem_of_In, list_elem_of_fmap in Hin as ([t' row'] & Ht' & Hin).
    simpl in Ht'. subst t'.
    apply list_elem_of_In in Hin. specialize (Hfirst _ Hin).
    unfold by_key in Hfirst. simpl in Hfirst. now apply Qle_bool_iff.
Qed.


(** Six samples one second apart, rows 1, 2 and 4 degraded: the run of
    rows 1-2 contributes 1 s, the single row 4 half of the 2 s around it. *)
Definition six_samples : list Q := [0; 1; 2; 3; 4; 5]%Q.
Definition degraded_rows_1_2_4 : list bool := [false; true; true; false; true; false].

Lemma six_samples_sorted : StronglySorted Qle six_samples.
Proof.
  unfold six_samples.
  repeat (apply SSorted_cons; [|repeat (apply List.Forall_cons; [discriminate|]);
                                  apply List.Forall_nil]).
  apply SSorted_nil.
Defined.

(** The same flight as a log, rows out of order: the tool sorts them and
    reports 1 s + 1 s. *)
Definition flight_with_weak_gps : dataset :=
  Some {[ "GPS" := LRows [record_of [("TimeUS", CNum 4000000); ("NSats", CNum 5)];
                          record_of [("TimeUS", CNum 0); ("NSats", CNum 9)];
                          record_of [("TimeUS", CNum 1000000); ("NSats", CNum 4)];
                          record_of [("TimeUS", CNum 2000000); ("NSats", CNum 5)];
                          record_of [("TimeUS", CNum 3000000); ("NSats", CNum 8)];
                          record_of [("TimeUS", CNum 5000000); ("NSats", CNum 10)]] ]}.

(** The times of that log, in seconds *)
Definition weak_gps_seconds : list Q :=
  (fun us : Z => (inject_Z us / inject_Z 1000000)%Q)
    <$> [0; 1000000; 2000000; 3000000; 4000000; 5000000]%Z.



(* ===================================================================== *)
(** * Further properties of the tools *)
(* ===================================================================== *)

(** ** The clock format of a time *)

Lemma Qfloor_unique (x : Q) (z : Z) :
  (inject_Z z <= x)%Q -> (x < inject_Z (z + 1))%Q -> Qfloor x = z.
Proof.
  intros Hle Hlt.
  pose proof (Qfloor_le x) as Hfl. pose proof (Qlt_floor x) as Hfu.
  assert (H1 : (z < Qfloor x + 1)%Z).
  { rewrite Zlt_Qlt. eapply Qle_lt_trans; eassumption. }
  assert (H2 : (Qfloor x < z + 1)%Z).
  { rewrite Zlt_Qlt. eapply Qle_lt_trans; eassumption. }
  lia.
Qed.

(** [divmod(q, 60)] splits [q] into whole minutes and a remainder in
    [0, 60) whose whole seconds complete the floor of [q]. *)
Lemma divmod60_spec (q : Q) :
  let '(minutes, seconds_remainder) := divmod60 q in
  (0 <= seconds_remainder)%Q /\ (seconds_remainder < 60)%Q
  /\ (q == inject_Z 60 * inject_Z minutes + seconds_remainder)%Q
  /\ trunc seconds_remainder = (Qfloor q - 60 * minutes)%Z
  /\ (0 <= trunc seconds_remainder <= 59)%Z.
Proof.
  unfold divmod60. set (m := Qfloor (q / 60)).
  pose proof (Qfloor_le (q / 60)) as Hl. pose proof (Qlt_floor (q / 60)) as Hu.
  fold m in Hl, Hu. rewrite inject_Z_plus in Hu. change (inject_Z 1) with 1%Q in Hu.
  assert (Hq : (q == 60 * (q / 60))%Q) by (field; discriminate).
  set (h := (q / 60)%Q) in *.
  rewrite inject_Z_mult. change (inject_Z 60) with 60%Q.
  assert (H0 : (0 <= q - 60 * inject_Z m)%Q) by lra.
  assert (H60 : (q - 60 * inject_Z m < 60)%Q) by lra.
  assert (Hfloor : Qfloor (q - 60 * inject_Z m) = (Qfloor q - 60 * m)%Z).
  { pose proof (Qfloor_le q) as Hql. pose proof (Qlt_floor q) as Hqu.
    rewrite inject_Z_plus in Hqu. change (inject_Z 1) with 1%Q in Hqu.
    apply Qfloor_unique.
    - unfold Z.sub. rewrite inject_Z_plus, inject_Z_opp, inject_Z_mult.
      change (inject_Z 60) with 60%Q. lra.
    - rewrite <- Z.add_sub_swap. unfold Z.sub.
      rewrite !inject_Z_plus, inject_Z_opp, inject_Z_mult.
      change (inject_Z 60) with 60%Q. change (inject_Z 1) with 1%Q. lra. }
  assert (Htrunc : trunc (q - 60 * inject_Z m) = (Qfloor q - 60 * m)%Z).
  { unfold trunc. apply Qle_bool_iff in H0. rewrite H0. exact Hfloor. }
  split_conj; [exact H0 | exact H60 | lra | exact Htrunc | | ].
  - rewrite Htrunc, <- Hfloor.
    change 0%Z with (Qfloor 0). apply Qfloor_resp_le. exact H0.
  - rewrite Htrunc, <- Hfloor.
    assert (Hlt : (Qfloor (q - 60 * inject_Z m) < 60)%Z).
    { rewrite Zlt_Qlt. eapply Qle_lt_trans; [apply Qfloor_le|]. exact H60. }
    lia.
Qed.


(* ===================================================================== *)
(** ** The highest altitude *)
(* ===================================================================== *)

(** [idxmax]: the reduction ends on the first element of greatest value;
    NaN is passed over. *)
Lemma arg_max_first {A} (l : list (pyfloat * A)) : forall best,
  match arg_best (fun a b => Qlt_bool b a) best l with
  | Some (m, x) =>
      (forall v y, In (Some v, y) l -> (v <= m)%Q)
      /\ (forall b y, best = Some (b, y) -> (b <= m)%Q)
      /\ (best = Some (m, x)
          \/ exists l1 l2,
               l = (l1 ++ (Some m, x) :: l2)%list
               /\ (forall v y, In (Some v, y) l1 -> (v < m)%Q)
               /\ (forall b y, best = Some (b, y) -> (b < m)%Q))
  | None => best = None /\ forall v y, ~ In (Some v, y) l
  end.
Proof.
  induction l as [|[[v|] a] l IH]; intros best.
  - cbn [arg_best]. destruct best as [[b y]|].
    + split_conj; [intros ? ? [] | intros ? ? [= -> _]; apply Qle_refl | now left].
    + split; [reflexivity | intros ? ? []].
  - cbn [arg_best].
    assert (Hnew :
      match arg_best (fun a b => Qlt_bool b a) (Some (v, a)) l with
      | Some (m, x) =>
          (forall v' y, In (Some v', y) ((Some v, a) :: l) -> (v' <= m)%Q)
          /\ exists l1 l2,
               (Some v, a) :: l = (l1 ++ (Some m, x) :: l2)%list
               /\ (forall v' y, In (Some v', y) l1 -> (v' < m)%Q)
               /\ (forall b, (b < v)%Q -> (b < m)%Q)
      | None => False
      end).
    { specialize (IH (Some (v, a))).
      destruct (arg_best _ (Some (v, a)) l) as [[m x]|]; [|now destruct IH].
      destruct IH as (Hall & Hbest & Hsrc).
      pose proof (Hbest v a eq_refl) as Hvm.
      split.
      - intros v' y [[= <- <-]|Hin]; [exact Hvm | exact (Hall _ _ Hin)].
      - destruct Hsrc as [[= <- <-] | (l1 & l2 & -> & Hl1 & Hlt)].
        + exists [], l. split_conj; [reflexivity | intros ? ? [] | auto].
        + exists ((Some v, a) :: l1), l2. pose proof (Hlt v a eq_refl) as Hv.
          split_conj; [reflexivity | | intros b Hb; lra].
          intros v' y [[= <- <-]|Hin]; [exact Hv | exact (Hl1 _ _ Hin)]. }
    destruct best as [[b y]|].
    + destruct (Qlt_bool b v) eqn:E.
      * destruct (arg_best _ (Some (v, a)) l) as [[m x]|]; [|contradiction].
        destruct Hnew as (Hall & l1 & l2 & Hl & Hl1 & Hlt).
        apply Qlt_bool_iff in E. pose proof (Hlt b E) as Hbm.
        split_conj; [exact Hall | intros ? ? [= <- _]; lra |].
        right. exists l1, l2. split_conj; auto. intros ? ? [= <- _]. exact Hbm.
      * clear Hnew. specialize (IH (Some (b, y))).
        apply Qlt_bool_false in E.
        destruct (arg_best _ (Some (b, y)) l) as [[m x]|]; [|now destruct IH].
        destruct IH as (Hall & Hbest & Hsrc).
        pose proof (Hbest b y eq_refl) as Hbm.
        split_conj; [| exact Hbest |].
        -- intros v' y' [[= <- <-]|Hin]; [lra | exact (Hall _ _ Hin)].
        -- destruct Hsrc as [Hsame | (l1 & l2 & -> & Hl1 & Hlt)]; [now left|].
           right. exists ((Some v, a) :: l1), l2.
           pose proof (Hlt b y eq_refl) as Hb.
           split_conj; [reflexivity | | exact Hlt].
           intros v' y' [[= <- <-]|Hin]; [lra | exact (Hl1 _ _ Hin)].
    + destruct (arg_best _ (Some (v, a)) l) as [[m x]|]; [|contradiction].
      destruct Hnew as (Hall & l1 & l2 & Hl & Hl1 & Hlt).
      split_conj; [exact Hall | discriminate |].
      right. exists l1, l2. split_conj; auto. discriminate.
  - cbn [arg_best]. specialize (IH best).
    destruct (arg_best _ best l) as [[m x]|].
    + destruct IH as (Hall & Hbest & Hsrc).
      split_conj; [| exact Hbest |].
      * intros v y [Heq|Hin]; [discriminate | exact (Hall _ _ Hin)].
      * destruct Hsrc as [Hsame | (l1 & l2 & -> & Hl1 & Hlt)]; [now left|].
        right. exists ((None, a) :: l1), l2. split_conj; [reflexivity | | exact Hlt].
        intros v y [Heq|Hin]; [discriminate | exact (Hl1 _ _ Hin)].
    + destruct IH as [Hb Hnone]. split; [exact Hb|].
      intros v y [Heq|Hin]; [discriminate | exact (Hnone _ _ Hin)].
Qed.

Lemma float_cell_Some c q : float_cell c = Some q -> c = CNum q.
Proof. destruct c; cbv [float_cell NaN]; congruence. Qed.

(** [df.loc[df[c].idxmax()]] on a numeric column with a number in it: the
    first row of greatest value. *)
Lemma idx_extreme_max df c :
  object_column df c = false ->
  (exists r q, In r (records df) /\ cell_at c r = CNum q) ->
  exists before max_row after alt,
    idx_extreme (fun a b => Qlt_bool b a) df c = Return max_row
    /\ records df = (before ++ max_row :: after)%list
    /\ cell_at c max_row = CNum alt
    /\ (forall r q, In r (records df) -> cell_at c r = CNum q -> (q <= alt)%Q)
    /\ (forall r q, In r before -> cell_at c r = CNum q -> (q < alt)%Q).
Proof.
  intros Hobj (r0 & q0 & Hin0 & Hq0).
  unfold idx_extreme. rewrite Hobj.
  destruct (records df) as [|r1 rs] eqn:Hrows; [contradiction|].
  rewrite <- Hrows in *. clear Hrows r1 rs.
  set (f := fun r : gmap string cell => (float_cell (cell_at c r), r)).
  pose proof (arg_max_first (f <$> records df) None) as H.
  destruct (arg_best _ None (f <$> records df)) as [[m x]|].
  - destruct H as (Hall & _ & [Hnone | (l1 & l2 & Hl & Hl1 & _)]); [discriminate|].
    apply fmap_app_inv in Hl as (before & rest & -> & Hrest & Hsplit).
    symmetry in Hrest.
    apply fmap_cons_inv in Hrest as (max_row & after & Hf & -> & ->).
    unfold f in Hf. injection Hf as Hm ->.
    exists before, max_row, after, m.
    split_conj; [| exact Hsplit | now apply float_cell_Some | |].
    + destruct (records df); [destruct before; discriminate | reflexivity].
    + intros r q Hr Hq. apply (Hall q r).
      apply list_elem_of_In, list_elem_of_fmap. exists r.
      split; [unfold f; now rewrite Hq | now apply list_elem_of_In].
    + intros r q Hr Hq. apply (Hl1 q r).
      apply list_elem_of_In, list_elem_of_fmap. exists r.
      split; [unfold f; now rewrite Hq | now apply list_elem_of_In].
  - destruct H as [_ Hnone]. exfalso. apply (Hnone q0 r0).
    apply list_elem_of_In, list_elem_of_fmap. exists r0.
    split; [unfold f; now rewrite Hq0 | now apply list_elem_of_In].
Qed.

(** The time field that [get_highest_altitude] picks with its own table
    is the one of the shared helper, with the same divisor. *)
Lemma highest_altitude_time_field df :
  match first_column ["TimeUS"; "time_boot_ms"; "TimeMS"] df with
  | Some tc =>
      _get_time_column_and_divisor df
      = (Some tc, match tc with
                  | "TimeUS" => 1000000%Z
                  | _ => 1000%Z
                  end)
  | None => _get_time_column_and_divisor df = (None, 1%Z)
  end.
Proof.
  unfold first_column, _get_time_column_and_divisor, TIME_COLUMNS_DIVISORS.
  cbn [List.find fst].
  destruct (has_col df "TimeUS"); [reflexivity|].
  destruct (has_col df "time_boot_ms"); [reflexivity|].
  destruct (has_col df "TimeMS"); reflexivity.
Qed.

Lemma is_None_number df c r q : cell_at c r = CNum q -> is_None df c r = false.
Proof.
  unfold cell_at, is_None. destruct (r !! c) as [[]|]; simpl; congruence.
Qed.

Lemma is_None_missing df c (r : gmap string cell) : r !! c = None -> is_None df c r = false.
Proof. unfold is_None. now intros ->. Qed.


(** A climb to 120.5 m reached at 2 s and again at 3 s, one sample
    without altitude: the first of the two is reported. *)
Definition baro_climb : list (gmap string cell) :=
  [record_of [("TimeUS", CNum 0); ("Alt", CNum 10)];
   record_of [("TimeUS", CNum 1000000); ("Alt", CNull)];
   record_of [("TimeUS", CNum 2000000); ("Alt", CNum (241 # 2))];
   record_of [("TimeUS", CNum 3000000); ("Alt", CNum (241 # 2))];
   record_of [("TimeUS", CNum 4000000); ("Alt", CNum 80)]].

Definition flight_with_climb : dataset := Some {[ "BARO" := LRows baro_climb ]}.


(* ===================================================================== *)
(** ** The first loss of GPS quality *)
(* ===================================================================== *)

Lemma object_column_false df c r :
  object_column df c = false -> In r (records df) -> is_str (cell_at c r) = false.
Proof.
  unfold object_column. intros H Hin.
  destruct (is_str (cell_at c r)) eqn:E; [|reflexivity].
  assert (Hex : existsb (fun r => is_str (cell_at c r)) (records df) = true)
    by (apply existsb_exists; eauto).
  congruence.
Qed.

Lemma num_cell_float x : is_str x = false -> num_cell x = Return (float_cell x).
Proof. destruct x; simpl; [reflexivity | discriminate | reflexivity]. Qed.

(** [df[c] < k] and [df[c] > k] on a column without strings: row by row,
    a null compares false. *)
Lemma column_lt_numeric df c k :
  has_col df c = true -> object_column df c = false ->
  column_lt df c k
  = Return ((fun r => flt (float_cell (cell_at c r)) (Some k)) <$> records df).
Proof.
  intros Hc Ho. unfold column_lt, column. rewrite Hc. run.
  rewrite (for_each_pure _ (fun x => flt (float_cell x) (Some k))).
  - rewrite <- list_fmap_compose. reflexivity.
  - intros x Hx. apply list_elem_of_In, list_elem_of_fmap in Hx as (r & -> & Hr).
    rewrite num_cell_float; [reflexivity|].
    apply (object_column_false df); [exact Ho | now apply list_elem_of_In].
Qed.

Lemma column_gt_numeric df c k :
  has_col df c = true -> object_column df c = false ->
  column_gt df c k
  = Return ((fun r => flt (Some k) (float_cell (cell_at c r))) <$> records df).
Proof.
  intros Hc Ho. unfold column_gt, column. rewrite Hc. run.
  rewrite (for_each_pure _ (fun x => flt (Some k) (float_cell x))).
  - rewrite <- list_fmap_compose. reflexivity.
  - intros x Hx. apply list_elem_of_In, list_elem_of_fmap in Hx as (r & -> & Hr).
    rewrite num_cell_float; [reflexivity|].
    apply (object_column_false df); [exact Ho | now apply list_elem_of_In].
Qed.

Lemma zip_with_fmap_same {A} (f g : A -> bool) (l : list A) :
  zip_with orb (f <$> l) (g <$> l) = (fun r => f r || g r) <$> l.
Proof. induction l as [|x l IH]; [reflexivity|]. cbn. now rewrite IH. Qed.

Lemma filter_none {A} (h : A -> bool) (l : list A) :
  (forall x, In x l -> h x = false) -> List.filter h l = [].
Proof.
  induction l as [|x l IH]; intros H; [reflexivity|].
  cbn [List.filter]. rewrite (H x) by now left.
  apply IH. intros y Hy. apply H. now right.
Qed.

(** The first row kept by a filter is the first row of the list that
    passes the test. *)
Lemma filter_first {A} (h : A -> bool) (before : list A) first after :
  (forall x, In x before -> h x = false) -> h first = true ->
  List.filter h (before ++ first :: after) = first :: List.filter h after.
Proof.
  intros Hb Hf. rewrite List.filter_app, (filter_none _ _ Hb).
  cbn [List.filter app]. now rewrite Hf.
Qed.

(** The test of [find_first_gps_loss] on one row: fewer than 6
    satellites, or a fix type below 2, for the fields the log has. *)
Definition gps_degraded (gps_df : frame) (r : gmap string cell) : bool :=
  (has_col gps_df "NSats" && flt (float_cell (cell_at "NSats" r)) (Some 6%Q))
  || (has_col gps_df "FixType" && flt (float_cell (cell_at "FixType" r)) (Some 2%Q)).

(** The warning appended when some run of consecutive rows has zero
    satellites five times or more *)
Definition zero_satellite_warning (gps_df : frame) : string :=
  if has_col gps_df "NSats" then
    let zero_sats := cell_eq_num 0 <$> (cell_at "NSats" <$> records gps_df) in
    if existsb (fun n => 5 <=? n)%nat (run_lengths 0 zero_sats) then
      let total_zero_sat_time_points := length (List.filter id zero_sats) in
      if (0 <? total_zero_sat_time_points)%nat then
        " (Warning: GPS signal indicated zero satellites for a significant period. Total "
        +:+ str_int (Z.of_nat total_zero_sat_time_points)
        +:+ " data points showed NSats = 0.)"
      else EmptyString
    else EmptyString
  else EmptyString.

(** The degraded rows of a GPS frame without strings in the two fields *)
Lemma gps_degraded_rows gps_df :
  object_column gps_df "NSats" = false -> object_column gps_df "FixType" = false ->
  let all_false := (fun _ : gmap string cell => false) <$> records gps_df in
  exists low_sats low_fix,
    (if has_col gps_df "NSats" then column_lt gps_df "NSats" 6 else Return all_false)
    = Return low_sats
    /\ (if has_col gps_df "FixType" then column_lt gps_df "FixType" 2 else Return all_false)
       = Return low_fix
    /\ select (zip_with orb low_sats low_fix) (records gps_df)
       = List.filter (gps_degraded gps_df) (records gps_df).
Proof.
  intros Hn Hf all_false. unfold gps_degraded.
  destruct (has_col gps_df "NSats") eqn:En, (has_col gps_df "FixType") eqn:Ef;
    try rewrite (column_lt_numeric _ _ _ En Hn);
    try rewrite (column_lt_numeric _ _ _ Ef Hf);
    eexists _, _; (split; [reflexivity|]); (split; [reflexivity|]);
    unfold all_false; rewrite zip_with_fmap_same, select_fmap; reflexivity.
Qed.


(** Two degraded rows logged out of order: the one logged first, at 5 s,
    is reported, not the earlier one at 1 s. *)
Definition gps_out_of_order : list (gmap string cell) :=
  [record_of [("TimeUS", CNum 5000000); ("NSats", CNum 4); ("FixType", CNum 3)];
   record_of [("TimeUS", CNum 1000000); ("NSats", CNum 3); ("FixType", CNum 1)]].

Definition flight_gps_out_of_order : dataset := Some {[ "GPS" := LRows gps_out_of_order ]}.


(* ===================================================================== *)
(** ** The warning for a long stay without satellites *)
(* ===================================================================== *)

(** The number of [true] at the head of a mask *)
Fixpoint leading (l : list bool) : nat :=
  match l with
  | true :: rest => S (leading rest)
  | _ => 0%nat
  end.

(** The mask holds [true] at [n] consecutive positions. *)
Definition has_run (n : nat) (l : list bool) : Prop :=
  exists i, forall k, (k < n)%nat -> l !! (i + k)%nat = Some true.

Lemma prefix_true (l : list bool) : forall n,
  (forall k, (k < n)%nat -> l !! k = Some true) <-> (n <= leading l)%nat.
Proof.
  induction l as [|b l IH]; intros n.
  - simpl. split.
    + intros H. destruct n; [lia|]. specialize (H 0%nat ltac:(lia)). discriminate.
    + intros H k Hk. lia.
  - destruct b; simpl.
    + destruct n as [|n]; [split; [lia | intros _ k Hk; lia]|].
      rewrite <- Nat.succ_le_mono, <- IH. split.
      * intros H k Hk. apply (H (S k)). lia.
      * intros H [|k] Hk; [reflexivity | apply H; lia].
    + split.
      * intros H. destruct n; [lia|]. specialize (H 0%nat ltac:(lia)). discriminate.
      * intros H k Hk. lia.
Qed.

Lemma has_run_nil n : (0 < n)%nat -> ~ has_run n [].
Proof. intros Hn [i H]. specialize (H 0%nat Hn). discriminate. Qed.

Lemma has_run_cons n b l :
  (0 < n)%nat ->
  has_run n (b :: l) <-> (b = true /\ (n <= S (leading l))%nat) \/ has_run n l.
Proof.
  intros Hn. split.
  - intros [[|i] H].
    + left. assert (Hb : b = true).
      { specialize (H 0%nat Hn). simpl in H. congruence. }
      subst b. split; [reflexivity|].
      apply (prefix_true (true :: l)). exact H.
    + right. exists i. intros k Hk. exact (H k Hk).
  - intros [[-> Hlead] | [i H]].
    + exists 0%nat. apply (prefix_true (true :: l)). exact Hlead.
    + exists (S i). intros k Hk. exact (H k Hk).
Qed.

(** Some run of [true] has length [n] or more exactly when [n]
    consecutive positions hold [true]; [cur] counts the [true] already
    passed. *)
Lemma run_lengths_spec n (l : list bool) :
  (0 < n)%nat ->
  forall cur,
    existsb (fun m => n <=? m)%nat (run_lengths cur l) = true
    <-> ((0 < cur)%nat /\ (n <= cur + leading l)%nat) \/ has_run n l.
Proof.
  intros Hn. induction l as [|b l IH]; intros cur.
  - pose proof (has_run_nil n Hn) as Hnil. simpl.
    destruct (Nat.ltb_spec 0 cur) as [Hc|Hc]; simpl.
    + rewrite orb_false_r, Nat.leb_le. split; [left; lia | intros [?|?]; [lia | tauto]].
    + split; [discriminate | intros [?|?]; [lia | tauto]].
  - rewrite (has_run_cons n b l Hn). destruct b; simpl.
    + rewrite IH. split.
      * intros [[_ H]|H]; [|tauto].
        destruct cur; [right; left; split; [reflexivity | lia] | left; lia].
      * intros [[Hc H]|[[_ H]|H]]; [left; lia | left; lia | tauto].
    + destruct (Nat.ltb_spec 0 cur) as [Hc|Hc]; simpl.
      * rewrite orb_true_iff, Nat.leb_le, IH. split.
        -- intros [H|[H|H]]; [left; lia | lia | tauto].
        -- intros [[_ H]|[[Hb _]|H]]; [left; lia | discriminate | tauto].
      * rewrite IH. split.
        -- intros [H|H]; [lia | tauto].
        -- intros [[H _]|[[Hb _]|H]]; [lia | discriminate | tauto].
Qed.


(** Five rows in a row without satellites, a good row, one more row
    without: the warning counts six rows. *)
Definition gps_blackout : list (gmap string cell) :=
  (fun sats : Z * Z => record_of [("TimeUS", CNum (inject_Z sats.1));
                                  ("NSats", CNum (inject_Z sats.2))])
    <$> [(0, 0); (1000000, 0); (2000000, 0); (3000000, 0); (4000000, 0);
         (5000000, 9); (6000000, 0)]%Z.

Definition gps_blackout_frame : frame := Frame {[ "TimeUS"; "NSats" ]} gps_blackout.


(* ===================================================================== *)
(** ** Battery temperature *)
(* ===================================================================== *)

(** The reading of a BAT row when it counts: a number above zero *)
Definition positive_temp (r : gmap string cell) : option Q :=
  match cell_at "Temp" r with
  | CNum q => if Qlt_bool 0 q then Some q else None
  | _ => None
  end.

Lemma positive_temp_Some r q :
  positive_temp r = Some q <-> cell_at "Temp" r = CNum q /\ (0 < q)%Q.
Proof.
  unfold positive_temp. destruct (cell_at "Temp" r) as [x| |].
  - destruct (Qlt_bool 0 x) eqn:E.
    + apply Qlt_bool_iff in E. split; [intros [= ->]; now split | intros [[= ->] _]; reflexivity].
    + split; [discriminate|]. intros [[= ->] H]. apply Qlt_bool_iff in H. congruence.
  - split; [discriminate | intros [H _]; discriminate].
  - split; [discriminate | intros [H _]; discriminate].
Qed.

Lemma omap_filter_positive (rows : list (gmap string cell)) :
  omap (fun r => float_cell (cell_at "Temp" r))
       (List.filter (fun r => flt (Some 0%Q) (float_cell (cell_at "Temp" r))) rows)
  = omap positive_temp rows.
Proof.
  induction rows as [|r rs IH]; [reflexivity|].
  cbn [List.filter].
  change (omap positive_temp (r :: rs))
    with (match positive_temp r with
          | Some q => q :: omap positive_temp rs
          | None => omap positive_temp rs
          end).
  unfold positive_temp at 1.
  destruct (cell_at "Temp" r) as [x| |] eqn:Ex.
  - change (flt (Some 0%Q) (float_cell (CNum x))) with (Qlt_bool 0 x).
    destruct (Qlt_bool 0 x); [|exact IH].
    match goal with
    | |- omap ?f (r :: ?L) = _ =>
        change (omap f (r :: L))
          with (match f r with Some q => q :: omap f L | None => omap f L end)
    end.
    cbv beta. rewrite Ex. cbn [float_cell]. now rewrite IH.
  - exact IH.
  - exact IH.
Qed.

(** The valid readings of a Temp column without strings: the numbers
    above zero, in the order of the log. *)
Lemma valid_temperatures_numeric bat_df :
  has_col bat_df "Temp" = true -> object_column bat_df "Temp" = false ->
  valid_temperatures bat_df = Return (omap positive_temp (records bat_df)).
Proof.
  intros Hc Ho. unfold valid_temperatures.
  rewrite (column_gt_numeric _ _ _ Hc Ho). run. rewrite select_fmap. f_equal.
  apply omap_filter_positive.
Qed.

Lemma in_valid_temperatures (rows : list (gmap string cell)) q :
  In q (omap positive_temp rows)
  <-> exists r, In r rows /\ cell_at "Temp" r = CNum q /\ (0 < q)%Q.
Proof.
  rewrite <- list_elem_of_In, list_elem_of_omap. split.
  - intros (r & Hr & Hq). exists r. rewrite <- list_elem_of_In.
    split; [exact Hr | now apply positive_temp_Some].
  - intros (r & Hr & Hq). exists r. rewrite list_elem_of_In.
    split; [exact Hr | now apply positive_temp_Some].
Qed.

(** [max()] and [min()] of a non-empty series of numbers: a member of
    the series that bounds all of them. *)
Lemma list_max_spec rest : forall t,
  In (list_max t rest) (t :: rest)
  /\ forall x, In x (t :: rest) -> (x <= list_max t rest)%Q.
Proof.
  unfold list_max. induction rest as [|y rest IH]; intros t.
  - simpl. split; [now left | intros x [<-|[]]; apply Qle_refl].
  - cbn [foldl]. destruct (IH (if Qlt_bool t y then y else t)) as [Hin Hmax].
    split.
    + destruct Hin as [Hin|Hin]; [|right; now right].
      rewrite <- Hin. destruct (Qlt_bool t y); [right; now left | now left].
    + assert (Hstart : ((if Qlt_bool t y then y else t) <= _)%Q)
        by (apply Hmax; now left).
      intros x [<-|[<-|Hx]].
      * destruct (Qlt_bool t y) eqn:E; [apply Qlt_bool_iff in E; lra | exact Hstart].
      * destruct (Qlt_bool t y) eqn:E; [exact Hstart | apply Qlt_bool_false in E; lra].
      * apply Hmax. now right.
Qed.

Lemma list_min_spec rest : forall t,
  In (list_min t rest) (t :: rest)
  /\ forall x, In x (t :: rest) -> (list_min t rest <= x)%Q.
Proof.
  unfold list_min. induction rest as [|y rest IH]; intros t.
  - simpl. split; [now left | intros x [<-|[]]; apply Qle_refl].
  - cbn [foldl]. destruct (IH (if Qlt_bool y t then y else t)) as [Hin Hmin].
    split.
    + destruct Hin as [Hin|Hin]; [|right; now right].
      rewrite <- Hin. destruct (Qlt_bool y t); [right; now left | now left].
    + assert (Hstart : (_ <= (if Qlt_bool y t then y else t))%Q)
        by (apply Hmin; now left).
      intros x [<-|[<-|Hx]].
      * destruct (Qlt_bool y t) eqn:E; [apply Qlt_bool_iff in E; lra | exact Hstart].
      * destruct (Qlt_bool y t) eqn:E; [exact Hstart | apply Qlt_bool_false in E; lra].
      * apply Hmin. now right.
Qed.

(** X5: on a BAT log whose Temp values are numbers or nulls,
    [get_max_battery_temperature] reports the greatest of the readings
    above zero and never a reading that is zero, negative or null; when no
    reading is above zero it says that the values are all zero or
    invalid. *)
Theorem max_battery_temperature_of_valid (str_exn : exn -> string) fd l bat_df :
  no_data fd = false ->
  get_log fd "BAT" = Return l -> truthy l = true -> DataFrame l = Return bat_df ->
  has_col bat_df "Temp" = true -> object_column bat_df "Temp" = false ->
  ((forall r q, In r (records bat_df) -> cell_at "Temp" r = CNum q -> (q <= 0)%Q) ->
   get_max_battery_temperature str_exn fd
   = Return "Battery temperature values are all zero or invalid (non-positive) throughout the log. The temperature sensor may have been disabled or is malfunctioning for this flight.")
  /\ ((exists r q, In r (records bat_df) /\ cell_at "Temp" r = CNum q /\ (0 < q)%Q) ->
      exists max_temp,
        get_max_battery_temperature str_exn fd
        = Return ("The maximum valid battery temperature recorded was "
                  +:+ fmt_2f max_temp +:+ "°C.")
        /\ (0 < max_temp)%Q
        /\ (exists r, In r (records bat_df) /\ cell_at "Temp" r = CNum max_temp)
        /\ (forall r q, In r (records bat_df) -> cell_at "Temp" r = CNum q ->
              (q <= max_temp)%Q)).
Proof.
  intros Hd Hl Ht Hdf Hc Ho.
  assert (Hshape : get_max_battery_temperature str_exn fd
                   = match omap positive_temp (records bat_df) with
                     | [] => Return "Battery temperature values are all zero or invalid (non-positive) throughout the log. The temperature sensor may have been disabled or is malfunctioning for this flight."
                     | t :: rest =>
                         Return ("The maximum valid battery temperature recorded was "
                                 +:+ fmt_2f (list_max t rest) +:+ "°C.")
                     end).
  { unfold get_max_battery_temperature.
    rewrite Hd, (get_log_truthy _ _ _ Hl), Ht, Hl. run. rewrite Hdf. run.
    rewrite Hc. run. rewrite (valid_temperatures_numeric _ Hc Ho). run.
    destruct (omap positive_temp (records bat_df)); reflexivity. }
  rewrite Hshape. split.
  - intros Hnone.
    destruct (omap positive_temp (records bat_df)) as [|t rest] eqn:E; [reflexivity|].
    exfalso.
    assert (Hin : In t (omap positive_temp (records bat_df))) by (rewrite E; now left).
    apply in_valid_temperatures in Hin as (r & Hr & Hq & Hpos).
    specialize (Hnone r t Hr Hq). lra.
  - intros (r0 & q0 & Hr0 & Hq0 & Hpos0).
    assert (Hin0 : In q0 (omap positive_temp (records bat_df)))
      by (apply in_valid_temperatures; eauto).
    destruct (omap positive_temp (records bat_df)) as [|t rest] eqn:E; [contradiction|].
    destruct (list_max_spec rest t) as [Hmem Hmax].
    rewrite <- E in Hmem, Hmax.
    pose proof Hmem as Hmem'.
    apply in_valid_temperatures in Hmem' as (r & Hr & Hq & Hpos).
    exists (list_max t rest). split_conj; [reflexivity | exact Hpos | eauto |].
    intros r' q' Hr' Hq'.
    destruct (Qlt_le_dec 0 q') as [Hp|Hp]; [|lra].
    apply Hmax, in_valid_temperatures. eauto.
Qed.

(** Readings 0, -1, 25.5, 31.25 and a null: 31.25 is reported. *)
Definition bat_readings : list (gmap string cell) :=
  [record_of [("Temp", CNum 0)]; record_of [("Temp", CNum (-1))];
   record_of [("Temp", CNum (51 # 2))]; record_of [("Temp", CNum (125 # 4))];
   record_of [("Temp", CNull)]].

Definition flight_with_battery : dataset := Some {[ "BAT" := LRows bat_readings ]}.

Lemma max_battery_temperature_of_valid_witness :
  get_max_battery_temperature sample_str_exn flight_with_battery
  = Return "The maximum valid battery temperature recorded was 31.25°C."
  /\ exists max_temp,
       get_max_battery_temperature sample_str_exn flight_with_battery
       = Return ("The maximum valid battery temperature recorded was "
                 +:+ fmt_2f max_temp +:+ "°C.")
       /\ (0 < max_temp)%Q
       /\ forall r q, In r bat_readings -> cell_at "Temp" r = CNum q -> (q <= max_temp)%Q.
Proof.
  split; [vm_compute; reflexivity|].
  destruct (max_battery_temperature_of_valid sample_str_exn flight_with_battery _ _
              eq_refl (eq_refl : get_log flight_with_battery "BAT" = Return _)
              eq_refl eq_refl eq_refl eq_refl) as [_ Hmax].
  destruct Hmax as (max_temp & Htool & Hpos & _ & Hall).
  - exists (record_of [("Temp", CNum (51 # 2))]), (51 # 2).
    split; [right; right; left; reflexivity|]. split; reflexivity.
  - exists max_temp. split_conj; [exact Htool | exact Hpos | exact Hall].
Defined.

(** Equal numbers are printed alike. *)
Lemma round_half_even_Qeq x y : (x == y)%Q -> round_half_even x = round_half_even y.
Proof.
  intros H. unfold round_half_even. rewrite (Qfloor_comp _ _ H). cbv zeta.
  assert (Hd : (x - inject_Z (Qfloor y) == y - inject_Z (Qfloor y))%Q)
    by (rewrite H; reflexivity).
  rewrite (Qleb_comp _ _ Hd _ _ (Qeq_refl _)), (Qleb_comp _ _ (Qeq_refl _) _ _ Hd).
  reflexivity.
Qed.

Lemma fmt_2f_Qeq x y : (x == y)%Q -> fmt_2f x = fmt_2f y.
Proof.
  intros H. unfold fmt_2f.
  rewrite (Qleb_comp _ _ (Qeq_refl 0) _ _ H).
  assert (Hc : (Qabs x * 100 == Qabs y * 100)%Q) by (rewrite (Qabs_wd _ _ H); reflexivity).
  rewrite (round_half_even_Qeq _ _ Hc). reflexivity.
Qed.

Lemma omap_positive_none (rows : list (gmap string cell)) :
  (forall r q, In r rows -> cell_at "Temp" r = CNum q -> (q <= 0)%Q) ->
  omap positive_temp rows = [].
Proof.
  intros H. destruct (omap positive_temp rows) as [|t rest] eqn:E; [reflexivity|].
  assert (Hin : In t (omap positive_temp rows)) by (rewrite E; now left).
  apply in_valid_temperatures in Hin as (r & Hr & Hq & Hpos).
  specialize (H r t Hr Hq). lra.
Qed.

Definition TEMP_STABLE (temp_range : Q) (deviation : string) : string :=
  "✅ The battery temperature remained relatively constant throughout the flight. The temperature varied by only ±"
  +:+ fmt_2f (temp_range / 2) +:+ "°C (Std Dev: " +:+ deviation +:+ "°C).".

Definition TEMP_FLUCTUATED (temp_min temp_max : Q) (deviation : string) : string :=
  "⚠️ The battery temperature fluctuated during the flight. Range: "
  +:+ fmt_2f temp_min +:+ "°C to " +:+ fmt_2f temp_max
  +:+ "°C (Total variation: " +:+ fmt_2f (temp_max - temp_min)
  +:+ "°C; Std Dev: " +:+ deviation +:+ "°C).".

(** The verdict of [check_battery_temp_stability] once the valid
    readings are known *)
Lemma stability_verdict (str_exn : exn -> string) fd l bat_df t rest :
  no_data fd = false ->
  get_log fd "BAT" = Return l -> truthy l = true -> DataFrame l = Return bat_df ->
  has_col bat_df "Temp" = true -> object_column bat_df "Temp" = false ->
  omap positive_temp (records bat_df) = t :: rest ->
  check_battery_temp_stability str_exn fd
  = Return (if Qlt_bool (list_max t rest - list_min t rest) (3 # 2)
               && std_below_075 (sample_variance (t :: rest))
            then TEMP_STABLE (list_max t rest - list_min t rest)
                             (fmt_2f_std (sample_variance (t :: rest)))
            else TEMP_FLUCTUATED (list_min t rest) (list_max t rest)
                                 (fmt_2f_std (sample_variance (t :: rest)))).
Proof.
  intros Hd Hl Ht Hdf Hc Ho Hvalid. unfold check_battery_temp_stability.
  rewrite Hd, (get_log_truthy _ _ _ Hl), Ht, Hl. run. rewrite Hdf. run.
  rewrite Hc. run. rewrite (valid_temperatures_numeric _ Hc Ho). run.
  rewrite Hvalid.
  destruct (Qlt_bool _ _ && _); reflexivity.
Qed.

(** X6: when exactly one reading of the BAT log is above zero,
    [check_battery_temp_stability] reports that the temperature
    fluctuated, with a total variation of 0.00 and a standard deviation
    printed as nan: the deviation of a single reading is NaN, and NaN is
    not below 0.75. *)
Theorem single_reading_reported_unstable (str_exn : exn -> string)
    fd l bat_df before r after t :
  no_data fd = false ->
  get_log fd "BAT" = Return l -> truthy l = true -> DataFrame l = Return bat_df ->
  has_col bat_df "Temp" = true -> object_column bat_df "Temp" = false ->
  records bat_df = (before ++ r :: after)%list ->
  cell_at "Temp" r = CNum t -> (0 < t)%Q ->
  (forall r' q, In r' (before ++ after) -> cell_at "Temp" r' = CNum q -> (q <= 0)%Q) ->
  check_battery_temp_stability str_exn fd
  = Return ("⚠️ The battery temperature fluctuated during the flight. Range: "
            +:+ fmt_2f t +:+ "°C to " +:+ fmt_2f t
            +:+ "°C (Total variation: 0.00°C; Std Dev: nan°C).").
Proof.
  intros Hd Hl Ht Hdf Hc Ho Hrows Hcell Hpos Hothers.
  assert (Hvalid : omap positive_temp (records bat_df) = [t]).
  { rewrite Hrows, omap_app.
    rewrite (omap_positive_none before)
      by (intros r' q Hr'; apply Hothers, in_or_app; now left).
    change (omap positive_temp (r :: after))
      with (match positive_temp r with
            | Some q => q :: omap positive_temp after
            | None => omap positive_temp after
            end).
    rewrite (proj2 (positive_temp_Some r t) (conj Hcell Hpos)).
    rewrite (omap_positive_none after)
      by (intros r' q Hr'; apply Hothers, in_or_app; now right).
    reflexivity. }
  rewrite (stability_verdict str_exn fd l bat_df t [] Hd Hl Ht Hdf Hc Ho Hvalid).
  change (sample_variance [t]) with NaN.
  rewrite andb_false_r. unfold TEMP_FLUCTUATED, list_max, list_min. cbn [foldl fmt_2f_std NaN].
  rewrite (fmt_2f_Qeq (t - t) 0) by ring.
  reflexivity.
Qed.

(** A log with a single usable reading of 24.5 degrees *)
Definition flight_with_one_reading : dataset :=
  Some {[ "BAT" := LRows [record_of [("Temp", CNum 0)];
                          record_of [("Temp", CNum (49 # 2))];
                          record_of [("Temp", CNull)]] ]}.

Lemma single_reading_reported_unstable_witness :
  check_battery_temp_stability sample_str_exn flight_with_one_reading
  = Return ("⚠️ The battery temperature fluctuated during the flight. Range: "
            +:+ fmt_2f (49 # 2) +:+ "°C to " +:+ fmt_2f (49 # 2)
            +:+ "°C (Total variation: 0.00°C; Std Dev: nan°C).")
  /\ fmt_2f (49 # 2) = "24.50".
Proof.
  split; [|vm_compute; reflexivity].
  apply (single_reading_reported_unstable sample_str_exn flight_with_one_reading _ _
           [record_of [("Temp", CNum 0)]] (record_of [("Temp", CNum (49 # 2))])
           [record_of [("Temp", CNull)]] (49 # 2)
           eq_refl (eq_refl : get_log flight_with_one_reading "BAT" = Return _)
           eq_refl eq_refl eq_refl eq_refl eq_refl eq_refl eq_refl).
  intros r' q [<-|[<-|[]]] Hq; [|discriminate Hq].
  injection Hq as <-. discriminate.
Defined.


(** Readings of 20.0 and 21.5 degrees, exactly 1.5 apart *)
Definition flight_with_spread : dataset :=
  Some {[ "BAT" := LRows [record_of [("Temp", CNum 20)];
                          record_of [("Temp", CNum (43 # 2))]] ]}.


Lemma Qsum_const (c : Q) (l : list Q) :
  (forall x, In x l -> (x == c)%Q) ->
  (Qsum l == inject_Z (Z.of_nat (length l)) * c)%Q.
Proof.
  induction l as [|x l IH]; intros H.
  - simpl. ring.
  - change (Qsum (x :: l)) with (x + Qsum l)%Q.
    change (length (x :: l)) with (S (length l)).
    rewrite IH by (intros y Hy; apply H; now right).
    rewrite (H x) by now left.
    rewrite Nat2Z.inj_succ. unfold Z.succ. rewrite inject_Z_plus.
    change (inject_Z 1) with 1%Q. ring.
Qed.

Lemma round_sqrt_Qeq x y : (x == y)%Q -> round_sqrt x = round_sqrt y.
Proof.
  intros H. unfold round_sqrt, Qlt_bool. rewrite (Qfloor_comp _ _ H). cbv zeta.
  rewrite (Qleb_comp _ _ (Qeq_refl _) _ _ H), (Qleb_comp _ _ H _ _ (Qeq_refl _)).
  reflexivity.
Qed.

(** The variance of readings that are all equal is zero. *)
Lemma sample_variance_const (c : Q) (l : list Q) :
  (2 <= length l)%nat -> (forall x, In x l -> (x == c)%Q) ->
  exists v, sample_variance l = Some v /\ (v == 0)%Q.
Proof.
  intros Hlen Hconst. unfold sample_variance.
  destruct (Z.ltb_spec (Z.of_nat (length l)) 2) as [Hlt|_]; [lia|].
  eexists. split; [reflexivity|].
  set (n := Z.of_nat (length l)).
  assert (Hn2 : (2 <= n)%Z) by (unfold n; lia).
  assert (Hn : ~ (inject_Z n == 0)%Q).
  { unfold Qeq, inject_Z. cbn [Qnum Qden]. lia. }
  assert (Hn1 : ~ (inject_Z (n - 1) == 0)%Q).
  { unfold Qeq, inject_Z. cbn [Qnum Qden]. lia. }
  assert (Hmean : (Qsum l / inject_Z n == c)%Q).
  { rewrite (Qsum_const c l Hconst). fold n. field. exact Hn. }
  set (mean := (Qsum l / inject_Z n)%Q) in *.
  assert (Hsq : (Qsum ((fun x => (x - mean) * (x - mean))%Q <$> l) == 0)%Q).
  { rewrite (Qsum_const 0).
    - ring.
    - intros y Hy. apply list_elem_of_In, list_elem_of_fmap in Hy as (x & -> & Hx).
      apply list_elem_of_In in Hx. rewrite (Hconst x Hx), Hmean. ring. }
  rewrite Hsq. field. exact Hn1.
Qed.

(** X8: when two or more readings of the BAT log are above zero and
    they are all equal, [check_battery_temp_stability] reports that the
    temperature remained constant, with a variation of 0.00 and a standard
    deviation of 0.00. *)
Theorem constant_readings_reported_stable (str_exn : exn -> string)
    fd l bat_df before r1 between r2 after c :
  no_data fd = false ->
  get_log fd "BAT" = Return l -> truthy l = true -> DataFrame l = Return bat_df ->
  has_col bat_df "Temp" = true -> object_column bat_df "Temp" = false ->
  records bat_df = (before ++ r1 :: between ++ r2 :: after)%list ->
  (exists q1, cell_at "Temp" r1 = CNum q1 /\ (0 < q1)%Q) ->
  (exists q2, cell_at "Temp" r2 = CNum q2 /\ (0 < q2)%Q) ->
  (forall r q, In r (records bat_df) -> cell_at "Temp" r = CNum q -> (0 < q)%Q ->
     (q == c)%Q) ->
  check_battery_temp_stability str_exn fd
  = Return "✅ The battery temperature remained relatively constant throughout the flight. The temperature varied by only ±0.00°C (Std Dev: 0.00°C).".
Proof.
  intros Hd Hl Ht Hdf Hc Ho Hrows (q1 & Hq1 & Hp1) (q2 & Hq2 & Hp2) Hconst.
  assert (Hall : forall x, In x (omap positive_temp (records bat_df)) -> (x == c)%Q).
  { intros x Hx. apply in_valid_temperatures in Hx as (r & Hr & Hq & Hp). eauto. }
  assert (Hlen : (2 <= length (omap positive_temp (records bat_df)))%nat).
  { rewrite Hrows, omap_app, length_app.
    change (omap positive_temp (r1 :: between ++ r2 :: after))
      with (match positive_temp r1 with
            | Some q => q :: omap positive_temp (between ++ r2 :: after)
            | None => omap positive_temp (between ++ r2 :: after)
            end).
    rewrite (proj2 (positive_temp_Some r1 q1) (conj Hq1 Hp1)).
    rewrite omap_app.
    change (omap positive_temp (r2 :: after))
      with (match positive_temp r2 with
            | Some q => q :: omap positive_temp after
            | None => omap positive_temp after
            end).
    rewrite (proj2 (positive_temp_Some r2 q2) (conj Hq2 Hp2)).
    cbn [length]. rewrite length_app. cbn [length]. lia. }
  destruct (omap positive_temp (records bat_df)) as [|t rest] eqn:Hvalid;
    [simpl in Hlen; lia|].
  rewrite (stability_verdict str_exn fd l bat_df t rest Hd Hl Ht Hdf Hc Ho Hvalid).
  destruct (list_max_spec rest t) as [Hmax_in _].
  destruct (list_min_spec rest t) as [Hmin_in _].
  assert (Hrange : (list_max t rest - list_min t rest == 0)%Q).
  { rewrite (Hall _ Hmax_in), (Hall _ Hmin_in). ring. }
  destruct (sample_variance_const c (t :: rest) Hlen Hall) as (v & Hv & Hzero).
  rewrite Hv. unfold std_below_075, flt, Qlt_bool.
  rewrite (Qleb_comp _ _ (Qeq_refl (3 # 2)) _ _ Hrange).
  rewrite (Qleb_comp _ _ (Qeq_refl (9 # 16)) _ _ Hzero).
  change (negb (Qle_bool (3 # 2) 0) && negb (Qle_bool (9 # 16) 0)) with true.
  cbv iota. unfold TEMP_STABLE, fmt_2f_std.
  assert (Hhalf : ((list_max t rest - list_min t rest) / 2 == 0)%Q)
    by (rewrite Hrange; reflexivity).
  rewrite (fmt_2f_Qeq _ 0 Hhalf).
  assert (Hcents : (v * 10000 == 0)%Q) by (rewrite Hzero; ring).
  rewrite (round_sqrt_Qeq _ 0 Hcents).
  reflexivity.
Qed.

(** Three readings of 22 degrees and one of zero *)
Definition flight_with_constant_readings : dataset :=
  Some {[ "BAT" := LRows [record_of [("Temp", CNum 22)]; record_of [("Temp", CNum 0)];
                          record_of [("Temp", CNum 22)]; record_of [("Temp", CNum 22)]] ]}.

Lemma constant_readings_reported_stable_witness :
  check_battery_temp_stability sample_str_exn flight_with_constant_readings
  = Return "✅ The battery temperature remained relatively constant throughout the flight. The temperature varied by only ±0.00°C (Std Dev: 0.00°C).".
Proof.
  apply (constant_readings_reported_stable sample_str_exn flight_with_constant_readings
           _ _ [] (record_of [("Temp", CNum 22)]) [record_of [("Temp", CNum 0)]]
           (record_of [("Temp", CNum 22)]) [record_of [("Temp", CNum 22)]] 22
           eq_refl (eq_refl : get_log flight_with_constant_readings "BAT" = Return _)
           eq_refl eq_refl eq_refl eq_refl eq_refl).
  - exists 22%Q. split; reflexivity.
  - exists 22%Q. split; reflexivity.
  - intros r q [<-|[<-|[<-|[<-|[]]]]] Hq Hp; injection Hq as <-;
      first [reflexivity | discriminate Hp].
Defined.

(* ===================================================================== *)
(** ** The total flight time *)
(* ===================================================================== *)

(** [idxmin] and [min]: the reduction ends on an element of least
    value; NaN is passed over. *)
Lemma arg_min_bound {A} (l : list (pyfloat * A)) : forall best,
  match arg_best Qlt_bool best l with
  | Some (m, x) =>
      (forall v y, In (Some v, y) l -> (m <= v)%Q)
      /\ (forall b y, best = Some (b, y) -> (m <= b)%Q)
      /\ (best = Some (m, x) \/ In (Some m, x) l)
  | None => best = None /\ forall v y, ~ In (Some v, y) l
  end.
Proof.
  induction l as [|[[v|] a] l IH]; intros best.
  - cbn [arg_best]. destruct best as [[b y]|].
    + split_conj; [intros ? ? [] | intros ? ? [= -> _]; apply Qle_refl | now left].
    + split; [reflexivity | intros ? ? []].
  - cbn [arg_best].
    assert (Hnew :
      match arg_best Qlt_bool (Some (v, a)) l with
      | Some (m, x) =>
          (forall v' y, In (Some v', y) ((Some v, a) :: l) -> (m <= v')%Q)
          /\ In (Some m, x) ((Some v, a) :: l)
      | None => False
      end).
    { specialize (IH (Some (v, a))).
      destruct (arg_best Qlt_bool (Some (v, a)) l) as [[m x]|]; [|now destruct IH].
      destruct IH as (Hall & Hbest & Hsrc).
      pose proof (Hbest v a eq_refl) as Hvm.
      split.
      - intros v' y [[= <- <-]|Hin]; [exact Hvm | exact (Hall _ _ Hin)].
      - destruct Hsrc as [[= <- <-] | Hin]; [now left | now right]. }
    destruct best as [[b y]|].
    + destruct (Qlt_bool v b) eqn:E.
      * destruct (arg_best Qlt_bool (Some (v, a)) l) as [[m x]|]; [|contradiction].
        destruct Hnew as (Hall & Hin).
        apply Qlt_bool_iff in E. pose proof (Hall v a (or_introl eq_refl)) as Hmv.
        split_conj; [exact Hall | intros ? ? [= <- _]; lra | now right].
      * clear Hnew. specialize (IH (Some (b, y))).
        apply Qlt_bool_false in E.
        destruct (arg_best Qlt_bool (Some (b, y)) l) as [[m x]|]; [|now destruct IH].
        destruct IH as (Hall & Hbest & Hsrc).
        pose proof (Hbest b y eq_refl) as Hbm.
        split_conj; [| exact Hbest |].
        -- intros v' y' [[= <- <-]|Hin]; [lra | exact (Hall _ _ Hin)].
        -- destruct Hsrc as [Hsame | Hin]; [now left | right; now right].
    + destruct (arg_best Qlt_bool (Some (v, a)) l) as [[m x]|]; [|contradiction].
      destruct Hnew as (Hall & Hin).
      split_conj; [exact Hall | discriminate | now right].
  - cbn [arg_best]. specialize (IH best).
    destruct (arg_best Qlt_bool best l) as [[m x]|].
    + destruct IH as (Hall & Hbest & Hsrc).
      split_conj; [| exact Hbest |].
      * intros v y [Heq|Hin]; [discriminate | exact (Hall _ _ Hin)].
      * destruct Hsrc as [Hsame | Hin]; [now left | right; now right].
    + destruct IH as [Hb Hnone]. split; [exact Hb|].
      intros v y [Heq|Hin]; [discriminate | exact (Hnone _ _ Hin)].
Qed.

(** The numbers of a column, as the reductions see them *)
Lemma in_float_cells (c : string) (rows : list (gmap string cell)) (q : Q) :
  In (Some q, ()) ((fun r => (float_cell (cell_at c r), ())) <$> rows)
  <-> exists r, In r rows /\ cell_at c r = CNum q.
Proof.
  rewrite <- list_elem_of_In, list_elem_of_fmap. split.
  - intros (r & [= Hq] & Hr). exists r. rewrite <- list_elem_of_In.
    split; [exact Hr | now apply float_cell_Some].
  - intros (r & Hr & Hq). exists r. rewrite list_elem_of_In.
    split; [now rewrite Hq | exact Hr].
Qed.

(** [df[c].min()] and [df[c].max()] on a column without strings that
    holds a number *)
Lemma column_min_numeric df c :
  object_column df c = false ->
  (exists r q, In r (records df) /\ cell_at c r = CNum q) ->
  exists m,
    column_extreme Qlt_bool df c = Return (Some m)
    /\ (exists r, In r (records df) /\ cell_at c r = CNum m)
    /\ forall r q, In r (records df) -> cell_at c r = CNum q -> (m <= q)%Q.
Proof.
  intros Ho (r0 & q0 & Hr0 & Hq0). unfold column_extreme. rewrite Ho.
  pose proof (arg_min_bound ((fun r => (float_cell (cell_at c r), ())) <$> records df) None)
    as H.
  destruct (arg_best Qlt_bool None _) as [[m []]|].
  - destruct H as (Hall & _ & [Hnone|Hin]); [discriminate|].
    exists m. split_conj; [reflexivity | now apply in_float_cells |].
    intros r q Hr Hq. apply (Hall q ()), in_float_cells. eauto.
  - destruct H as [_ Hnone]. exfalso. apply (Hnone q0 ()), in_float_cells. eauto.
Qed.

Lemma column_max_numeric df c :
  object_column df c = false ->
  (exists r q, In r (records df) /\ cell_at c r = CNum q) ->
  exists m,
    column_extreme (fun a b => Qlt_bool b a) df c = Return (Some m)
    /\ (exists r, In r (records df) /\ cell_at c r = CNum m)
    /\ forall r q, In r (records df) -> cell_at c r = CNum q -> (q <= m)%Q.
Proof.
  intros Ho (r0 & q0 & Hr0 & Hq0). unfold column_extreme. rewrite Ho.
  pose proof (arg_max_first ((fun r => (float_cell (cell_at c r), ())) <$> records df) None)
    as H.
  destruct (arg_best _ None _) as [[m []]|].
  - destruct H as (Hall & _ & [Hnone|(l1 & l2 & Hl & _)]); [discriminate|].
    exists m. split_conj; [reflexivity | |].
    + apply in_float_cells. rewrite Hl. apply in_elt.
    + intros r q Hr Hq. apply (Hall q ()), in_float_cells. eauto.
  - destruct H as [_ Hnone]. exfalso. apply (Hnone q0 ()), in_float_cells. eauto.
Qed.

(** The divisor of a time field is a thousand or a million. *)
Lemma time_divisor_positive df tc divisor :
  _get_time_column_and_divisor df = (Some tc, divisor) ->
  divisor = 1000000%Z \/ divisor = 1000%Z.
Proof.
  unfold _get_time_column_and_divisor, TIME_COLUMNS_DIVISORS. cbn [List.find fst].
  destruct (has_col df "TimeUS"); [intros [= _ <-]; now left|].
  destruct (has_col df "time_boot_ms"); [intros [= _ <-]; now right|].
  destruct (has_col df "TimeMS"); [intros [= _ <-]; now right | discriminate].
Qed.


(** GPS rows logged out of order, from 2 s to 127.5 s *)
Definition flight_of_two_minutes : dataset :=
  Some {[ "GPS" := LRows [record_of [("TimeUS", CNum 60000000)];
                          record_of [("TimeUS", CNum 127500000)];
                          record_of [("TimeUS", CNum 2000000)]] ]}.


(* ===================================================================== *)
(** ** Flight mode changes *)
(* ===================================================================== *)

Section ModeChanges.

Variable str_exn : exn -> string.
Variable str_cell : cell -> string.
Variable int_of_str : string -> option Z.

(** The mode number of a row of the MODE log *)
Definition mode_num (row : pyfloat * gmap string cell) : cell :=
  cell_at "ModeNum" row.2.

(** A row with a time and a mode number that are both numbers *)
Definition numeric_mode_row (row : pyfloat * gmap string cell) : Prop :=
  exists t n, row.1 = Some t /\ mode_num row = CNum n.

(** The line of a listed row *)
Definition mode_line (has_text : bool) (row : pyfloat * gmap string cell) : string :=
  match row.1, mode_num row with
  | Some t, CNum n =>
      "• `" +:+ (if has_text then str_cell (cell_at "ModeText" row.2)
                 else "Mode " +:+ str_int (trunc n))
      +:+ "` at " +:+ time_text t
  | _, _ => EmptyString
  end.

(** The rows whose mode differs from the mode of the row just before
    them, the first row included: [previous] is the mode of the row before
    the list. *)
Fixpoint adjacent_changes (has_text : bool) (previous : option cell)
    (rows : list (pyfloat * gmap string cell)) : list string :=
  match rows with
  | [] => []
  | row :: rest =>
      if match previous with
         | None => true
         | Some p => cell_neq (mode_num row) p
         end
      then mode_line has_text row :: adjacent_changes has_text (Some (mode_num row)) rest
      else adjacent_changes has_text (Some (mode_num row)) rest
  end.

(** The mode that the loop remembers and the mode of the row before
    the current one are equal numbers. *)
Definition same_mode (remembered before : option cell) : Prop :=
  match remembered, before with
  | None, None => True
  | Some (CNum p), Some (CNum q) => (p == q)%Q
  | _, _ => False
  end.

Lemma mode_change_loop_adjacent has_text rows : forall remembered before,
  Forall numeric_mode_row rows ->
  same_mode remembered before ->
  mode_change_loop str_cell int_of_str has_text rows remembered
  = Return (adjacent_changes has_text before rows).
Proof.
  induction rows as [|[time row] rows IH]; intros remembered before Hrows Hsame;
    [reflexivity|].
  apply Forall_cons in Hrows as [(t & n & Ht & Hn) Hrows].
  cbn [fst] in Ht. subst time. unfold mode_num in Hn. cbn [snd] in Hn.
  cbn [mode_change_loop adjacent_changes]. unfold mode_num. cbn [snd].
  rewrite Hn. cbn [is_na].
  assert (Hlisted :
    (timestamp ← _format_time_string (Some t);
     k ← py_int int_of_str (CNum n);
     lines ← mode_change_loop str_cell int_of_str has_text rows (Some (CNum n));
     Return (("• `" +:+ (if has_text then str_cell (cell_at "ModeText" row)
                         else "Mode " +:+ str_int k)
              +:+ "` at " +:+ timestamp) :: lines))
    = Return (mode_line has_text (Some t, row)
              :: adjacent_changes has_text (Some (CNum n)) rows)).
  { rewrite format_time_text. run. cbn [py_int]. run.
    rewrite (IH (Some (CNum n)) (Some (CNum n)) Hrows) by (simpl; reflexivity).
    unfold mode_line, mode_num. cbn [fst snd]. rewrite Hn. reflexivity. }
  destruct remembered as [[p| |]|], before as [[q| |]|]; try contradiction; cbn [same_mode] in Hsame.
  - cbn [cell_neq]. rewrite (Qeqb_comp _ _ (Qeq_refl n) _ _ Hsame).
    destruct (Qeq_bool n q) eqn:E; cbn [negb].
    + apply IH; [exact Hrows|]. apply Qeq_bool_iff in E.
      change (p == n)%Q. apply (Qeq_trans _ q); [exact Hsame | apply Qeq_sym; exact E].
    + exact Hlisted.
  - exact Hlisted.
Qed.

(** X10: on a MODE log whose rows all have a numeric time and a numeric
    ModeNum, [list_mode_changes] sorts the rows by time and lists a row
    exactly when it is the first one or its ModeNum differs from the
    ModeNum of the row just before it: a mode logged several times in a
    row is listed once, and a mode that is entered again later is listed
    again. *)
Theorem mode_changes_adjacent fd l mode_df tc divisor times :
  no_data fd = false ->
  get_log fd "MODE" = Return l -> truthy l = true ->
  mode_frame l = Return (Some mode_df) ->
  has_col mode_df "ModeNum" = true ->
  _get_time_column_and_divisor mode_df = (Some tc, divisor) ->
  rows_div mode_df tc divisor (records mode_df) = Return times ->
  let sorted := sort_values fst (zip times (records mode_df)) in
  Forall numeric_mode_row sorted ->
  let mode_changes := adjacent_changes (has_col mode_df "ModeText") None sorted in
  list_mode_changes str_exn str_cell int_of_str fd
  = Return (match mode_changes with
            | [] => "✅ No flight mode changes were detected during the flight."
            | _ :: _ => "### 📋 Flight Mode Changes Detected" +:+ LF +:+ LF
                        +:+ join LF mode_changes
            end)
  /\ (forall first rest, sorted = first :: rest ->
        exists later,
          mode_changes = mode_line (has_col mode_df "ModeText") first :: later).
Proof.
  intros Hd Hl Ht Hframe Hnum Htc Htimes sorted Hrows mode_changes. split.
  - unfold list_mode_changes.
    rewrite Hd, (get_log_truthy _ _ _ Hl), Ht, Hl. run. rewrite Hframe. run.
    rewrite Hnum. run. rewrite Htc, Htimes. run. fold sorted.
    rewrite (mode_change_loop_adjacent _ sorted None None Hrows I). run.
    fold mode_changes. destruct mode_changes; reflexivity.
  - intros first rest Hsorted. unfold mode_changes. rewrite Hsorted.
    cbn [adjacent_changes]. eexists. reflexivity.
Qed.

End ModeChanges.

Definition numeric_mode_row_b (row : pyfloat * gmap string cell) : bool :=
  match row.1, mode_num row with
  | Some _, CNum _ => true
  | _, _ => false
  end.

Lemma numeric_mode_rows_b rows :
  forallb numeric_mode_row_b rows = true -> Forall numeric_mode_row rows.
Proof.
  intros H. apply List.Forall_forall. intros [time row] Hin.
  apply (proj1 (forallb_forall _ _) H) in Hin.
  unfold numeric_mode_row_b, mode_num in Hin. cbn [fst snd] in Hin.
  destruct time as [t|]; [|discriminate Hin].
  destruct (cell_at "ModeNum" row) as [n| |] eqn:E; try discriminate Hin.
  exists t, n. split; [reflexivity | exact E].
Qed.

(** Modes 0, 0, 5, 5, 0 at 0 s to 4 s, logged out of order: three
    changes are listed, mode 0 twice. *)
Definition flight_with_modes : dataset :=
  Some {[ "MODE" := LRows [record_of [("TimeUS", CNum 2000000); ("ModeNum", CNum 5)];
                           record_of [("TimeUS", CNum 0); ("ModeNum", CNum 0)];
                           record_of [("TimeUS", CNum 1000000); ("ModeNum", CNum 0)];
                           record_of [("TimeUS", CNum 4000000); ("ModeNum", CNum 0)];
                           record_of [("TimeUS", CNum 3000000); ("ModeNum", CNum 5)]] ]}.

Lemma mode_changes_adjacent_witness :
  list_mode_changes sample_str_exn sample_str_cell sample_int_of_str flight_with_modes
  = Return ("### 📋 Flight Mode Changes Detected" +:+ LF +:+ LF
            +:+ join LF ["• `Mode 0` at 00:00 (0.00 seconds raw)";
                         "• `Mode 5` at 00:02 (2.00 seconds raw)";
                         "• `Mode 0` at 00:04 (4.00 seconds raw)"]).
Proof.
  destruct (mode_changes_adjacent sample_str_exn sample_str_cell sample_int_of_str
              flight_with_modes _ _ "TimeUS" 1000000%Z _
              eq_refl (eq_refl : get_log flight_with_modes "MODE" = Return _)
              eq_refl eq_refl eq_refl eq_refl eq_refl) as [Htool _].
  - apply numeric_mode_rows_b. vm_compute. reflexivity.
  - rewrite Htool. vm_compute. reflexivity.
Defined.

(* ===================================================================== *)
(** ** The snapshot of raw telemetry *)
(* ===================================================================== *)

(** A series handed to the language model: at most 200 values, none of
    them null *)
Definition series_bounded (s : list cell) : Prop :=
  (length s <= 200)%nat /\ Forall (fun c => is_na c = false) s.

Definition telemetry_bounded (t : telemetry) : Prop :=
  (forall s, altitude_m t = Some s -> series_bounded s)
  /\ (forall sats hdop, gps_quality t = Some (sats, hdop) ->
        series_bounded sats /\ series_bounded hdop)
  /\ (forall volt temp, battery t = Some (volt, temp) ->
        (forall s, volt = Some s -> series_bounded s)
        /\ (forall s, temp = Some s -> series_bounded s))
  /\ (forall s, rc_throttle_input t = Some s -> series_bounded s).

Lemma snapshot_bounded c rows : series_bounded (snapshot c rows).
Proof.
  unfold snapshot, series_bounded. split.
  - rewrite length_take. lia.
  - apply Forall_take, List.Forall_forall. intros x Hx.
    apply filter_In in Hx as [_ Hx]. now apply negb_true_iff in Hx.
Qed.

Section RawTelemetry.

Variable str_exn : exn -> string.
Variable str_telemetry : telemetry -> string.

Definition NO_TELEMETRY : string :=
  "No relevant telemetry data (BARO, GPS, BAT, RCIN) found in the flight log for summarization.".

Definition telemetry_error (e : exn) : string :=
  match e with
  | KeyError _ =>
      "Error: Missing expected column in telemetry data: '" +:+ str_exn e
      +:+ "'. Please ensure log integrity."
  | _ =>
      "An unexpected error occurred while summarizing telemetry data: " +:+ str_exn e
  end.

(** The three answers of the tool once flight data is loaded *)
Definition telemetry_answers (answer : outcome string) : Prop :=
  (exists t,
      answer = Return ("Here is a summary of key telemetry data points:" +:+ LF
                       +:+ str_telemetry t)
      /\ telemetry_bounded t)
  \/ answer = Return NO_TELEMETRY
  \/ (exists e, answer = Return (telemetry_error e)).

Lemma telemetry_answer_found (nothing : bool) altitude quality battery_data throttle
    (handler : exn -> outcome string) :
  (forall s, altitude = Some s -> series_bounded s) ->
  (forall sats hdop, quality = Some (sats, hdop) ->
     series_bounded sats /\ series_bounded hdop) ->
  (forall volt temp, battery_data = Some (volt, temp) ->
     (forall s, volt = Some s -> series_bounded s)
     /\ (forall s, temp = Some s -> series_bounded s)) ->
  (forall s, throttle = Some s -> series_bounded s) ->
  telemetry_answers
    (catch (if nothing then Return NO_TELEMETRY
            else Return ("Here is a summary of key telemetry data points:" +:+ LF
                         +:+ str_telemetry
                               (Telemetry altitude quality battery_data throttle)))
           handler).
Proof.
  intros Ha Hq Hb Ht. destruct nothing; cbn [catch].
  - right. left. reflexivity.
  - left. eexists. split; [reflexivity|].
    unfold telemetry_bounded. cbn [altitude_m gps_quality battery rc_throttle_input].
    split; [exact Ha|]. split; [exact Hq|]. split; [exact Hb | exact Ht].
Qed.

Lemma telemetry_answer_raised (e : exn) :
  telemetry_answers
    (match e with
     | KeyError _ =>
         Return ("Error: Missing expected column in telemetry data: '" +:+ str_exn e
                 +:+ "'. Please ensure log integrity.")
     | _ =>
         Return ("An unexpected error occurred while summarizing telemetry data: "
                 +:+ str_exn e)
     end).
Proof. right. right. exists e. destruct e; reflexivity. Qed.

Lemma optional_snapshot_bounded (b : bool) c rows s :
  (if b then Some (snapshot c rows) else None) = Some s -> series_bounded s.
Proof. destruct b; [intros [= <-]; apply snapshot_bounded | discriminate]. Qed.

Ltac telemetry_log name :=
  destruct (has_truthy_log _ name); run;
  [ match goal with
    | |- context [get_log ?fd name] =>
        destruct (get_log fd name) as [?l|?e]; run;
        [ match goal with
          | |- context [DataFrame ?l0] => destruct (DataFrame l0) as [?df|?e]; run
          end
        | ]
    end
  | ];
  try apply telemetry_answer_raised.

Ltac telemetry_side :=
  intros;
  repeat match goal with
         | H : (_, _) = (_, _) |- _ => injection H as ? ?; subst
         | H : Some (_, _) = Some (_, _) |- _ => injection H as ? ?; subst
         | H : None = Some _ |- _ => discriminate H
         | H : Some _ = Some _ |- _ => injection H as ?; subst
         | H : (if ?b && ?b' then _ else _) = Some _ |- _ => destruct b, b'; cbn [andb] in H
         | H : match ?o with Some _ => _ | None => _ end = Some _ |- _ => destruct o
         | |- _ /\ _ => split; intros
         end;
  first [ apply snapshot_bounded
        | eapply optional_snapshot_bounded; eassumption ].

(** X11: with flight data loaded, [analyze_raw_telemetry] gives one of
    three answers: the summary of a snapshot in which every series
    (altitude, satellites, HDop, voltage, temperature, throttle) holds at
    most 200 values and no null; the message that no relevant telemetry
    was found; or the message of an error. *)
Theorem raw_telemetry_bounded fd :
  no_data fd = false ->
  telemetry_answers (analyze_raw_telemetry str_exn str_telemetry fd).
Proof.
  intros Hd. unfold analyze_raw_telemetry, truthy_frame. rewrite Hd.
  telemetry_log "BARO".
  all: telemetry_log "GPS".
  all: telemetry_log "BAT".
  all: try match goal with
           | |- context [column_gt ?df "Temp" ?k] =>
               destruct (has_col df "Temp");
               [destruct (column_gt df "Temp" k) as [?mask|?e]|];
               destruct (has_col df "Volt"); run;
               try apply telemetry_answer_raised
           end.
  all: telemetry_log "RCIN".
  all: match goal with
       | |- telemetry_answers (catch (if ?b then _ else _) ?h) =>
           match goal with
           | |- context [Telemetry ?a ?q ?bat ?t] =>
               apply (telemetry_answer_found b a q bat t h)
           end
       end.
  all: telemetry_side.
Qed.

End RawTelemetry.

Lemma raw_telemetry_bounded_witness :
  no_data flight_with_climb = false
  /\ analyze_raw_telemetry sample_str_exn sample_str_telemetry flight_with_climb
     = Return ("Here is a summary of key telemetry data points:" +:+ LF +:+ "{...}")
  /\ telemetry_answers sample_str_exn sample_str_telemetry
       (analyze_raw_telemetry sample_str_exn sample_str_telemetry flight_with_climb).
Proof.
  split; [reflexivity|]. split; [vm_compute; reflexivity|].
  apply (raw_telemetry_bounded sample_str_exn sample_str_telemetry flight_with_climb).
  reflexivity.
Defined.

(* ===================================================================== *)
(** ** Failsafes triggered by sensors *)
(* ===================================================================== *)

Lemma cell_isin_number ks c :
  cell_isin ks c = true ->
  exists q k, c = CNum q /\ In k ks /\ (q == inject_Z k)%Q.
Proof.
  unfold cell_isin. intros H. apply existsb_exists in H as (k & Hk & H).
  destruct c as [q| |]; cbn [cell_eq_num] in H; try discriminate.
  exists q, k. split_conj; auto. now apply Qeq_bool_iff.
Qed.

(** A number equal to an integer key finds the entry of that key. *)
Lemma map_get_integer table q k fallback :
  (q == inject_Z k)%Q ->
  map_get table (CNum q) fallback = default fallback (table !! k).
Proof.
  intros H. unfold map_get.
  rewrite (Qfloor_comp _ _ H), Qfloor_Z.
  apply Qeq_bool_iff in H. now rewrite H.
Qed.

Definition SENSOR_NAMES : list string :=
  ["Compass"; "Accelerometer"; "Barometer"; "EKF (Extended Kalman Filter)"; "Gyroscope"].

Definition FAILSAFE_CODES : list string :=
  ["Error status"; "Critical"; "Failsafe activated"].

(** The test of [detect_sensor_triggered_failsafe] on one ERR row *)
Definition sensor_failsafe_row (r : gmap string cell) : bool :=
  cell_isin [3; 5; 6; 8; 22]%Z (cell_at "Subsys" r)
  && cell_isin [1; 3; 4]%Z (cell_at "ECode" r).

Lemma sensor_name_known c fallback :
  cell_isin [3; 5; 6; 8; 22]%Z c = true ->
  In (map_get SUBSYSTEM_MAP c fallback) SENSOR_NAMES.
Proof.
  intros H. apply cell_isin_number in H as (q & k & -> & Hk & Hq).
  rewrite (map_get_integer _ _ _ _ Hq). unfold SENSOR_NAMES.
  destruct Hk as [<-|[<-|[<-|[<-|[<-|[]]]]]]; vm_compute; tauto.
Qed.

Lemma failsafe_code_known c fallback :
  cell_isin [1; 3; 4]%Z c = true ->
  In (map_get ERROR_CODE_MAP c fallback) FAILSAFE_CODES.
Proof.
  intros H. apply cell_isin_number in H as (q & k & -> & Hk & Hq).
  rewrite (map_get_integer _ _ _ _ Hq). unfold FAILSAFE_CODES.
  destruct Hk as [<-|[<-|[<-|[]]]]; vm_compute; tauto.
Qed.

Section SensorFailsafe.

Variable str_exn : exn -> string.
Variable str_cell : cell -> string.

(** What a line of the answer says about its row *)
Definition failsafe_line_of (time_field : string) (r : gmap string cell)
    (line : string) : Prop :=
  exists raw name code,
    cell_at time_field r = CNum raw
    /\ In name SENSOR_NAMES /\ In code FAILSAFE_CODES
    /\ line = "• At "
              +:+ (str_int (divmod60 (raw / inject_Z (inline_divisor time_field))).1
                   +:+ ":"
                   +:+ fmt_2f (divmod60 (raw / inject_Z (inline_divisor time_field))).2)
              +:+ ", " +:+ name +:+ " triggered a failsafe: " +:+ code.

Lemma failsafe_message_numeric df time_field r raw :
  first_column INLINE_TIME_COLUMNS df = Some time_field ->
  cell_at time_field r = CNum raw ->
  failsafe_message str_cell df r
  = Return ("• At "
            +:+ (str_int (divmod60 (raw / inject_Z (inline_divisor time_field))).1
                 +:+ ":"
                 +:+ fmt_2f (divmod60 (raw / inject_Z (inline_divisor time_field))).2)
            +:+ ", "
            +:+ map_get SUBSYSTEM_MAP (cell_at "Subsys" r)
                  ("Subsystem " +:+ str_cell (cell_at "Subsys" r))
            +:+ " triggered a failsafe: "
            +:+ map_get ERROR_CODE_MAP (cell_at "ECode" r)
                  ("Code " +:+ str_cell (cell_at "ECode" r))).
Proof.
  intros Htf Hraw. unfold failsafe_message. rewrite Htf. run.
  rewrite (scalar_div_num _ _ _ _ _ Hraw). run.
  destruct (divmod60 (raw / inject_Z (inline_divisor time_field))) as [m sec].
  reflexivity.
Qed.

Lemma failsafe_messages df time_field rows :
  first_column INLINE_TIME_COLUMNS df = Some time_field ->
  Forall (fun r => sensor_failsafe_row r = true
                   /\ exists raw, cell_at time_field r = CNum raw) rows ->
  exists lines,
    for_each (failsafe_message str_cell df) rows = Return lines
    /\ Forall2 (failsafe_line_of time_field) rows lines.
Proof.
  intros Htf. induction 1 as [|r rows [Hrow (raw & Hraw)] _ (lines & Hlines & HF)].
  - exists []. split; [reflexivity | constructor].
  - unfold sensor_failsafe_row in Hrow. apply andb_prop in Hrow as [Hs Hc].
    eexists (_ :: lines). split.
    + cbn [for_each]. rewrite (failsafe_message_numeric _ _ _ _ Htf Hraw). run.
      rewrite Hlines. reflexivity.
    + constructor; [|exact HF].
      exists raw,
        (map_get SUBSYSTEM_MAP (cell_at "Subsys" r)
                 ("Subsystem " +:+ str_cell (cell_at "Subsys" r))),
        (map_get ERROR_CODE_MAP (cell_at "ECode" r)
                 ("Code " +:+ str_cell (cell_at "ECode" r))).
      split; [exact Hraw|].
      split; [exact (sensor_name_known _ _ Hs)|].
      split; [exact (failsafe_code_known _ _ Hc)|].
      reflexivity.
Qed.

(** X12: on an ERR log given as a non-empty list of rows with the fields
    Subsys, ECode and a time field, [detect_sensor_triggered_failsafe]
    reports exactly the rows whose Subsys is one of 3, 5, 6, 8, 22 and
    whose ECode is one of 1, 3, 4: one line for each such row, in the
    order of the log, repeated pairs included.  The sensor and the status
    named in a line always come from the two tables of the module; the
    fallback names for unknown codes are never used.  With no such row the
    tool says that no sensor-triggered failsafe occurred. *)
Theorem sensor_failsafes_listed fd first rest df time_field :
  no_data fd = false ->
  get_log fd "ERR" = Return (LRows (first :: rest)) ->
  DataFrame (LRows (first :: rest)) = Return df ->
  has_col df "Subsys" = true -> has_col df "ECode" = true ->
  first_column INLINE_TIME_COLUMNS df = Some time_field ->
  let triggered := List.filter sensor_failsafe_row (records df) in
  Forall (fun r => exists raw, cell_at time_field r = CNum raw) triggered ->
  (triggered = [] ->
   detect_sensor_triggered_failsafe str_exn str_cell fd
   = Return "No sensor-triggered failsafes occurred during the flight.")
  /\ (triggered <> [] ->
      exists lines,
        Forall2 (failsafe_line_of time_field) triggered lines
        /\ detect_sensor_triggered_failsafe str_exn str_cell fd
           = Return (join LF lines)).
Proof.
  intros Hd Hl Hdf Hs Hc Htf triggered Htimes.
  assert (Hfilter :
    List.filter (fun r => cell_isin [1; 3; 4]%Z (cell_at "ECode" r))
      (List.filter (fun r => cell_isin [3; 5; 6; 8; 22]%Z (cell_at "Subsys" r))
                   (records df))
    = triggered).
  { unfold triggered, sensor_failsafe_row. clear.
    induction (records df) as [|r rs IH]; [reflexivity|].
    cbn [List.filter].
    destruct (cell_isin [3; 5; 6; 8; 22]%Z (cell_at "Subsys" r)); cbn [andb List.filter];
      [|exact IH].
    destruct (cell_isin [1; 3; 4]%Z (cell_at "ECode" r)); now rewrite IH. }
  assert (Hshape :
    detect_sensor_triggered_failsafe str_exn str_cell fd
    = catch
        match triggered with
        | [] => Return "No sensor-triggered failsafes occurred during the flight."
        | _ :: _ =>
            messages ← for_each (failsafe_message str_cell df) triggered;
            Return (join LF messages)
        end
        (fun e => Return ("❌ Internal error while detecting sensor failsafes: "
                          +:+ str_exn e))).
  { unfold detect_sensor_triggered_failsafe.
    rewrite Hd, (get_log_has_log _ _ _ Hl), Hl. run. rewrite Hdf. run.
    rewrite Hs, Hc. run. rewrite Hfilter. reflexivity. }
  rewrite Hshape. split.
  - intros ->. reflexivity.
  - intros Hne.
    destruct (failsafe_messages df time_field triggered Htf) as (lines & Hlines & HF).
    { apply List.Forall_forall. intros r Hr. split.
      - unfold triggered in Hr. now apply filter_In in Hr as [_ Hr].
      - rewrite List.Forall_forall in Htimes. now apply Htimes. }
    exists lines. split; [exact HF|].
    destruct triggered; [contradiction|]. rewrite Hlines. reflexivity.
Qed.

End SensorFailsafe.

(** A compass error logged twice and an EKF failsafe; the radio failsafe
    (subsystem 5 of the ERR log, which this tool names Accelerometer) with
    status 2 is not reported. *)
Definition err_sensor_rows : list (gmap string cell) :=
  [record_of [("TimeUS", CNum 1000000); ("Subsys", CNum 3); ("ECode", CNum 1)];
   record_of [("TimeUS", CNum 2000000); ("Subsys", CNum 5); ("ECode", CNum 2)];
   record_of [("TimeUS", CNum 61500000); ("Subsys", CNum 3); ("ECode", CNum 1)];
   record_of [("TimeUS", CNum 90000000); ("Subsys", CNum 8); ("ECode", CNum 4)]].

Definition flight_with_sensor_errors : dataset := Some {[ "ERR" := LRows err_sensor_rows ]}.

Lemma sensor_failsafes_listed_witness :
  detect_sensor_triggered_failsafe sample_str_exn sample_str_cell flight_with_sensor_errors
  = Return (join LF ["• At 0:1.00, Compass triggered a failsafe: Error status";
                     "• At 1:1.50, Compass triggered a failsafe: Error status";
                     "• At 1:30.00, EKF (Extended Kalman Filter) triggered a failsafe: Failsafe activated"])
  /\ exists lines,
       length lines = 3%nat
       /\ detect_sensor_triggered_failsafe sample_str_exn sample_str_cell
            flight_with_sensor_errors
          = Return (join LF lines).
Proof.
  split; [vm_compute; reflexivity|].
  destruct (sensor_failsafes_listed sample_str_exn sample_str_cell
              flight_with_sensor_errors _ _ _ "TimeUS"
              eq_refl (eq_refl : get_log flight_with_sensor_errors "ERR" = Return (LRows err_sensor_rows))
              eq_refl eq_refl eq_refl eq_refl) as [_ Hsome].
  - repeat (constructor; [eexists; reflexivity|]). constructor.
  - destruct Hsome as (lines & HF & Htool); [discriminate|].
    exists lines. split; [|exact Htool].
    apply Forall2_length in HF. rewrite <- HF. reflexivity.
Defined.

(* ===================================================================== *)
(** ** The GPS health report *)
(* ===================================================================== *)

Section GpsHealth.

Variable str_exn : exn -> string.
Variable str_cell : cell -> string.
Variable str_telemetry : telemetry -> string.

Definition GPS_HEALTH_REPORT (first_loss duration raw_telemetry : string) : string :=
  "---## GPS Signal Health Summary" +:+ LF +:+ LF
  +:+ "📍 **First GPS Degradation Event**: " +:+ first_loss +:+ LF +:+ LF
  +:+ "⏱️ **Total Degradation Duration**: " +:+ duration +:+ LF +:+ LF
  +:+ "📊 **Raw GPS Telemetry Snapshot for Further Analysis**:" +:+ LF
  +:+ raw_telemetry.

(** X13: whatever the flight data, [analyze_gps_health] returns the
    report that puts together the answers of [find_first_gps_loss],
    [get_gps_degradation_duration] and [analyze_raw_telemetry] on the same
    data, in this order; its own error message is never returned, because
    none of the three raises.  Without flight data the report holds the
    three messages of these tools for missing data. *)
Theorem gps_health_composes fd :
  (exists first_loss duration raw_telemetry,
      find_first_gps_loss str_exn str_cell fd = Return first_loss
      /\ get_gps_degradation_duration str_exn fd = Return duration
      /\ analyze_raw_telemetry str_exn str_telemetry fd = Return raw_telemetry
      /\ analyze_gps_health str_exn str_cell str_telemetry fd
         = Return (GPS_HEALTH_REPORT first_loss duration raw_telemetry))
  /\ (no_data fd = true ->
      analyze_gps_health str_exn str_cell str_telemetry fd
      = Return (GPS_HEALTH_REPORT NO_FLIGHT_DATA NO_FLIGHT_DATA
                  "No flight data loaded. Cannot summarize telemetry.")).
Proof.
  destruct (find_first_gps_loss_returns str_exn str_cell fd) as [a Ha].
  destruct (get_gps_degradation_duration_returns str_exn fd) as [b Hb].
  destruct (analyze_raw_telemetry_returns str_exn str_telemetry fd) as [c Hc].
  assert (Htool : analyze_gps_health str_exn str_cell str_telemetry fd
                  = Return (GPS_HEALTH_REPORT a b c)).
  { unfold analyze_gps_health. rewrite Ha, Hb, Hc. reflexivity. }
  split.
  - exists a, b, c. split_conj; assumption.
  - intros Hnone. rewrite Htool.
    unfold find_first_gps_loss in Ha. rewrite Hnone in Ha. injection Ha as <-.
    unfold get_gps_degradation_duration in Hb. rewrite Hnone in Hb. injection Hb as <-.
    unfold analyze_raw_telemetry in Hc. rewrite Hnone in Hc. injection Hc as <-.
    reflexivity.
Qed.

End GpsHealth.

Lemma gps_health_composes_witness :
  analyze_gps_health sample_str_exn sample_str_cell sample_str_telemetry None
  = Return (GPS_HEALTH_REPORT NO_FLIGHT_DATA NO_FLIGHT_DATA
              "No flight data loaded. Cannot summarize telemetry.").
Proof.
  exact (proj2 (gps_health_composes sample_str_exn sample_str_cell sample_str_telemetry None)
               eq_refl).
Defined.

(* ===================================================================== *)
(** ** The sections of the summary of anomalies *)
(* ===================================================================== *)

Section SummarySections.

Variable str_exn : exn -> string.
Variable str_cell : cell -> string.
Variable int_of_str : string -> option Z.
Variable str_telemetry : telemetry -> string.

Definition EKF_SECTION (ekf_status : string) : string :=
  "🟧 **EKF Health Warnings:**" +:+ LF +:+ ekf_status.

(** X14: when the ERR log holds no EKF row, so that
    [analyze_ekf_health_status] gives its answer for a healthy filter,
    [summarize_all_anomalies] still files that answer under the heading
    EKF Health Warnings: the heading is chosen by looking for the word
    "error" in the answer, and the healthy answer speaks of "errors". *)
Theorem healthy_ekf_filed_as_warning fd :
  no_data fd = false ->
  analyze_ekf_health_status str_exn int_of_str fd = Return NO_EKF_ERRORS ->
  exists sections,
    anomaly_sections str_exn str_cell int_of_str str_telemetry fd = Return sections
    /\ In (EKF_SECTION NO_EKF_ERRORS) sections
    /\ summarize_all_anomalies str_exn str_cell int_of_str str_telemetry fd
       = Return (str_or (join (LF +:+ LF) sections) NO_ANOMALIES).
Proof.
  intros Hd Hekf.
  destruct (list_critical_errors_returns str_exn int_of_str fd) as [err Herr].
  destruct (analyze_gps_health_returns str_exn str_cell str_telemetry fd) as [gps Hgps].
  destruct (check_rc_signal_loss_returns str_exn fd) as [rc Hrc].
  destruct (detect_unusual_altitude_drops_returns str_exn fd 10 5) as [drops Hdrops].
  destruct (check_battery_temp_stability_returns str_exn fd) as [bat Hbat].
  assert (Hsections : exists sections,
            anomaly_sections str_exn str_cell int_of_str str_telemetry fd = Return sections
            /\ In (EKF_SECTION NO_EKF_ERRORS) sections).
  { unfold anomaly_sections. rewrite Herr, Hgps, Hrc, Hekf, Hdrops, Hbat. run.
    eexists. split; [reflexivity|].
    assert (Hword : contains "error" (lower NO_EKF_ERRORS) = true)
      by (vm_compute; reflexivity).
    rewrite Hword.
    apply in_or_app. right. right. right. left. reflexivity. }
  destruct Hsections as (sections & Hs & Hin).
  exists sections. split_conj; [exact Hs | exact Hin |].
  unfold summarize_all_anomalies. rewrite Hd, Hs. reflexivity.
Qed.

End SummarySections.

(** An ERR log with a compass error and no EKF row *)
Definition flight_with_healthy_ekf : dataset :=
  Some {[ "ERR" := LRows [record_of [("TimeUS", CNum 1000000); ("Subsys", CNum 3);
                                     ("ECode", CNum 1)]] ]}.

Lemma healthy_ekf_filed_as_warning_witness :
  analyze_ekf_health_status sample_str_exn sample_int_of_str flight_with_healthy_ekf
  = Return NO_EKF_ERRORS
  /\ exists sections,
       anomaly_sections sample_str_exn sample_str_cell sample_int_of_str
                        sample_str_telemetry flight_with_healthy_ekf = Return sections
       /\ In (EKF_SECTION NO_EKF_ERRORS) sections.
Proof.
  split; [vm_compute; reflexivity|].
  destruct (healthy_ekf_filed_as_warning sample_str_exn sample_str_cell sample_int_of_str
              sample_str_telemetry flight_with_healthy_ekf eq_refl eq_refl)
    as (sections & Hs & Hin & _).
  exists sections. split; [exact Hs | exact Hin].
Defined.

(* --------------------------------------------------------------------- *)
(** ** When the GPS signal is reported strong *)

Lemma time_column_present df tc divisor :
  _get_time_column_and_divisor df = (Some tc, divisor) -> has_col df tc = true.
Proof.
  unfold _get_time_column_and_divisor.
  destruct (List.find _ TIME_COLUMNS_DIVISORS) as [[col d]|] eqn:E; [|discriminate].
  intros [= <- <-]. apply find_some in E as [_ E]. exact E.
Qed.

Lemma indices_from_nil mask : forall i,
  indices_from i mask = [] <-> forall b, In b mask -> b = false.
Proof.
  induction mask as [|b mask IH]; intros i; simpl.
  - split; [intros _ b [] | reflexivity].
  - destruct b.
    + split; [discriminate|]. intros H. now specialize (H true (or_introl eq_refl)).
    + rewrite IH. split.
      * intros H b [<-|Hb]; [reflexivity | now apply H].
      * intros H b Hb. apply H. now right.
Qed.

(** A row that [gps_df['NSats'] < 6] selects *)
Definition low_satellites (r : gmap string cell) : bool :=
  flt (float_cell (cell_at "NSats" r)) (Some 6%Q).

Definition GPS_STRONG : string :=
  "GPS signal remained strong throughout the flight (NSats was always ≥ 6).".

(** Without strings in the time column the division goes through, and
    the sorted frame holds the rows of the log. *)
Lemma gps_sorted_rows gps_df tc divisor :
  has_col gps_df tc = true -> object_column gps_df tc = false ->
  exists sorted, gps_sorted gps_df tc divisor = Return sorted
                 /\ sorted.*2 ≡ₚ records gps_df.
Proof.
  intros Hc Ho. unfold gps_sorted, rows_div. rewrite Hc.
  rewrite (for_each_pure _ (fun r => fdiv (float_cell (cell_at tc r)) divisor)).
  - run. eexists. split; [reflexivity|].
    rewrite sort_values_perm. rewrite snd_zip; [reflexivity|].
    rewrite length_fmap. lia.
  - intros r Hr. unfold scalar_div.
    pose proof (object_column_false _ _ _ Ho Hr) as Hs.
    assert (Hn : is_None gps_df tc r = false).
    { unfold is_None. destruct (r !! tc) as [[]|]; try reflexivity. exact Ho. }
    rewrite Hn, (num_cell_float _ Hs). reflexivity.
Qed.

Lemma gps_degraded_indices_numeric (sorted : list (pyfloat * gmap string cell)) :
  (forall row, In row sorted -> is_str (cell_at "NSats" row.2) = false) ->
  gps_degraded_indices sorted
  = Return (indices_from 0
              ((fun row : pyfloat * gmap string cell => low_satellites row.2) <$> sorted)).
Proof.
  intros H. unfold gps_degraded_indices.
  rewrite (for_each_pure _ (fun row : pyfloat * gmap string cell => low_satellites row.2)).
  - reflexivity.
  - intros row Hrow. rewrite (num_cell_float _ (H row Hrow)). reflexivity.
Qed.

Section GpsDegradation.

Variable str_exn : exn -> string.

(** X18: on a GPS log with a time field, whose time and NSats hold
    numbers or nulls, [get_gps_degradation_duration] answers that the
    signal remained strong exactly when no row has NSats below 6.  A row
    whose NSats is null or missing counts as strong, and FixType plays no
    part, although [find_first_gps_loss] counts FixType < 2 as a
    degradation. *)
Theorem strong_gps_iff_no_low_satellites fd l gps_df tc divisor :
  no_data fd = false ->
  get_log fd "GPS" = Return l -> DataFrame l = Return gps_df ->
  has_col gps_df "NSats" = true ->
  _get_time_column_and_divisor gps_df = (Some tc, divisor) ->
  object_column gps_df "NSats" = false -> object_column gps_df tc = false ->
  get_gps_degradation_duration str_exn fd = Return GPS_STRONG
  <-> forall r, In r (records gps_df) -> low_satellites r = false.
Proof.
  intros Hd Hl Hdf Hn Htc Hon Hot.
  destruct (gps_sorted_rows gps_df tc divisor (time_column_present _ _ _ Htc) Hot)
    as (sorted & Hsorted & Hperm).
  assert (Hin : forall r, In r (records gps_df) <-> exists row, In row sorted /\ row.2 = r).
  { intros r. rewrite <- list_elem_of_In, <- Hperm, list_elem_of_fmap.
    split; intros (row & H1 & H2).
    - exists row. split; [now apply list_elem_of_In | now symmetry].
    - exists row. split; [now symmetry | now apply list_elem_of_In]. }
  assert (Hidx := gps_degraded_indices_numeric sorted).
  specialize (Hidx ltac:(intros row Hrow; apply (object_column_false gps_df);
                         [exact Hon | apply Hin; now exists row])).
  assert (Hnone : indices_from 0
                    ((fun row : pyfloat * gmap string cell => low_satellites row.2)
                       <$> sorted) = []
                  <-> forall r, In r (records gps_df) -> low_satellites r = false).
  { rewrite indices_from_nil. split.
    - intros H r Hr. apply Hin in Hr as (row & Hrow & <-). apply H.
      apply list_elem_of_In, list_elem_of_fmap. exists row.
      split; [reflexivity | now apply list_elem_of_In].
    - intros H b Hb. apply list_elem_of_In, list_elem_of_fmap in Hb as (row & -> & Hrow).
      apply H, Hin. exists row. split; [now apply list_elem_of_In | reflexivity]. }
  rewrite <- Hnone.
  unfold get_gps_degradation_duration.
  rewrite Hd, (get_log_has_log _ _ _ Hl), Hl.
  cbn [mbind outcome_bind negb]. rewrite Hdf.
  cbn [mbind outcome_bind negb]. rewrite Hn, Htc.
  cbn [mbind outcome_bind negb]. rewrite Hsorted.
  cbn [mbind outcome_bind negb]. rewrite Hidx.
  cbn [mbind outcome_bind negb].
  destruct (indices_from 0 _) as [|first rest].
  - cbn [catch]. split; reflexivity.
  - split; [|discriminate]. intros H. exfalso.
    destruct (_format_time_string _) as [formatted_duration|e].
    + cbn [mbind outcome_bind catch] in H. cbv [append GPS_STRONG] in H. discriminate H.
    + cbn [mbind outcome_bind catch] in H.
      destruct e; cbv [gps_handlers GPS_STRONG] in H; cbn [append] in H; discriminate H.
Qed.

End GpsDegradation.

(** Enough satellites throughout, one reading missing, but no 3D fix in
    the first row: the duration tool calls the signal strong, the tool
    for the first loss reports the fix type. *)
Definition gps_without_fix : list (gmap string cell) :=
  [record_of [("TimeUS", CNum 0); ("NSats", CNum 9); ("FixType", CNum 1)];
   record_of [("TimeUS", CNum 1000000); ("NSats", CNull); ("FixType", CNum 3)];
   record_of [("TimeUS", CNum 2000000); ("NSats", CNum 6); ("FixType", CNum 3)]].

Definition flight_without_fix : dataset := Some {[ "GPS" := LRows gps_without_fix ]}.

Lemma strong_gps_iff_no_low_satellites_witness :
  get_gps_degradation_duration sample_str_exn flight_without_fix = Return GPS_STRONG
  /\ find_first_gps_loss sample_str_exn sample_str_cell flight_without_fix
     = Return "GPS signal degradation was first observed at 00:00 (0.00 seconds raw) due to fix type ('FixType') was 1.".
Proof.
  split; [|vm_compute; reflexivity].
  apply (proj2 (strong_gps_iff_no_low_satellites sample_str_exn flight_without_fix
                  _ _ "TimeUS" 1000000%Z eq_refl
                  (eq_refl : get_log flight_without_fix "GPS" = Return _)
                  eq_refl eq_refl eq_refl eq_refl eq_refl)).
  intros r Hr. cbn [records] in Hr.
  repeat (destruct Hr as [<-|Hr]; [vm_compute; reflexivity|]). contradiction.
Defined.

(* --------------------------------------------------------------------- *)
(** ** Altitude drops and the threshold *)

(** The threshold is read once, in the last test of the iteration: a
    higher one keeps the drop or discards it, and changes neither an
    exception nor the drop itself. *)
Lemma drop_at_threshold rows (low high window_s : Q) anchor :
  (low <= high)%Q ->
  match drop_at rows low window_s anchor with
  | Return found =>
      exists kept, drop_at rows high window_s anchor = Return kept
                   /\ (kept = None \/ kept = found)
  | Raise e => drop_at rows high window_s anchor = Raise e
  end.
Proof.
  intros Hle. unfold drop_at. destruct anchor as [current_time current_alt].
  destruct (potential_drops rows window_s current_time current_alt)
    as [[|candidate candidates]|e]; cbn [mbind outcome_bind].
  - exists None. split; [reflexivity | now left].
  - destruct (existsb _ rows); [reflexivity|].
    destruct (arg_best _ _ _) as [[max_alt_in_window [time_of_max_drop|]]|];
      try reflexivity.
    destruct current_time as [t|]; try reflexivity.
    destruct (float_cell current_alt) as [alt|]; try reflexivity.
    destruct (Qle_bool high (alt - max_alt_in_window)) eqn:Hhigh.
    + assert (Hlow : Qle_bool low (alt - max_alt_in_window) = true).
      { apply Qle_bool_iff. apply Qle_bool_iff in Hhigh. lra. }
      rewrite Hlow. eexists. split; [reflexivity | now right].
    + destruct (Qle_bool low (alt - max_alt_in_window));
        eexists; (split; [reflexivity|]); [now left | now right].
  - reflexivity.
Qed.

Lemma drop_loop_threshold rows (low high window_s : Q) anchors :
  (low <= high)%Q ->
  match for_each (drop_at rows low window_s) anchors with
  | Return found =>
      exists kept, for_each (drop_at rows high window_s) anchors = Return kept
                   /\ omap id kept `sublist_of` omap id found
  | Raise e => for_each (drop_at rows high window_s) anchors = Raise e
  end.
Proof.
  intros Hle. induction anchors as [|anchor anchors IH]; cbn [for_each].
  - exists []. split; [reflexivity | constructor].
  - pose proof (drop_at_threshold rows low high window_s anchor Hle) as Hone.
    destruct (drop_at rows low window_s anchor) as [found1|e]; cbn [mbind outcome_bind].
    + destruct Hone as (kept1 & -> & Hkept1). cbn [mbind outcome_bind].
      destruct (for_each (drop_at rows low window_s) anchors) as [found|e];
        cbn [mbind outcome_bind mret outcome_ret].
      * destruct IH as (kept & -> & Hsub). cbn [mbind outcome_bind mret outcome_ret].
        exists (kept1 :: kept). split; [reflexivity|].
        destruct Hkept1 as [-> | ->].
        -- destruct found1; cbn [omap id]; [now apply sublist_cons | exact Hsub].
        -- destruct found1; cbn [omap id]; [now apply sublist_skip | exact Hsub].
      * rewrite IH. reflexivity.
    + rewrite Hone. reflexivity.
Qed.

Lemma drop_lines_nil drops : for_each drop_line drops = Return [] -> drops = [].
Proof. intros H. apply for_each_length in H. now destruct drops. Qed.

Section DropThreshold.

Variable str_exn : exn -> string.

(** X19: raising the threshold of [detect_unusual_altitude_drops] never
    adds a drop.  On any time-sorted series the drops found with the
    higher threshold are a sub-list, in order, of those found with the
    lower one, each with the same start, depth and duration, and the
    search raises the same exception with both or with neither.  So when
    the tool finds no unusual drop with a threshold, it finds none with
    any higher threshold. *)
Theorem higher_threshold_fewer_drops (low high window_s : Q) :
  (low <= high)%Q ->
  (forall rows,
     match find_drops rows low window_s with
     | Return found =>
         exists kept, find_drops rows high window_s = Return kept
                      /\ kept `sublist_of` found
     | Raise e => find_drops rows high window_s = Raise e
     end)
  /\ (forall fd,
        detect_unusual_altitude_drops str_exn fd low window_s = Return NO_DROPS ->
        detect_unusual_altitude_drops str_exn fd high window_s = Return NO_DROPS).
Proof.
  intros Hle.
  assert (Hfind : forall rows,
            match find_drops rows low window_s with
            | Return found =>
                exists kept, find_drops rows high window_s = Return kept
                             /\ kept `sublist_of` found
            | Raise e => find_drops rows high window_s = Raise e
            end).
  { intros rows. unfold find_drops.
    pose proof (drop_loop_threshold rows low high window_s rows Hle) as H.
    destruct (for_each (drop_at rows low window_s) rows) as [found|e];
      cbn [mbind outcome_bind].
    - destruct H as (kept & -> & Hsub). cbn [mbind outcome_bind].
      eexists. split; [reflexivity | exact Hsub].
    - rewrite H. reflexivity. }
  split; [exact Hfind|].
  intros fd. unfold detect_unusual_altitude_drops.
  destruct (no_data fd); [exact id|].
  destruct (negb (has_truthy_log fd "BARO")); [exact id|].
  destruct (get_log fd "BARO") as [l|e]; [|exact id].
  cbn [mbind outcome_bind]. destruct (DataFrame l) as [df|e]; [|exact id].
  cbn [mbind outcome_bind]. destruct (negb (has_col df "Alt")); [exact id|].
  destruct (_get_time_column_and_divisor df) as [[tc|] divisor]; [|exact id].
  destruct (baro_sorted df tc divisor) as [rows|e]; [|exact id].
  cbn [mbind outcome_bind].
  specialize (Hfind rows).
  destruct (find_drops rows low window_s) as [found|e].
  - destruct Hfind as (kept & -> & Hsub). cbn [mbind outcome_bind].
    destruct (for_each drop_line found) as [[|line lines]|e] eqn:Hlines;
      cbn [mbind outcome_bind catch].
    + apply drop_lines_nil in Hlines. subst found.
      apply sublist_nil_r in Hsub. subst kept. exact id.
    + intros H. exfalso. cbv [NO_DROPS] in H. cbn [append] in H. discriminate H.
    + intros H. exfalso.
      destruct e; cbv [NO_DROPS] in H; cbn [append] in H; discriminate H.
  - rewrite Hfind. exact id.
Qed.

End DropThreshold.

(** The steady descent again: with 12 m instead of 10 m the drop of
    exactly 10 m at 1 s is no longer reported; as a BARO log with the rows
    out of order, a threshold of 20 m finds nothing, and so does 30 m. *)
Definition flight_with_descent : dataset :=
  Some {[ "BARO" := LRows [record_of [("TimeUS", CNum 2000000); ("Alt", CNum 90)];
                           record_of [("TimeUS", CNum 0); ("Alt", CNum 100)];
                           record_of [("TimeUS", CNum 3000000); ("Alt", CNum 85)];
                           record_of [("TimeUS", CNum 1000000); ("Alt", CNum 95)]] ]}.

Lemma higher_threshold_fewer_drops_witness :
  (find_drops (series_rows steady_descent) 12 5 = Return [Drop 0 (100 - 85) (3 - 0)]
   /\ exists kept,
        find_drops (series_rows steady_descent) 12 5 = Return kept
        /\ kept `sublist_of` [Drop 0 (100 - 85) (3 - 0); Drop 1 (95 - 85) (3 - 1)])
  /\ detect_unusual_altitude_drops sample_str_exn flight_with_descent 30 5
     = Return NO_DROPS.
Proof.
  split.
  - split; [vm_compute; reflexivity|].
    assert (Hle : (10 <= 12)%Q) by (vm_compute; discriminate).
    exact (proj1 (higher_threshold_fewer_drops sample_str_exn 10 12 5 Hle)
             (series_rows steady_descent)).
  - assert (Hle : (20 <= 30)%Q) by (vm_compute; discriminate).
    apply (proj2 (higher_threshold_fewer_drops sample_str_exn 20 30 5 Hle)).
    vm_compute. reflexivity.
Defined.

(* --------------------------------------------------------------------- *)
(** ** A log that is present but empty *)

(** A log uploaded as an empty list, an empty object or null *)
Definition empty_log (l : log) : bool :=
  match l with
  | LRows rows => bool_decide (rows = [])
  | LWide cols => bool_decide (cols = ∅)
  | LNull => true
  | LScalar _ => false
  end.

Lemma empty_log_frame l :
  empty_log l = true -> truthy l = false /\ DataFrame l = Return (Frame ∅ []).
Proof.
  destruct l as [rows|cols| |b]; cbn [empty_log]; intros H; try discriminate.
  - apply bool_decide_eq_true in H. subst rows. split; reflexivity.
  - apply bool_decide_eq_true in H. subst cols. split; vm_compute; reflexivity.
  - split; reflexivity.
Qed.

Lemma get_log_data fd name l : get_log fd name = Return l -> no_data fd = false.
Proof.
  destruct fd as [d|]; simpl; [|discriminate].
  destruct (d !! name) eqn:E; [|discriminate]. intros _.
  apply bool_decide_eq_false. intros ->. now rewrite lookup_empty in E.
Qed.

Section EmptyLogs.

Variable str_exn : exn -> string.
Variable str_cell : cell -> string.
Variable int_of_str : string -> option Z.

(** What a tool sees of the flight data when the log [name] is empty *)
Ltac empty_log_answer Hl He :=
  let Ht := fresh "Ht" in
  let Hdf := fresh "Hdf" in
  let Hd := fresh "Hd" in
  let Hh := fresh "Hh" in
  let Hy := fresh "Hy" in
  destruct (empty_log_frame _ He) as [Ht Hdf];
  pose proof (get_log_data _ _ _ Hl) as Hd;
  pose proof (get_log_has_log _ _ _ Hl) as Hh;
  pose proof (get_log_truthy _ _ _ Hl) as Hy;
  rewrite Ht in Hy;
  rewrite ?Hd, ?Hh, ?Hy, ?Hl;
  cbn [negb andb orb mbind outcome_bind];
  rewrite ?Hdf;
  reflexivity.

(** X20: a log that is present in the flight data but empty (an empty
    list, an empty object or null) never makes a tool fail, and each tool
    names what it missed first.  For an empty GPS log the three GPS tools
    give three different reasons: no timestamp column, no NSats field, no
    GPS data.  For an empty BARO log one tool misses the Alt field and the
    other the whole log; an empty BAT or MODE log counts as missing; an
    empty ERR log gives the all-clear of [list_critical_errors], while the
    two other ERR tools call it empty or not found. *)
Theorem empty_log_answers fd l :
  empty_log l = true ->
  (get_log fd "GPS" = Return l ->
     find_first_gps_loss str_exn str_cell fd = Return NO_GPS_TIMESTAMP
     /\ get_gps_degradation_duration str_exn fd
        = Return "GPS satellite count ('NSats') not available in the log. Cannot calculate degradation duration."
     /\ get_total_flight_time str_exn fd
        = Return "No 'GPS' data found in the flight log. Unable to calculate flight time.")
  /\ (get_log fd "BARO" = Return l ->
        get_highest_altitude str_exn fd
        = Return "BARO log does not contain an 'Alt' (altitude) field. Unable to find highest altitude."
        /\ forall threshold_m window_s,
             detect_unusual_altitude_drops str_exn fd threshold_m window_s
             = Return "BARO log data not found in the flight data. Cannot detect altitude drops.")
  /\ (get_log fd "BAT" = Return l ->
        get_max_battery_temperature str_exn fd = Return NO_BAT_LOG
        /\ check_battery_temp_stability str_exn fd = Return NO_BAT_LOG)
  /\ (get_log fd "MODE" = Return l ->
        list_mode_changes str_exn str_cell int_of_str fd
        = Return "MODE log is missing or empty. Cannot determine flight mode changes.")
  /\ (get_log fd "ERR" = Return l ->
        list_critical_errors str_exn int_of_str fd
        = Return "✅ No 'ERR' (error) messages found in the flight log."
        /\ detect_sensor_triggered_failsafe str_exn str_cell fd
           = Return "ERR log is empty or malformed."
        /\ analyze_ekf_health_status str_exn int_of_str fd
           = Return "No 'ERR' log data found to analyze EKF health status.").
Proof.
  intros He. split_conj; intros Hl; split_conj.
  - unfold find_first_gps_loss. empty_log_answer Hl He.
  - unfold get_gps_degradation_duration. empty_log_answer Hl He.
  - unfold get_total_flight_time. empty_log_answer Hl He.
  - unfold get_highest_altitude. empty_log_answer Hl He.
  - intros threshold_m window_s. unfold detect_unusual_altitude_drops.
    empty_log_answer Hl He.
  - unfold get_max_battery_temperature. empty_log_answer Hl He.
  - unfold check_battery_temp_stability. empty_log_answer Hl He.
  - unfold list_mode_changes. empty_log_answer Hl He.
  - unfold list_critical_errors. empty_log_answer Hl He.
  - unfold detect_sensor_triggered_failsafe.
    rewrite (get_log_data _ _ _ Hl), (get_log_has_log _ _ _ Hl), Hl.
    cbn [negb mbind outcome_bind].
    destruct l as [[|row rows]|cols| |b]; try discriminate He; reflexivity.
  - unfold analyze_ekf_health_status. empty_log_answer Hl He.
Qed.

End EmptyLogs.

(** An upload whose logs are all there and all empty *)
Definition flight_with_empty_logs : dataset :=
  Some {[ "GPS" := LRows []; "BARO" := LRows []; "BAT" := LRows [];
          "MODE" := LRows []; "ERR" := LRows [] ]}.

Lemma empty_log_answers_witness :
  (find_first_gps_loss sample_str_exn sample_str_cell flight_with_empty_logs
   = Return NO_GPS_TIMESTAMP
   /\ get_gps_degradation_duration sample_str_exn flight_with_empty_logs
      = Return "GPS satellite count ('NSats') not available in the log. Cannot calculate degradation duration."
   /\ get_total_flight_time sample_str_exn flight_with_empty_logs
      = Return "No 'GPS' data found in the flight log. Unable to calculate flight time.")
  /\ (get_highest_altitude sample_str_exn flight_with_empty_logs
      = Return "BARO log does not contain an 'Alt' (altitude) field. Unable to find highest altitude."
      /\ detect_unusual_altitude_drops sample_str_exn flight_with_empty_logs 10 5
         = Return "BARO log data not found in the flight data. Cannot detect altitude drops.")
  /\ list_critical_errors sample_str_exn sample_int_of_str flight_with_empty_logs
     = Return "✅ No 'ERR' (error) messages found in the flight log.".
Proof.
  destruct (empty_log_answers sample_str_exn sample_str_cell sample_int_of_str
              flight_with_empty_logs (LRows []) eq_refl)
    as (Hgps & Hbaro & _ & _ & Herr).
  split; [exact (Hgps eq_refl)|].
  split; [|exact (proj1 (Herr eq_refl))].
  destruct (Hbaro eq_refl) as [Halt Hdrops].
  split; [exact Halt | exact (Hdrops 10%Q 5%Q)].
Defined.

(* ===================================================================== *)
(** * The shared flight data and the HTTP views (data_parser.py, app.py) *)
(* ===================================================================== *)

(** What [request.get_json()] hands to [set_data]: null, an object (the
    dictionary of logs), or any other JSON value, of which only the truth
    value matters. *)
Inductive json_body :=
| JNull
| JObject (logs : gmap string log)
| JOther (truthy : bool).

(** [not parsed_data] is the negation of this. *)
Definition body_truthy (parsed_data : json_body) : bool :=
  match parsed_data with
  | JNull => false
  | JObject logs => negb (bool_decide (logs = ∅))
  | JOther truthy => truthy
  end.

(** The module variable [SHARED_FLIGHT_DATA] is the state; [None] when
    the module is loaded. *)
Definition set_flight_data (data : gmap string log) (SHARED_FLIGHT_DATA : dataset)
    : dataset :=
  Some data.

Definition get_flight_data (SHARED_FLIGHT_DATA : dataset) : dataset :=
  SHARED_FLIGHT_DATA.

(** The answer of a view: a status with its text, or an exception that
    leaves the view function. *)
Inductive response :=
| Response (status : Z) (text : string)
| Unhandled.

(** [POST /api/set-flight-data]: a value that is not an object has no
    [keys()], so the view raises before it stores anything. *)
Definition set_data (parsed_data : json_body) (SHARED_FLIGHT_DATA : dataset)
    : response * dataset :=
  if negb (body_truthy parsed_data) then
    (Response 400 "No data received", SHARED_FLIGHT_DATA)
  else
    match parsed_data with
    | JObject logs =>
        (Response 200 "Data cached and agent is ready.",
         set_flight_data logs SHARED_FLIGHT_DATA)
    | _ => (Unhandled, SHARED_FLIGHT_DATA)
    end.

(** The JSON body of a chat request: an object, with its [message] if it
    has one that is a string, or something that has no [get]. *)
Inductive chat_json :=
| ChatObject (message : option string)
| ChatOther.

Inductive request :=
| PostFlightData (parsed_data : json_body)
| PostChat (data : chat_json).

Section Views.

Variable str_exn : exn -> string.
(** [agent.invoke] followed by the reading of the last message: the
    language model and its memory are outside the development, so the
    answer may depend on all the requests served before. *)
Variable agent_invoke : list request -> string -> dataset -> outcome string.

(** [POST /api/chat], with the call of the agent it makes, if any *)
Definition chat (served : list request) (data : chat_json) (SHARED_FLIGHT_DATA : dataset)
    : response * option (string * dataset) :=
  match get_flight_data SHARED_FLIGHT_DATA with
  | None => (Response 400 "Please upload and process a log file first.", None)
  | Some _ =>
      match data with
      | ChatOther => (Unhandled, None)
      | ChatObject None => (Response 400 "No message provided", None)
      | ChatObject (Some user_message) =>
          if String.eqb user_message EmptyString then
            (Response 400 "No message provided", None)
          else
            (match agent_invoke served user_message SHARED_FLIGHT_DATA with
             | Return answer => Response 200 answer
             | Raise e => Response 500 ("An error occurred: " +:+ str_exn e)
             end,
             Some (user_message, SHARED_FLIGHT_DATA))
      end
  end.

(** One request: the answer, the call of the agent and the new state *)
Definition handle (served : list request) (r : request) (SHARED_FLIGHT_DATA : dataset)
    : response * option (string * dataset) * dataset :=
  match r with
  | PostFlightData parsed_data =>
      let '(answer, stored) := set_data parsed_data SHARED_FLIGHT_DATA in
      (answer, None, stored)
  | PostChat data =>
      let '(answer, call) := chat served data SHARED_FLIGHT_DATA in
      (answer, call, SHARED_FLIGHT_DATA)
  end.

(** The requests served one after the other: the calls of the agent, in
    order, and the final state *)
Fixpoint serve (served requests : list request) (SHARED_FLIGHT_DATA : dataset)
    : list (string * dataset) * dataset :=
  match requests with
  | [] => ([], SHARED_FLIGHT_DATA)
  | r :: rest =>
      let '(_, call, stored) := handle served r SHARED_FLIGHT_DATA in
      let '(calls, final) := serve (served ++ [r]) rest stored in
      (match call with
       | Some c => c :: calls
       | None => calls
       end, final)
  end.

(** The upload that a request stores, if it stores one *)
Definition accepted (r : request) : option (gmap string log) :=
  match r with
  | PostFlightData (JObject logs) => if bool_decide (logs = ∅) then None else Some logs
  | _ => None
  end.

Lemma handle_store served r store :
  (handle served r store).2 = from_option Some store (accepted r).
Proof.
  destruct r as [[|logs|[]]|data]; try reflexivity.
  - unfold handle, set_data, accepted. cbn [body_truthy].
    destruct (bool_decide (logs = ∅)); reflexivity.
  - unfold handle. destruct (chat served data store). reflexivity.
Qed.

Lemma serve_store requests : forall served store,
  (serve served requests store).2
  = from_option Some store (last (omap accepted requests)).
Proof.
  induction requests as [|r rest IH]; intros served store; [reflexivity|].
  cbn [serve]. pose proof (handle_store served r store) as Hh.
  destruct (handle served r store) as [[answer call] stored]. cbn [snd] in Hh.
  specialize (IH (served ++ [r]) stored).
  destruct (serve (served ++ [r]) rest stored) as [calls final]. cbn [snd] in IH |- *.
  rewrite IH, Hh.
  change (omap accepted (r :: rest))
    with (match accepted r with
          | Some logs => logs :: omap accepted rest
          | None => omap accepted rest
          end).
  destruct (accepted r) as [logs|]; cbn [from_option]; [|reflexivity].
  rewrite last_cons. destruct (last (omap accepted rest)); reflexivity.
Qed.

Lemma accepted_not_empty r logs : accepted r = Some logs -> logs <> ∅.
Proof.
  destruct r as [[|d|]|]; try discriminate. unfold accepted.
  destruct (bool_decide (d = ∅)) eqn:E; [discriminate|].
  intros [= <-]. now apply bool_decide_eq_false in E.
Qed.

(** X15: starting with no flight data, after any sequence of requests
    the shared flight data is the dictionary of the last upload that was a
    non-empty JSON object, and [None] if there was none: an upload that is
    empty, null or not an object is answered with status 400 or with an
    exception and leaves the stored data as it was, and a chat request
    never changes it.  So the stored data is never an empty dictionary. *)
Theorem stored_data_is_last_upload (requests : list request) :
  let final := (serve [] requests None).2 in
  final = last (omap accepted requests)
  /\ (final = None \/ exists logs, final = Some logs /\ logs <> ∅)
  /\ (forall parsed_data store,
        (set_data parsed_data store).1 <> Response 200 "Data cached and agent is ready." ->
        (set_data parsed_data store).2 = store)
  /\ (forall served data store, (handle served (PostChat data) store).2 = store).
Proof.
  cbv zeta. rewrite serve_store.
  split_conj.
  - destruct (last (omap accepted requests)); reflexivity.
  - destruct (last (omap accepted requests)) as [logs|] eqn:E; [|now left].
    right. exists logs. split; [reflexivity|].
    apply last_Some in E as (l' & E).
    assert (Hin : logs ∈ omap accepted requests) by (rewrite E; set_solver).
    apply list_elem_of_omap in Hin as (r & _ & Hr).
    exact (accepted_not_empty r logs Hr).
  - intros parsed_data store. unfold set_data.
    destruct (negb (body_truthy parsed_data)); [reflexivity|].
    destruct parsed_data; [reflexivity | | reflexivity].
    intros H. now contradiction H.
  - intros served data store. unfold handle.
    destruct (chat served data store). reflexivity.
Qed.

Lemma serve_calls requests : forall served store,
  (store = None \/ exists logs, store = Some logs /\ logs <> ∅) ->
  Forall (fun call : string * dataset => call.1 <> EmptyString /\ no_data call.2 = false)
         (serve served requests store).1.
Proof.
  induction requests as [|r rest IH]; intros served store Hstore; [constructor|].
  cbn [serve].
  pose proof (handle_store served r store) as Hh.
  assert (Hcall : match (handle served r store).1.2 with
                  | Some call => call.1 <> EmptyString /\ no_data call.2 = false
                  | None => True
                  end).
  { destruct r as [parsed_data|data]; cbn [handle].
    - destruct (set_data parsed_data store). exact I.
    - unfold chat, get_flight_data.
      destruct Hstore as [-> | (logs & -> & Hlogs)]; [exact I|].
      destruct data as [[user_message|]|]; cbn [fst snd]; try exact I.
      destruct (String.eqb_spec user_message EmptyString) as [|Hne]; cbn [fst snd];
        [exact I|].
      split; [exact Hne|]. cbn [no_data]. now apply bool_decide_eq_false. }
  destruct (handle served r store) as [[answer call] stored]. cbn [fst snd] in Hh, Hcall.
  assert (Hstored : stored = None \/ exists logs, stored = Some logs /\ logs <> ∅).
  { rewrite Hh. destruct (accepted r) as [logs|] eqn:E; cbn [from_option]; [|exact Hstore].
    right. exists logs. split; [reflexivity | exact (accepted_not_empty r logs E)]. }
  specialize (IH (served ++ [r]) stored Hstored).
  destruct (serve (served ++ [r]) rest stored) as [calls final]. cbn [fst] in IH |- *.
  destruct call as [c|]; [constructor; assumption | exact IH].
Qed.

(** X16: starting with no flight data, whatever requests are served,
    every call of the agent made by [chat] carries a non-empty message and
    finds flight data that is loaded and not empty: before the first
    accepted upload every chat request is answered with status 400 and the
    agent is not called.  So a tool run by the agent for a chat request
    never meets the case [not flight_data]. *)
Theorem agent_called_with_data (requests : list request) :
  Forall (fun call : string * dataset => call.1 <> EmptyString /\ no_data call.2 = false)
         (serve [] requests None).1
  /\ (forall served data,
        chat served data None
        = (Response 400 "Please upload and process a log file first.", None)).
Proof.
  split; [apply serve_calls; now left | reflexivity].
Qed.

End Views.

(** A chat before any upload, an empty upload, a real upload, an upload
    that is a JSON list, and a chat: the real upload stays stored and only
    the last chat reaches the agent. *)
Definition sample_agent (served : list request) (message : string) (fd : dataset)
    : outcome string :=
  Return "ok".

Definition sample_requests : list request :=
  [PostChat (ChatObject (Some "When did GPS degrade?"));
   PostFlightData (JObject ∅);
   PostFlightData (JObject {[ "GPS" := LRows gps_out_of_order ]});
   PostFlightData (JOther true);
   PostChat (ChatObject (Some "When did GPS degrade?"))].

Lemma stored_data_is_last_upload_witness :
  (serve sample_str_exn sample_agent [] sample_requests None).2 = flight_gps_out_of_order
  /\ (set_data (JOther true) flight_gps_out_of_order).1
     <> Response 200 "Data cached and agent is ready."
  /\ (set_data (JOther true) flight_gps_out_of_order).2 = flight_gps_out_of_order.
Proof.
  destruct (stored_data_is_last_upload sample_str_exn sample_agent sample_requests)
    as (Hfinal & _ & Hrejected & _).
  split; [rewrite Hfinal; vm_compute; reflexivity|].
  assert (Hno : (set_data (JOther true) flight_gps_out_of_order).1
                <> Response 200 "Data cached and agent is ready.") by discriminate.
  split; [exact Hno | exact (Hrejected _ _ Hno)].
Defined.

Lemma agent_called_with_data_witness :
  (serve sample_str_exn sample_agent [] sample_requests None).1
  = [("When did GPS degrade?", flight_gps_out_of_order)]
  /\ Forall (fun call : string * dataset =>
               call.1 <> EmptyString /\ no_data call.2 = false)
            (serve sample_str_exn sample_agent [] sample_requests None).1.
Proof.
  split; [vm_compute; reflexivity|].
  exact (proj1 (agent_called_with_data sample_str_exn sample_agent sample_requests)).
Defined.

(* ===================================================================== *)
(** * The action node of the agent (agent_setup.py) *)
(* ===================================================================== *)

(** The arguments of a tool call as the declared schemas read them:
    [search_term] has no default, [threshold_m] and [window_s] default to
    10 and 5; the other tools take no argument. *)
Record tool_args := ToolArgs {
  arg_search_term : option string;
  arg_threshold_m : option Q;
  arg_window_s : option Q
}.

(** A tool call of the model's last message *)
Record tool_call := ToolCall {
  call_name : string;
  call_args : tool_args;
  call_id : string
}.

(** [ToolMessage(content=..., tool_call_id=...)] *)
Record tool_message := ToolMessage {
  content : string;
  tool_call_id : string
}.

Section Agent.

Variable str_exn : exn -> string.
Variable str_cell : cell -> string.
Variable int_of_str : string -> option Z.
Variable documentation_lookup : string -> outcome string.
Variable str_telemetry : telemetry -> string.

(** The flight data that the tools find when they run *)
Variable flight_data : dataset.

(** The tools with the arguments of a call bound *)
Definition bound_tools (args : tool_args) : list (string * (dataset -> outcome string)) :=
  all_tools str_exn str_cell int_of_str documentation_lookup str_telemetry
    (default EmptyString (arg_search_term args))
    (default 10%Q (arg_threshold_m args)) (default 5%Q (arg_window_s args)).

(** [{tool.name: tool for tool in all_tools}[name]]: of two tools of one
    name the later one would win; a name that is absent raises
    [KeyError]. *)
Definition tool_to_call (args : tool_args) (name : string)
    : outcome (dataset -> outcome string) :=
  match List.find (fun t : string * (dataset -> outcome string) => String.eqb t.1 name)
                  (rev (bound_tools args)) with
  | Some (_, tool) => Return tool
  | None => Raise (KeyError name)
  end.

(** [tool.invoke(args)]: the validation of the arguments fails when the
    required [search_term] is missing. *)
Definition invoke (name : string) (tool : dataset -> outcome string) (args : tool_args)
    : outcome string :=
  if String.eqb name "lookup_ardupilot_documentation"
     && negb (present (arg_search_term args))
  then Raise ValueError
  else tool flight_data.

Definition run_tool_call (c : tool_call) : outcome tool_message :=
  tool ← tool_to_call (call_args c) (call_name c);
  output ← invoke (call_name c) tool (call_args c);
  Return (ToolMessage output (call_id c)).

(** [call_tool], from the tool calls of the last message to the messages
    it returns *)
Definition call_tool (tool_calls : list tool_call) : outcome (list tool_message) :=
  for_each run_tool_call tool_calls.

(** [should_continue], from the tool calls of the last message *)
Definition should_continue (tool_calls : list tool_call) : string :=
  match tool_calls with
  | [] => "end"
  | _ :: _ => "action"
  end.

Definition tool_names : list string :=
  ["get_highest_altitude"; "find_first_gps_loss"; "get_max_battery_temperature";
   "get_total_flight_time"; "list_critical_errors"; "check_rc_signal_loss";
   "analyze_flight_anomalies"; "lookup_ardupilot_documentation";
   "get_gps_degradation_duration"; "detect_unusual_altitude_drops";
   "analyze_raw_telemetry"; "check_battery_temp_stability"; "list_mode_changes";
   "analyze_gps_health"; "correlate_errors_with_mode_changes";
   "detect_sensor_triggered_failsafe"; "analyze_ekf_health_status";
   "summarize_all_anomalies"].

(** A call that the action node can carry out: a registered name, and a
    search term when the documentation is looked up *)
Definition well_formed_call (c : tool_call) : Prop :=
  In (call_name c) tool_names
  /\ (call_name c = "lookup_ardupilot_documentation" ->
      arg_search_term (call_args c) <> None).

Lemma bound_tool_returns args name tool fd :
  In (name, tool) (bound_tools args) -> returns (tool fd).
Proof.
  unfold bound_tools, all_tools. simpl. intros H.
  repeat (destruct H as [H|H]; [inversion H; subst; clear H|]); try contradiction.
  all: first [ apply get_highest_altitude_returns
             | apply find_first_gps_loss_returns
             | apply get_max_battery_temperature_returns
             | apply get_total_flight_time_returns
             | apply list_critical_errors_returns
             | apply check_rc_signal_loss_returns
             | apply lookup_ardupilot_documentation_returns
             | apply get_gps_degradation_duration_returns
             | apply detect_unusual_altitude_drops_returns
             | apply analyze_raw_telemetry_returns
             | apply check_battery_temp_stability_returns
             | apply list_mode_changes_returns
             | apply analyze_gps_health_returns
             | apply correlate_errors_with_mode_changes_returns
             | apply detect_sensor_triggered_failsafe_returns
             | apply analyze_ekf_health_status_returns
             | apply summarize_all_anomalies_returns
             | apply returns_Return ].
Qed.

Lemma bound_tool_names args : (bound_tools args).*1 = tool_names.
Proof. reflexivity. Qed.

(** The name decides the entry of the dictionary. *)
Lemma tool_to_call_spec args name :
  (In name tool_names ->
   exists tool, tool_to_call args name = Return tool /\ In (name, tool) (bound_tools args))
  /\ (~ In name tool_names -> tool_to_call args name = Raise (KeyError name)).
Proof.
  unfold tool_to_call.
  destruct (List.find _ (rev (bound_tools args))) as [[n tool]|] eqn:E.
  - apply find_some in E as [Hin Hn]. cbn [fst] in Hn. apply String.eqb_eq in Hn. subst n.
    apply in_rev in Hin. split.
    + intros _. exists tool. split; [reflexivity | exact Hin].
    + intros Hnot. exfalso. apply Hnot. rewrite <- (bound_tool_names args).
      apply list_elem_of_In, list_elem_of_fmap. exists (name, tool).
      split; [reflexivity | now apply list_elem_of_In].
  - split; [|reflexivity]. intros Hin. exfalso.
    rewrite <- (bound_tool_names args) in Hin.
    apply list_elem_of_In, list_elem_of_fmap in Hin as ([n tool] & -> & Hin).
    apply list_elem_of_In, in_rev in Hin.
    apply (find_none _ _ E) in Hin. cbn [fst] in Hin.
    now rewrite String.eqb_refl in Hin.
Qed.

Lemma run_tool_call_returns c :
  well_formed_call c ->
  exists output, run_tool_call c = Return (ToolMessage output (call_id c)).
Proof.
  intros [Hname Hterm]. unfold run_tool_call.
  destruct (proj1 (tool_to_call_spec (call_args c) (call_name c)) Hname)
    as (tool & -> & Hin).
  run. unfold invoke.
  destruct (bound_tool_returns _ _ _ flight_data Hin) as [output Hout].
  destruct (String.eqb_spec (call_name c) "lookup_ardupilot_documentation") as [Hl|_];
    cbn [andb].
  - specialize (Hterm Hl). destruct (arg_search_term (call_args c)); [|contradiction].
    cbn [present negb]. rewrite Hout. eauto.
  - rewrite Hout. eauto.
Qed.

Lemma run_tool_call_unknown c :
  ~ In (call_name c) tool_names -> run_tool_call c = Raise (KeyError (call_name c)).
Proof.
  intros H. unfold run_tool_call.
  now rewrite (proj2 (tool_to_call_spec _ _) H).
Qed.

(** X17: when every tool call of the model's last message names a
    registered tool (with a search term for the documentation lookup),
    [call_tool] returns one [ToolMessage] for each call, in the order of
    the calls and with the id of its call, and raises nothing.  When a
    call names a tool that is not registered, and the calls before it are
    well formed, [call_tool] raises [KeyError] for that name and returns no
    message at all, so the answers of the calls before it are lost. *)
Theorem call_tool_answers_each_call :
  (forall tool_calls,
     Forall well_formed_call tool_calls ->
     exists messages,
       call_tool tool_calls = Return messages
       /\ tool_call_id <$> messages = call_id <$> tool_calls)
  /\ (forall before unknown after,
        Forall well_formed_call before ->
        ~ In (call_name unknown) tool_names ->
        call_tool (before ++ unknown :: after) = Raise (KeyError (call_name unknown))).
Proof.
  split.
  - unfold call_tool. induction 1 as [|c calls Hc _ (messages & Hm & Hids)].
    + exists []. split; reflexivity.
    + destruct (run_tool_call_returns c Hc) as (output & Hout).
      exists (ToolMessage output (call_id c) :: messages). split.
      * cbn [for_each]. rewrite Hout. run. rewrite Hm. reflexivity.
      * rewrite !fmap_cons. cbn [tool_call_id]. now rewrite Hids.
  - intros before unknown after Hbefore Hunknown. unfold call_tool.
    induction Hbefore as [|c calls Hc _ IH].
    + cbn [app for_each]. rewrite (run_tool_call_unknown _ Hunknown). reflexivity.
    + destruct (run_tool_call_returns c Hc) as (output & Hout).
      cbn [app for_each]. rewrite Hout. run. rewrite IH. reflexivity.
Qed.

End Agent.

(** Two calls of registered tools, then the same with a call of a tool
    that does not exist in between *)
Definition no_args : tool_args := ToolArgs None None None.

Definition sample_calls : list tool_call :=
  [ToolCall "get_total_flight_time" no_args "call_1";
   ToolCall "find_first_gps_loss" no_args "call_2"].

Definition unknown_call : tool_call := ToolCall "get_flight_path" no_args "call_3".

Lemma call_tool_answers_each_call_witness :
  (exists messages,
      call_tool sample_str_exn sample_str_cell sample_int_of_str
                sample_documentation_lookup sample_str_telemetry
                flight_gps_out_of_order sample_calls = Return messages
      /\ tool_call_id <$> messages = ["call_1"; "call_2"])
  /\ call_tool sample_str_exn sample_str_cell sample_int_of_str
               sample_documentation_lookup sample_str_telemetry
               flight_gps_out_of_order
               ([ToolCall "get_total_flight_time" no_args "call_1"]
                ++ unknown_call :: [ToolCall "find_first_gps_loss" no_args "call_2"])
     = Raise (KeyError "get_flight_path").
Proof.
  destruct (call_tool_answers_each_call sample_str_exn sample_str_cell sample_int_of_str
              sample_documentation_lookup sample_str_telemetry flight_gps_out_of_order)
    as [Hall Hunknown].
  split.
  - apply (Hall sample_calls).
    repeat (constructor; [split; [simpl; tauto | discriminate]|]). constructor.
  - apply (Hunknown [ToolCall "get_total_flight_time" no_args "call_1"] unknown_call).
    + repeat (constructor; [split; [simpl; tauto | discriminate]|]). constructor.
    + simpl. intros H.
      repeat (destruct H as [H|H]; [discriminate H|]). exact H.
Defined.
